(** * processFounders.js: retry, snapshot polling and batch orchestration

    A shallow embedding of [src/processFounders.js].  Asynchronous code is
    rendered sequentially (the source awaits every promise at once), the
    outside world (proxy, dataset API, language model, clock, file system)
    is a record of oracles answering on the history of the run, and
    JavaScript exceptions are an explicit [Throw] outcome. *)

From Stdlib Require Import ZArith QArith Qpower Qminmax Permutation Sorted Ascii.
From stdpp Require Import gmap strings list.
From Equations Require Import Equations.

Set Warnings "-register-all".

Local Open Scope string_scope.
Local Open Scope list_scope.

(** ** JavaScript data *)

(** Values produced by [JSON.parse].  Numbers are exact rationals, which
    cover every finite double. *)
Inductive json : Type :=
| JNull
| JBool (b : bool)
| JNum (q : Q)
| JStr (s : string)
| JArr (items : list json)
| JObj (fields : list (string * json)).

(** An [Error] object; only its [message] is ever read. *)
Record js_error : Type := Error { message : string }.

(** The result of running a piece of code: a value, or a thrown error. *)
Inductive outcome (A : Type) : Type :=
| Return (a : A)
| Throw (e : js_error).
Arguments Return {A} a.
Arguments Throw {A} e.

(** A [TypeError] raised by the engine, with the engine's wording as its
    [message]. *)
Definition TypeError (what : string) : js_error := Error what.

(** Own-property lookup in an object; [JSON.parse] keeps one value per
    key, so the first binding is the only one. *)
Fixpoint lookup_field (k : string) (fields : list (string * json)) : option json :=
  match fields with
  | [] => None
  | (k', v) :: rest => if String.eqb k k' then Some v else lookup_field k rest
  end.

(** [v.k] for a value [v] that is neither [null] nor [undefined], and a
    key [k] that no prototype defines: [undefined] ([None]) unless [v] is
    an object that has the field. *)
Definition get (v : json) (k : string) : option json :=
  match v with
  | JObj fields => lookup_field k fields
  | _ => None
  end.

(** JavaScript truthiness. *)
Definition truthy (v : json) : bool :=
  match v with
  | JNull => false
  | JBool b => b
  | JNum q => negb (Qeq_bool q 0)
  | JStr s => negb (String.eqb s "")
  | JArr _ => true
  | JObj _ => true
  end.

(** Truthiness of a possibly [undefined] value. *)
Definition truthy_opt (v : option json) : bool :=
  match v with
  | None => false
  | Some x => truthy x
  end.

(** ** Strings *)

Fixpoint starts_with (p s : string) : bool :=
  match p, s with
  | EmptyString, _ => true
  | String a p', String b s' => Ascii.eqb a b && starts_with p' s'
  | String _ _, EmptyString => false
  end.

Fixpoint drop_string (n : nat) (s : string) : string :=
  match n, s with
  | O, _ => s
  | S n', String _ s' => drop_string n' s'
  | S _, EmptyString => EmptyString
  end.

(** [String.prototype.includes]. *)
Fixpoint includes (needle s : string) : bool :=
  starts_with needle s ||
  match s with
  | EmptyString => false
  | String _ s' => includes needle s'
  end.

(** [s.split(sep)] for a one-character separator. *)
Fixpoint split (sep : ascii) (s : string) : list string :=
  match s with
  | EmptyString => [EmptyString]
  | String c rest =>
      if Ascii.eqb c sep then EmptyString :: split sep rest
      else match split sep rest with
           | h :: t => String c h :: t
           | [] => [String c EmptyString]
           end
  end.

(** The longest prefix of [s] whose characters all satisfy [p]. *)
Fixpoint take_while (p : ascii -> bool) (s : string) : string :=
  match s with
  | EmptyString => EmptyString
  | String c rest => if p c then String c (take_while p rest) else EmptyString
  end.

Definition nonempty (s : string) : bool := negb (String.eqb s "").

(** ** Records of the pipeline *)

Module InputRecord.
Record t : Type := {
  founderName : string;
  companyName : string;
  email : string;
  searchQuery : string
}.
End InputRecord.

Module ProfileData.
Record t : Type := {
  status : string;
  canDm : bool;
  description : json;
  reason : string
}.
End ProfileData.

(** A field that an object literal leaves out, or sets to [undefined], is
    [None]. *)
Module ResultRecord.
Record t : Type := {
  name : string;
  company : string;
  email : string;
  handle : option string;
  profile_url : option json;
  dm_status : option string;
  description : option json;
  status : string;
  reason : option string;
  role : option json;
  rank : option json;
  confidence_reason : option json;
  processed_at : string
}.
End ResultRecord.

(** An entry of [handleItems] in [processBatch]. *)
Module HandleItem.
Record t : Type := {
  item : InputRecord.t;
  handle : string;
  mainProfileUrl : json
}.
End HandleItem.

(** The argument of [getProfileDescription]: an array of handles, or a
    single handle that the function wraps into an array. *)
Inductive handles_arg : Type :=
| HArray (handles : list string)
| HSingle (handle : string).

(** ** Result Extractor *)

(** The two members of a [URL] object that the code reads:
    [url.pathname] and [url.searchParams.toString()]. *)
Record URL : Type := { pathname : string; searchParams : string }.

(** The character class [[^/?]] of the handle pattern. *)
Definition handle_char (c : ascii) : bool :=
  negb (Ascii.eqb c "/"%char) && negb (Ascii.eqb c "?"%char).

(** [url.match(/x\.com\/([^/?]+)/)], first capture group: the leftmost
    position where [x.com/] is followed by at least one character other
    than [/] and [?], and from there the longest such run. *)
Fixpoint match_handle (s : string) : option string :=
  match s with
  | EmptyString => None
  | String _ rest =>
      if starts_with "x.com/" s
      then let seg := take_while handle_char (drop_string 6 s) in
           if nonempty seg then Some seg else match_handle rest
      else match_handle rest
  end.

(** [extractHandle(url)].  [None] in the argument is [undefined]; [None]
    in the result is [null].  A truthy argument that is not a string has
    no callable [match]. *)
Definition extractHandle (url : option json) : outcome (option string) :=
  match url with
  | None => Return None
  | Some v =>
      if negb (truthy v) then Return None
      else match v with
           | JStr s => Return (match_handle s)
           | _ => Throw (TypeError "url.match is not a function")
           end
  end.

(** The callback of [links.find] in [extractMainProfileLink], given the
    platform's [new URL(link)] ([None] when the constructor throws). *)
Definition is_main_profile (new_URL : json -> option URL) (link : json) : bool :=
  match new_URL link with
  | Some url =>
      let pathParts := List.filter (fun p => nonempty p) (split "/"%char (pathname url)) in
      Nat.eqb (List.length pathParts) 1 && negb (nonempty (searchParams url))
  | None => false
  end.

(** [extractMainProfileLink(links)].  [None] in the argument is a value
    that is not an array ([null] in the caller); [None] in the result is
    [null] or the [undefined] of a [find] without a hit, which no caller
    tells apart. *)
Definition extractMainProfileLink (new_URL : json -> option URL)
    (links : option (list json)) : option json :=
  match links with
  | None => None
  | Some l => List.find (is_main_profile new_URL) l
  end.

(** [item.link && item.link.includes('x.com')], the [filter] callback of
    [processSearchResults].  A string item inherits the function
    [String.prototype.link]; a function, a number, [true] and an object
    have no callable [includes]. *)
Definition is_x_link (item : json) : outcome bool :=
  match item with
  | JNull => Throw (TypeError "Cannot read properties of null (reading 'link')")
  | JStr _ => Throw (TypeError "item.link.includes is not a function")
  | JObj fields =>
      match lookup_field "link" fields with
      | None => Return false
      | Some l =>
          if negb (truthy l) then Return false
          else match l with
               | JStr s => Return (includes "x.com" s)
               | JArr xs => Return (existsb (fun x => match x with
                                                      | JStr s => String.eqb s "x.com"
                                                      | _ => false
                                                      end) xs)
               | _ => Throw (TypeError "item.link.includes is not a function")
               end
      end
  | _ => Return false
  end.

(** [organic.filter(is_x_link).map(item => item.link)]: the first throwing
    callback aborts the whole expression. *)
Fixpoint x_links_of (organic : list json) : outcome (list json) :=
  match organic with
  | [] => Return []
  | item :: rest =>
      match is_x_link item with
      | Throw e => Throw e
      | Return keep =>
          match x_links_of rest with
          | Throw e => Throw e
          | Return links =>
              if keep then
                match get item "link" with
                | Some l => Return (l :: links)
                | None => Return links
                end
              else Return links
          end
      end
  end.

(** [processSearchResults(data, founderName, companyName)]; the two names
    are only logged.  [None] in the result is [null]. *)
Definition processSearchResults (data : json) : outcome (option (list json)) :=
  if negb (truthy data) || negb (truthy_opt (get data "organic")) then Return None
  else match get data "organic" with
       | Some (JArr organic) =>
           match x_links_of organic with
           | Throw e => Throw e
           | Return x_links =>
               if Nat.eqb (List.length x_links) 0 then Return None
               else Return (Some x_links)
           end
       | _ => Throw (TypeError "data.organic.filter is not a function")
       end.

(** ** The outside world *)

(** What the program does to the outside world, in order. *)
Inductive event : Type :=
| EvRequest (url : string)               (* request(options) through the proxy *)
| EvSleep (ms : Q)                       (* setTimeout(resolve, ms) *)
| EvTrigger (urls : list string)         (* axios.post to the dataset trigger *)
| EvSnapshot (snapshotId : option json)  (* axios GET of the snapshot *)
| EvChat (prompt : string)               (* openai.chat.completions.create *)
| EvWriteProgress (content : string)     (* fs.writeFileSync('progress.json', ...) *)
| EvReadProgress.                        (* fs.readFileSync('progress.json', 'utf8') *)

(** The state the program threads: the history of the run and the content
    of [progress.json] ([None]: the file does not exist). *)
Record World : Type := { trace : list event; progress_json : option string }.

(** The platform and the remote services.  Every service answers on the
    history so far, so an answer may change from one call to the next. *)
Record Env : Type := {
  request : list event -> string -> outcome string;
  JSON_parse : string -> option json;
  JSON_stringify : json -> string;
  new_URL : json -> option URL;
  axios_post : list event -> list string -> outcome json;
  axios_get : list event -> option json -> outcome json;
  chat_completion : list event -> string -> outcome string;
  now : list event -> string;
  isProcessing : list event -> bool;
  can_write_progress : list event -> bool;
  can_read_progress : list event -> bool
}.

(** ** Computations: state and exceptions *)

Definition M (A : Type) : Type := World -> outcome A * World.

Definition ret {A} (a : A) : M A := fun w => (Return a, w).
Definition throw {A} (e : js_error) : M A := fun w => (Throw e, w).
Definition lift {A} (o : outcome A) : M A := fun w => (o, w).

Definition bind {A B} (m : M A) (k : A -> M B) : M B :=
  fun w => match m w with
           | (Return a, w') => k a w'
           | (Throw e, w') => (Throw e, w')
           end.

(** [try { m } catch (error) { h error }]. *)
Definition try_catch {A} (m : M A) (h : js_error -> M A) : M A :=
  fun w => match m w with
           | (Return a, w') => (Return a, w')
           | (Throw e, w') => h e w'
           end.

Notation "x <- m ;; k" := (bind m (fun x => k))
  (at level 100, m at next level, right associativity).
Notation "m ;;; k" := (bind m (fun _ => k))
  (at level 100, right associativity).

Definition record (ev : event) (w : World) : World :=
  {| trace := trace w ++ [ev]; progress_json := progress_json w |}.

Definition emit (ev : event) : M unit := fun w => (Return tt, record ev w).
Definition history : M (list event) := fun w => (Return (trace w), w).

(** [await sleep(ms)] and the inline [setTimeout] promises. *)
Definition sleep (ms : Q) : M unit := emit (EvSleep ms).

(** ** Retrying Fetcher *)

Module RETRY_CONFIG.
Definition maxRetries : nat := 5.
Definition initialDelay : Q := 2000.
Definition maxDelay : Q := 30000.
Definition backoffFactor : Q := 3 # 2.
End RETRY_CONFIG.

(** [Math.min(initialDelay * Math.pow(backoffFactor, attempt - 1), maxDelay)]. *)
Definition backoffDelay (attempt : nat) : Q :=
  Qmin (RETRY_CONFIG.initialDelay
        * Qpower RETRY_CONFIG.backoffFactor (Z.of_nat attempt - 1))
       RETRY_CONFIG.maxDelay.

(** [jsonData.general.results_cnt === 0], for a truthy [general]. *)
Definition results_cnt_is_zero (general : option json) : bool :=
  match general with
  | Some g => match get g "results_cnt" with
              | Some (JNum q) => Qeq_bool q 0
              | _ => false
              end
  | None => false
  end.

(** What [fetchWithRetry] makes of a parsed response: the zero-results
    marker becomes an empty result set, a payload with organic results is
    returned as it is, anything else is an error. *)
Definition accept_payload (jsonData : json) : outcome json :=
  if truthy jsonData && truthy_opt (get jsonData "general")
     && results_cnt_is_zero (get jsonData "general")
  then Return (JObj [("organic", JArr [])])
  else if truthy jsonData && truthy_opt (get jsonData "organic")
  then Return jsonData
  else Throw (Error "Response missing organic results").

Section Pipeline.

Variable env : Env.

(** The [try] block of [fetchWithRetry]: one request and its parsing.
    The [SyntaxError] of a failed [JSON.parse] stands for the engine's;
    its message is logged and never read otherwise. *)
Definition fetchAttempt (url : string) : M json :=
  tr <- history ;;
  emit (EvRequest url) ;;;
  response <- lift (request env tr url) ;;
  match JSON_parse env response with
  | None => throw (Error "Unexpected token in JSON")
  | Some jsonData => lift (accept_payload jsonData)
  end.

(** [fetchWithRetry(url, attempt)]; [None] is [null]. *)
Equations? fetchWithRetry (url : string) (attempt : nat) (w : World)
  : outcome (option json) * World by wf (RETRY_CONFIG.maxRetries - attempt) lt :=
  fetchWithRetry url attempt w with fetchAttempt url w := {
    | (Return jsonData, w1) => (Return (Some jsonData), w1)
    | (Throw error, w1) with le_lt_dec RETRY_CONFIG.maxRetries attempt := {
        | left _ => (Return None, w1)
        | right _ =>
            fetchWithRetry url (S attempt) (snd (sleep (backoffDelay attempt) w1)) } }.
Proof. unfold RETRY_CONFIG.maxRetries in *. lia. Qed.

(** ** Snapshot Poller *)

Definition maxAttempts : nat := 10.

(** [finalJSON.status === "running"] for a value other than [null]. *)
Definition status_running (finalJSON : json) : bool :=
  match get finalJSON "status" with
  | Some (JStr s) => String.eqb s "running"
  | _ => false
  end.

(** [finalJSON == null]; the variable is never [undefined]. *)
Definition is_null (v : json) : bool :=
  match v with
  | JNull => true
  | _ => false
  end.

(** One turn of the polling loop after [attempts++]: the sleep and the
    inner [try].  It yields the new [finalJSON] and the error the inner
    [catch] received, if any.  A [null] body is assigned before
    [finalJSON.status] throws on it. *)
Definition pollOnce (snapshotId : option json) (finalJSON : json) (w : World)
  : json * option js_error * World :=
  let w1 := record (EvSleep 5000) w in
  let w2 := record (EvSnapshot snapshotId) w1 in
  match axios_get env (trace w1) snapshotId with
  | Throw error => (finalJSON, Some error, w2)
  | Return JNull =>
      (JNull, Some (TypeError "Cannot read properties of null (reading 'status')"), w2)
  | Return data => (data, None, w2)
  end.

(** The [while] loop of [getProfileDescription]. *)
Equations? pollSnapshot (snapshotId : option json) (finalJSON : json)
    (attempts : nat) (w : World)
  : outcome json * World by wf (maxAttempts - attempts) lt :=
  pollSnapshot snapshotId finalJSON attempts w
    with le_lt_dec maxAttempts attempts := {
    | left _ => (Return finalJSON, w)
    | right _ with is_null finalJSON || status_running finalJSON := {
        | false => (Return finalJSON, w)
        | true with pollOnce snapshotId finalJSON w := {
            | (finalJSON', None, w1) =>
                pollSnapshot snapshotId finalJSON' (S attempts) w1
            | (finalJSON', Some error, w1)
                with le_lt_dec maxAttempts (S attempts) := {
                | left _ => (Throw error, w1)
                | right _ => pollSnapshot snapshotId finalJSON' (S attempts) w1 } } } }.
Proof. all: unfold maxAttempts in *; lia. Qed.

(** The entry of [profileMap] for a snapshot row. *)
Definition successEntry (profile : json) : ProfileData.t :=
  {| ProfileData.status := "success";
     ProfileData.canDm := true;
     ProfileData.description :=
       match get profile "biography" with
       | Some b => if truthy b then b else JStr ""
       | None => JStr ""
       end;
     ProfileData.reason := "DMs are open" |}.

(** The entry for a handle that has no row in the snapshot. *)
Definition notFoundEntry : ProfileData.t :=
  {| ProfileData.status := "error";
     ProfileData.canDm := true;
     ProfileData.description := JStr "";
     ProfileData.reason := "Profile data not found but assuming DMs are open" |}.

(** The entry the outer [catch] makes for every handle. *)
Definition apiErrorEntry (error : js_error) : ProfileData.t :=
  {| ProfileData.status := "error";
     ProfileData.canDm := true;
     ProfileData.description := JStr "";
     ProfileData.reason := "API Error: " +:+ message error |}.

(** *** The lookup object [profileMap]

    [profileMap] is an object literal used as a map, so a lookup that
    finds no own property goes on along the prototype chain, and an
    assignment to [__proto__] replaces the prototype instead of adding a
    property. *)

(** The function-valued members that every object inherits from
    [Object.prototype]; [constructor] is the function [Object].  The one
    other member is the accessor [__proto__]. *)
Definition Object_prototype_functions : list string :=
  ["constructor"; "__defineGetter__"; "__defineSetter__"; "hasOwnProperty";
   "__lookupGetter__"; "__lookupSetter__"; "isPrototypeOf"; "propertyIsEnumerable";
   "toString"; "valueOf"; "toLocaleString"].

(** What [profileMap[handle]] can be when it is not [undefined]: an entry
    object; a member of an entry that has become the prototype of
    [profileMap]; the object [Object.prototype]; or one of its functions,
    given by its name. *)
Inductive profile_value : Type :=
| PEntry (entry : ProfileData.t)
| PMember (v : json)
| PObjectPrototype
| PFunction (name : string).

(** The object [profileMap]: its own properties, and the entry that an
    assignment to [__proto__] has made its prototype ([None]: the
    prototype is [Object.prototype], as for every object literal). *)
Record ProfileMap : Type := {
  own : gmap string ProfileData.t;
  proto : option ProfileData.t
}.

(** [{}]. *)
Definition emptyProfileMap : ProfileMap := {| own := ∅; proto := None |}.

(** [entry[key]] for an entry object, own properties only. *)
Definition entry_member (entry : ProfileData.t) (key : string) : option json :=
  if String.eqb key "status" then Some (JStr (ProfileData.status entry))
  else if String.eqb key "canDm" then Some (JBool (ProfileData.canDm entry))
  else if String.eqb key "description" then Some (ProfileData.description entry)
  else if String.eqb key "reason" then Some (JStr (ProfileData.reason entry))
  else None.

(** [profileMap[key] = entry].  The key [__proto__] reaches the setter of
    [Object.prototype], which makes the entry the prototype; every other
    key becomes an own property, also when the chain has a member of
    that name, all of which are writable data properties. *)
Definition profileMap_set (key : string) (entry : ProfileData.t) (profileMap : ProfileMap)
  : ProfileMap :=
  if String.eqb key "__proto__"
  then {| own := own profileMap; proto := Some entry |}
  else {| own := <[key := entry]> (own profileMap); proto := proto profileMap |}.

(** What a lookup of [key] finds on the prototype chain of a
    [profileMap] whose prototype is [proto]: first a member of the entry
    that is the prototype, then the members of [Object.prototype], among
    them the getter of [__proto__], which answers with the prototype. *)
Definition inherited (proto : option ProfileData.t) (key : string) : option profile_value :=
  match proto ≫= (fun entry => entry_member entry key) with
  | Some v => Some (PMember v)
  | None =>
      if String.eqb key "__proto__"
      then Some match proto with
                | Some entry => PEntry entry
                | None => PObjectPrototype
                end
      else if existsb (String.eqb key) Object_prototype_functions
      then Some (PFunction key)
      else None
  end.

(** [profileMap[key]]; [None] is [undefined]. *)
Definition profileMap_get (profileMap : ProfileMap) (key : string) : option profile_value :=
  match own profileMap !! key with
  | Some entry => Some (PEntry entry)
  | None => inherited (proto profileMap) key
  end.

(** Truthiness of a value that a lookup finds: objects and functions are
    truthy. *)
Definition profile_truthy (v : profile_value) : bool :=
  match v with
  | PMember j => truthy j
  | _ => true
  end.

(** [finalJSON.forEach(profile => ...)]: fills [profileMap], a later row
    replacing an earlier one of the same handle. *)
Fixpoint buildProfileMap (rows : list json) (profileMap : ProfileMap)
  : outcome ProfileMap :=
  match rows with
  | [] => Return profileMap
  | profile :: rest =>
      match profile with
      | JNull => Throw (TypeError "Cannot read properties of null (reading 'url')")
      | _ =>
          match extractHandle (get profile "url") with
          | Throw e => Throw e
          | Return urlHandle =>
              buildProfileMap rest
                match urlHandle with
                | Some h => if nonempty h
                            then profileMap_set h (successEntry profile) profileMap
                            else profileMap
                | None => profileMap
                end
          end
      end
  end.

(** [profileMap[handle] || { status: 'error', ... }]. *)
Definition profile_or_notFound (profileMap : ProfileMap) (handle : string) : profile_value :=
  match profileMap_get profileMap handle with
  | Some v => if profile_truthy v then v else PEntry notFoundEntry
  | None => PEntry notFoundEntry
  end.

(** [Array.isArray(handles) ? handles : [handles]]. *)
Definition handlesArray_of (handles : handles_arg) : list string :=
  match handles with
  | HArray l => l
  | HSingle h => [h]
  end.

(** [handlesArray.slice(0, 20).map(...)]: the profile URLs of the trigger
    request, each sent with [max_number_of_posts: 10]. *)
Definition urlsToFetch_of (handlesArray : list string) : list string :=
  List.map (fun h => "https://x.com/" +:+ h) (take 20 handlesArray).

(** The [try] block of [getProfileDescription].  The trigger request is
    recorded by the profile URLs it carries. *)
Definition getProfileDescription_try (handles : handles_arg) : M (list profile_value) :=
  let handlesArray := handlesArray_of handles in
  if Nat.eqb (List.length handlesArray) 0 then ret []
  else
    let urlsToFetch := urlsToFetch_of handlesArray in
    tr <- history ;;
    emit (EvTrigger urlsToFetch) ;;;
    data <- lift (axios_post env tr urlsToFetch) ;;
    snapshotId <- match data with
                  | JNull => throw (TypeError "Cannot read properties of null (reading 'snapshot_id')")
                  | _ => ret (get data "snapshot_id")
                  end ;;
    finalJSON <- pollSnapshot snapshotId JNull 0 ;;
    if negb (truthy finalJSON) || status_running finalJSON
    then throw (Error "Failed to get profile data after maximum attempts")
    else
      profileMap <- lift match finalJSON with
                         | JArr rows => buildProfileMap rows emptyProfileMap
                         | _ => Return emptyProfileMap
                         end ;;
      ret (List.map (fun handle => profile_or_notFound profileMap handle) handlesArray).

(** [getProfileDescription(handles)]. *)
Definition getProfileDescription (handles : handles_arg) : M (list profile_value) :=
  try_catch (getProfileDescription_try handles)
    (fun error =>
       match handles with
       | HArray l => ret (List.map (fun _ => PEntry (apiErrorEntry error)) l)
       | HSingle _ => ret [PEntry (apiErrorEntry error)]
       end).

(** ** Classifier *)

(** The prompt of [analyzeFounderProfile]; the caller passes no
    [profile_url], so the template prints [undefined] for it. *)
Definition prompt_of (handle company : string) : string :=
  "Given this person's information:
Handle: " +:+ handle +:+ "
Company: " +:+ company +:+ "
Twitter URL: undefined

Instructions:
• Determine if they are a founder/cofounder/CEO/CTO based on their description
• Rank them on a scale of 1-10 (10 highest, 1 lowest) based on likelihood
• Return result in JSON format with fields: role, rank, confidence_reason".

(** [analyzeFounderProfile(profile)]; [None] is the [null] of the [catch].
    [chat_completion] answers with [completion.choices[0].message.content]
    or the error that reaching it raises.  The [catch] logs the error
    and reads nothing of it. *)
Definition analyzeFounderProfile (handle company : string) : M (option json) :=
  let prompt := prompt_of handle company in
  try_catch
    (tr <- history ;;
     emit (EvChat prompt) ;;;
     content <- lift (chat_completion env tr prompt) ;;
     match JSON_parse env content with
     | None => throw (Error "Unexpected token in JSON")
     | Some v => ret (Some v)
     end)
    (fun _ => ret None).

(** ** Batch Orchestrator *)

(** [new Date().toISOString()]. *)
Definition timestamp : M string := fun w => (Return (now env (trace w)), w).

(** The URL that [processBatch] searches for an item. *)
Definition search_url (item : InputRecord.t) : string :=
  "https://www.google.com/search?q=" +:+ InputRecord.searchQuery item +:+ "&brd_json=1".

(** The record of an input that stops before handle resolution. *)
Definition stoppedRecord (item : InputRecord.t) (status reason : string)
    (profile_url : option json) (processed_at : string) : ResultRecord.t :=
  {| ResultRecord.name := InputRecord.founderName item;
     ResultRecord.company := InputRecord.companyName item;
     ResultRecord.email := InputRecord.email item;
     ResultRecord.handle := None;
     ResultRecord.profile_url := profile_url;
     ResultRecord.dm_status := None;
     ResultRecord.description := None;
     ResultRecord.status := status;
     ResultRecord.reason := Some reason;
     ResultRecord.role := None;
     ResultRecord.rank := None;
     ResultRecord.confidence_reason := None;
     ResultRecord.processed_at := processed_at |}.

(** The body of the first [for] loop of [processBatch] for one item:
    either a record pushed to [batchResults] or an entry pushed to
    [handleItems]. *)
Definition resolveItem (item : InputRecord.t) : M (ResultRecord.t + HandleItem.t) :=
  try_catch
    (let url := search_url item in
     searchData <- fetchWithRetry url 1 ;;
     match searchData with
     | None =>
         t <- timestamp ;;
         ret (inl (stoppedRecord item "failed" "No search results found" None t))
     | Some data =>
         if negb (truthy data) then
           t <- timestamp ;;
           ret (inl (stoppedRecord item "failed" "No search results found" None t))
         else
           links <- lift (processSearchResults data) ;;
           let mainProfileUrl := extractMainProfileLink (new_URL env) links in
           match mainProfileUrl with
           | None =>
               t <- timestamp ;;
               ret (inl (stoppedRecord item "failed" "No Twitter profile found" None t))
           | Some mainProfile =>
               if negb (truthy mainProfile) then
                 t <- timestamp ;;
                 ret (inl (stoppedRecord item "failed" "No Twitter profile found" None t))
               else
                 handle <- lift (extractHandle mainProfileUrl) ;;
                 match handle with
                 | Some h =>
                     if nonempty h then
                       ret (inr {| HandleItem.item := item;
                                   HandleItem.handle := h;
                                   HandleItem.mainProfileUrl := mainProfile |})
                     else
                       t <- timestamp ;;
                       ret (inl (stoppedRecord item "failed"
                                   "Could not extract Twitter handle" mainProfileUrl t))
                 | None =>
                     t <- timestamp ;;
                     ret (inl (stoppedRecord item "failed"
                                 "Could not extract Twitter handle" mainProfileUrl t))
                 end
           end
     end)
    (fun error =>
       t <- timestamp ;;
       ret (inl (stoppedRecord item "error" (message error) None t))).

(** The first [for] loop of [processBatch]. *)
Fixpoint collectHandles (batch : list InputRecord.t)
    (batchResults : list ResultRecord.t) (handleItems : list HandleItem.t)
  : M (list ResultRecord.t * list HandleItem.t) :=
  match batch with
  | [] => ret (batchResults, handleItems)
  | item :: rest =>
      r <- resolveItem item ;;
      match r with
      | inl result => collectHandles rest (batchResults ++ [result]) handleItems
      | inr entry => collectHandles rest batchResults (handleItems ++ [entry])
      end
  end.

(** [profileData.description] for an element of [profileDataArray]
    ([None] in the argument: the array is too short; [None] in the
    result: [undefined]).  Neither a function nor [Object.prototype], nor
    a string, a number or a boolean, has a member of that name. *)
Definition description_of (profileData : option profile_value) : outcome (option json) :=
  match profileData with
  | None => Throw (TypeError "Cannot read properties of undefined (reading 'description')")
  | Some (PEntry entry) => Return (Some (ProfileData.description entry))
  | Some (PMember JNull) =>
      Throw (TypeError "Cannot read properties of null (reading 'description')")
  | Some (PMember v) => Return (get v "description")
  | Some PObjectPrototype => Return None
  | Some (PFunction _) => Return None
  end.

(** [description || ""]. *)
Definition description_or_empty (description : option json) : json :=
  match description with
  | Some d => if truthy d then d else JStr ""
  | None => JStr ""
  end.

(** The body of the second [for] loop for [handleItems[i]] and
    [profileDataArray[i]] ([None] when the array is too short). *)
Definition assembleResult (entry : HandleItem.t) (profileData : option profile_value)
  : M ResultRecord.t :=
  let item := HandleItem.item entry in
  let handle := HandleItem.handle entry in
  let mainProfileUrl := HandleItem.mainProfileUrl entry in
  try_catch
    (description <- lift (description_of profileData) ;;
     t <- timestamp ;;
     let resultEntry :=
       {| ResultRecord.name := InputRecord.founderName item;
          ResultRecord.company := InputRecord.companyName item;
          ResultRecord.email := InputRecord.email item;
          ResultRecord.handle := Some handle;
          ResultRecord.profile_url := Some mainProfileUrl;
          ResultRecord.dm_status := Some "open";
          ResultRecord.description := Some (description_or_empty description);
          ResultRecord.status := "processed";
          ResultRecord.reason := None;
          ResultRecord.role := None;
          ResultRecord.rank := None;
          ResultRecord.confidence_reason := None;
          ResultRecord.processed_at := t |} in
     analysis <- analyzeFounderProfile handle (InputRecord.companyName item) ;;
     match analysis with
     | Some a =>
         if truthy a then
           ret {| ResultRecord.name := ResultRecord.name resultEntry;
                  ResultRecord.company := ResultRecord.company resultEntry;
                  ResultRecord.email := ResultRecord.email resultEntry;
                  ResultRecord.handle := ResultRecord.handle resultEntry;
                  ResultRecord.profile_url := ResultRecord.profile_url resultEntry;
                  ResultRecord.dm_status := ResultRecord.dm_status resultEntry;
                  ResultRecord.description := ResultRecord.description resultEntry;
                  ResultRecord.status := ResultRecord.status resultEntry;
                  ResultRecord.reason := ResultRecord.reason resultEntry;
                  ResultRecord.role := get a "role";
                  ResultRecord.rank := get a "rank";
                  ResultRecord.confidence_reason := get a "confidence_reason";
                  ResultRecord.processed_at := ResultRecord.processed_at resultEntry |}
         else ret resultEntry
     | None => ret resultEntry
     end)
    (fun error =>
       t <- timestamp ;;
       ret {| ResultRecord.name := InputRecord.founderName item;
              ResultRecord.company := InputRecord.companyName item;
              ResultRecord.email := InputRecord.email item;
              ResultRecord.handle := Some handle;
              ResultRecord.profile_url := Some mainProfileUrl;
              ResultRecord.dm_status := None;
              ResultRecord.description := None;
              ResultRecord.status := "error";
              ResultRecord.reason := Some (message error);
              ResultRecord.role := None;
              ResultRecord.rank := None;
              ResultRecord.confidence_reason := None;
              ResultRecord.processed_at := t |}).

(** The second [for] loop of [processBatch], from index [i] on. *)
Fixpoint assembleResults (handleItems : list HandleItem.t) (i : nat)
    (profileDataArray : list profile_value) (batchResults : list ResultRecord.t)
  : M (list ResultRecord.t) :=
  match handleItems with
  | [] => ret batchResults
  | entry :: rest =>
      result <- assembleResult entry (profileDataArray !! i) ;;
      assembleResults rest (S i) profileDataArray (batchResults ++ [result])
  end.

(** [processBatch(batch, batchIndex)]; the index is not used. *)
Definition processBatch (batch : list InputRecord.t) : M (list ResultRecord.t) :=
  collected <- collectHandles batch [] [] ;;
  let batchResults := fst collected in
  let handleItems := snd collected in
  if Nat.ltb 0 (List.length handleItems) then
    let handles := List.map HandleItem.handle handleItems in
    sleep 2000 ;;;
    profileDataArray <- getProfileDescription (HArray handles) ;;
    assembleResults handleItems 0 profileDataArray batchResults
  else ret batchResults.

(** ** Progress Checkpoint *)

Definition progressObject (lastProcessedIndex : Z) : json :=
  JObj [("lastProcessedIndex", JNum (inject_Z lastProcessedIndex))].

(** [loadProgress()]. *)
Definition loadProgress : M json :=
  fun w =>
    match progress_json w with
    | Some content =>
        let w1 := record EvReadProgress w in
        if can_read_progress env (trace w) then
          match JSON_parse env content with
          | Some v => (Return v, w1)
          | None => (Return (progressObject 0), w1)
          end
        else (Return (progressObject 0), w1)
    | None => (Return (progressObject 0), w)
    end.

(** [saveProgress(lastProcessedIndex)]; a failed write is logged and
    leaves the file as it was. *)
Definition saveProgress (lastProcessedIndex : Z) : M unit :=
  fun w =>
    let content := JSON_stringify env (progressObject lastProcessedIndex) in
    if can_write_progress env (trace w) then
      (Return tt, {| trace := trace w ++ [EvWriteProgress content];
                     progress_json := Some content |})
    else (Return tt, record (EvWriteProgress content) w).

(** ** The batch loop of [processFounders] *)

Definition BATCH_SIZE : nat := 5.

(** [for (i = 0; i < searchQueries.length; i += BATCH_SIZE)
      batches.push(searchQueries.slice(i, i + BATCH_SIZE))]. *)
Equations? makeBatches (searchQueries : list InputRecord.t)
  : list (list InputRecord.t) by wf (List.length searchQueries) lt :=
  makeBatches [] := [];
  makeBatches (q :: qs) :=
    take BATCH_SIZE (q :: qs) :: makeBatches (drop BATCH_SIZE (q :: qs)).
Proof. rewrite length_drop. lia. Qed.

(** The loop over [batches] from index [i] on, with [global.currentResults]
    as an accumulator. *)
Fixpoint runBatches (startIndex : Z) (batches : list (list InputRecord.t)) (i : nat)
    (currentResults : list ResultRecord.t) : M (list ResultRecord.t) :=
  match batches with
  | [] => ret currentResults
  | batch :: rest =>
      tr <- history ;;
      if negb (isProcessing env tr) then
        saveProgress (startIndex + Z.of_nat i * Z.of_nat BATCH_SIZE) ;;;
        ret currentResults
      else
        batchResults <- processBatch batch ;;
        let currentResults := currentResults ++ batchResults in
        tr <- history ;;
        (if Nat.ltb 0 (List.length rest) && isProcessing env tr
         then sleep (RETRY_CONFIG.initialDelay * 2)
         else ret tt) ;;;
        runBatches startIndex rest (S i) currentResults
  end.

End Pipeline.

(** ** The summary of a run *)

(** An entry of [founders] in the summary. *)
Module FormattedFounder.
Record t : Type := {
  name : string;
  company : string;
  profile_url : option json;
  confidence_rank : json
}.
End FormattedFounder.

Module Stats.
Record t : Type := {
  total_founders : nat
}.
End Stats.

Module OpenDMs.
Record t : Type := {
  founders : list FormattedFounder.t;
  stats : Stats.t
}.
End OpenDMs.

(** [founder.rank || 'N/A']. *)
Definition rank_or_NA (rank : option json) : json :=
  match rank with
  | Some v => if truthy v then v else JStr "N/A"
  | None => JStr "N/A"
  end.

(** [filterAndFormatOpenDMs(results)]. *)
Definition filterAndFormatOpenDMs (results : list ResultRecord.t) : OpenDMs.t :=
  let formattedFounders :=
    List.map (fun founder =>
                {| FormattedFounder.name := ResultRecord.name founder;
                   FormattedFounder.company := ResultRecord.company founder;
                   FormattedFounder.profile_url := ResultRecord.profile_url founder;
                   FormattedFounder.confidence_rank :=
                     rank_or_NA (ResultRecord.rank founder) |})
             (List.filter (fun result => String.eqb (ResultRecord.status result) "processed")
                          results) in
  {| OpenDMs.founders := formattedFounders;
     OpenDMs.stats := {| Stats.total_founders := List.length results |} |}.

(** * Vocabulary of the properties *)

(** The world [w] after the further events [evs]. *)
Definition extend (w : World) (evs : list event) : World :=
  {| trace := trace w ++ evs; progress_json := progress_json w |}.

(** The events of [failed] failed attempts from attempt number [attempt]
    on, each followed by its backoff wait. *)
Fixpoint failed_attempts (url : string) (attempt failed : nat) : list event :=
  match failed with
  | O => []
  | S n => EvRequest url :: EvSleep (backoffDelay attempt)
           :: failed_attempts url (S attempt) n
  end.

Definition is_request (ev : event) : bool :=
  match ev with
  | EvRequest _ => true
  | _ => false
  end.

Definition sleeps_of (evs : list event) : list Q :=
  omap (fun ev => match ev with EvSleep ms => Some ms | _ => None end) evs.

(** A poll that does not end the wait: an error, a [null] body or a
    body whose status is [running]. *)
Definition non_terminal (answer : outcome json) : Prop :=
  match answer with
  | Throw _ => True
  | Return data => is_null data || status_running data = true
  end.

(** The events of [n] completed polls. *)
Fixpoint polls (snapshotId : option json) (n : nat) : list event :=
  match n with
  | O => []
  | S n' => EvSleep 5000 :: EvSnapshot snapshotId :: polls snapshotId n'
  end.

Definition canDm_true (p : ProfileData.t) : Prop := ProfileData.canDm p = true.

(** [value.canDm] for an element of the array that
    [getProfileDescription] returns; [None] is [undefined]. *)
Definition canDm_of (value : profile_value) : option json :=
  match value with
  | PEntry entry => Some (JBool (ProfileData.canDm entry))
  | PMember v => get v "canDm"
  | PObjectPrototype => None
  | PFunction _ => None
  end.

(** An element that is an entry object. *)
Definition is_entry (value : profile_value) : bool :=
  match value with
  | PEntry _ => true
  | _ => false
  end.

(** A name that a lookup in [profileMap] can find on the prototype
    chain: a member of [Object.prototype], or a member of an entry. *)
Definition inherited_name (h : string) : bool :=
  existsb (String.eqb h)
    ("__proto__" :: Object_prototype_functions
       ++ ["status"; "canDm"; "description"; "reason"]).

(** The rows of a snapshot; a snapshot that is not an array has none. *)
Definition rows_of (finalJSON : json) : list json :=
  match finalJSON with
  | JArr rows => rows
  | _ => []
  end.

(** Who a record is about. *)
Definition identity_of_input (item : InputRecord.t) : string * string * string :=
  (InputRecord.founderName item, InputRecord.companyName item, InputRecord.email item).

Definition identity_of_result (r : ResultRecord.t) : string * string * string :=
  (ResultRecord.name r, ResultRecord.company r, ResultRecord.email r).

(** The elements of [l] whose flag is [b], in their order. *)
Fixpoint pick {A : Type} (b : bool) (flags : list bool) (l : list A) : list A :=
  match flags, l with
  | f :: fs, x :: xs => if Bool.eqb f b then x :: pick b fs xs else pick b fs xs
  | _, _ => []
  end.

(** The positions, counted from [i], of the flags equal to [b]. *)
Fixpoint positions_from (b : bool) (flags : list bool) (i : nat) : list nat :=
  match flags with
  | [] => []
  | f :: fs => if Bool.eqb f b then i :: positions_from b fs (S i)
               else positions_from b fs (S i)
  end.

(** A record pushed by the first loop of [processBatch]. *)
Definition stopped_early (r : ResultRecord.t) : Prop :=
  (ResultRecord.status r = "failed" \/ ResultRecord.status r = "error")
  /\ ResultRecord.dm_status r = None.

(** A record pushed by the second loop of [processBatch]. *)
Definition resolved (r : ResultRecord.t) : Prop :=
  (ResultRecord.status r = "processed" /\ ResultRecord.dm_status r = Some "open")
  \/ (ResultRecord.status r = "error" /\ ResultRecord.dm_status r = None).

(** A record of the first loop: failed or error, with neither handle nor
    [dm_status]. *)
Definition first_loop_record (r : ResultRecord.t) : Prop :=
  (ResultRecord.status r = "failed" \/ ResultRecord.status r = "error") /\
  ResultRecord.handle r = None /\
  ResultRecord.dm_status r = None.

(** A record of the second loop that is not the one of its [catch]. *)
Definition processed_record (r : ResultRecord.t) : Prop :=
  ResultRecord.status r = "processed" /\
  ResultRecord.handle r <> None /\
  ResultRecord.dm_status r = Some "open".

(** The position, among the records of the first loop, of the record of
    item [i]: the number of items before it for which no handle was
    found. *)
Definition early_position (flags : list bool) (i : nat) : nat :=
  List.length (List.filter negb (take i flags)).

(** The zero-results marker,
    [jsonData && jsonData.general && jsonData.general.results_cnt === 0]. *)
Definition zero_results_marker (jsonData : json) : bool :=
  truthy jsonData && truthy_opt (get jsonData "general")
  && results_cnt_is_zero (get jsonData "general").


Section Observations.

Variable env : Env.

(** What one attempt yields on history [tr]: the accepted payload, or
    [None] when the request, the parse or the shape check fails. *)
Definition attempt_result (tr : list event) (url : string) : option json :=
  match request env tr url with
  | Return response =>
      match JSON_parse env response with
      | Some jsonData =>
          match accept_payload jsonData with
          | Return v => Some v
          | Throw _ => None
          end
      | None => None
      end
  | Throw _ => None
  end.

(** The response of the request on history [tr], parsed; [None] when the
    request or the parse fails. *)
Definition parsed_response (tr : list event) (url : string) : option json :=
  match request env tr url with
  | Return response => JSON_parse env response
  | Throw _ => None
  end.

(** The first loop of [processBatch], item by item: the world in which
    the search of the item starts, and what the loop body makes of the
    item, a record or an entry of [handleItems]. *)
Fixpoint first_loop (batch : list InputRecord.t) (w : World)
  : list (World * (ResultRecord.t + HandleItem.t)) :=
  match batch with
  | [] => []
  | item :: rest =>
      match resolveItem env item w with
      | (Return r, w1) => (w, r) :: first_loop rest w1
      | (Throw _, _) => []
      end
  end.

(** For each item of the batch, whether the first loop finds a handle
    for it. *)
Definition handle_found (batch : list InputRecord.t) (w : World) : list bool :=
  List.map (fun step => match snd step with
                        | inr _ => true
                        | inl _ => false
                        end) (first_loop batch w).

(** The records that the first loop pushes, in order. *)
Definition stopped_records (batch : list InputRecord.t) (w : World) : list ResultRecord.t :=
  omap (fun step => match snd step with
                    | inl r => Some r
                    | inr _ => None
                    end) (first_loop batch w).

(** The entries of [handleItems] after the first loop, in order. *)
Definition found_entries (batch : list InputRecord.t) (w : World) : list HandleItem.t :=
  omap (fun step => match snd step with
                    | inr entry => Some entry
                    | inl _ => None
                    end) (first_loop batch w).

End Observations.

(** The non-empty segments of a URL path. *)
Definition path_segments (path : string) : list string :=
  List.filter (fun p => nonempty p) (split "/"%char path).

(** A canonical profile link: its URL parses, its path has exactly one
    non-empty segment, and its query is empty. *)
Definition canonical (new_URL : json -> option URL) (link : json) : Prop :=
  exists url segment,
    new_URL link = Some url /\
    path_segments (pathname url) = [segment] /\
    searchParams url = "".

(** Every character of [s] satisfies [p]. *)
Fixpoint string_all (p : ascii -> bool) (s : string) : bool :=
  match s with
  | EmptyString => true
  | String c rest => p c && string_all p rest
  end.

(** ** Vocabulary of the further properties *)

(** A link that [processSearchResults] keeps: a string that contains
    [x.com], or an array that has the string [x.com] as an element. *)
Definition mentions_x (link : json) : bool :=
  match link with
  | JStr s => nonempty s && includes "x.com" s
  | JArr xs => existsb (fun x => match x with
                                 | JStr s => String.eqb s "x.com"
                                 | _ => false
                                 end) xs
  | _ => false
  end.

(** The [link] members of the items of a result list, in order. *)
Definition links_of (organic : list json) : list json :=
  omap (fun item => get item "link") organic.

Definition is_snapshot (ev : event) : bool :=
  match ev with
  | EvSnapshot _ => true
  | _ => false
  end.

Definition is_trigger (ev : event) : bool :=
  match ev with
  | EvTrigger _ => true
  | _ => false
  end.

Definition is_chat (ev : event) : bool :=
  match ev with
  | EvChat _ => true
  | _ => false
  end.

(** The snapshot row [row] is about the handle [h]. *)
Definition row_carries (h : string) (row : json) : bool :=
  match extractHandle (get row "url") with
  | Return (Some h') => String.eqb h' h
  | _ => false
  end.

(** The last row of a snapshot that is about the handle [h]. *)
Fixpoint last_row_for (h : string) (rows : list json) : option json :=
  match rows with
  | [] => None
  | row :: rest =>
      match last_row_for h rest with
      | Some r => Some r
      | None => if row_carries h row then Some row else None
      end
  end.

(** A row on which [finalJSON.forEach] throws: [null], or a row whose
    [url] is truthy and not a string. *)
Definition bad_row (row : json) : bool :=
  match row with
  | JNull => true
  | _ => match get row "url" with
         | Some (JStr _) => false
         | Some u => truthy u
         | None => false
         end
  end.

(** The entry of a handle in a snapshot without bad rows, for a handle
    that is not the name of an inherited member. *)
Definition entry_for (rows : list json) (h : string) : ProfileData.t :=
  match last_row_for h rows with
  | Some row => successEntry row
  | None => notFoundEntry
  end.

(** What a handle gets from a snapshot without bad rows: the entry of
    the last row about it; without such a row, what the prototype chain
    has under its name, the prototype being the entry of the last row
    about [__proto__]; and the not-found entry when that is nothing, or
    falsy. *)
Definition profile_for (rows : list json) (h : string) : profile_value :=
  match last_row_for h rows with
  | Some row => PEntry (successEntry row)
  | None =>
      match inherited (successEntry <$> last_row_for "__proto__" rows) h with
      | Some v => if profile_truthy v then v else PEntry notFoundEntry
      | None => PEntry notFoundEntry
      end
  end.

(** The three reasons of a record with status failed. *)
Definition failure_reason (reason : string) : Prop :=
  reason = "No search results found" \/
  reason = "No Twitter profile found" \/
  reason = "Could not extract Twitter handle".

(** What the fields of a record of [processBatch] look like, by status. *)
Definition well_formed_record (r : ResultRecord.t) : Prop :=
  (ResultRecord.status r = "failed" /\
   (exists reason, ResultRecord.reason r = Some reason /\ failure_reason reason /\
      (ResultRecord.profile_url r <> None ->
       reason = "Could not extract Twitter handle")) /\
   ResultRecord.handle r = None /\
   ResultRecord.description r = None /\
   ResultRecord.role r = None /\ ResultRecord.rank r = None /\
   ResultRecord.confidence_reason r = None)
  \/
  (ResultRecord.status r = "error" /\
   (exists msg, ResultRecord.reason r = Some msg) /\
   ResultRecord.description r = None /\
   ResultRecord.role r = None /\ ResultRecord.rank r = None /\
   ResultRecord.confidence_reason r = None /\
   (ResultRecord.handle r = None <-> ResultRecord.profile_url r = None))
  \/
  (ResultRecord.status r = "processed" /\
   ResultRecord.reason r = None /\
   (exists h u, ResultRecord.handle r = Some h /\
                ResultRecord.profile_url r = Some (JStr u) /\
                match_handle u = Some h /\ h <> "") /\
   (exists d, ResultRecord.description r = Some d)).

(** An entry of [handleItems] whose handle is the one its profile URL
    shows. *)
Definition consistent_entry (entry : HandleItem.t) : Prop :=
  exists u,
    HandleItem.mainProfileUrl entry = JStr u /\
    match_handle u = Some (HandleItem.handle entry) /\
    HandleItem.handle entry <> "".

Section FurtherObservations.

Variable env : Env.

(** The verdict of the classifier on history [tr]: the parsed content of
    the chat completion, or [None] when the request or the parse fails. *)
Definition verdict_of (tr : list event) (prompt : string) : option json :=
  match chat_completion env tr prompt with
  | Return content => JSON_parse env content
  | Throw _ => None
  end.

(** A member of a verdict that is truthy; [None] otherwise. *)
Definition classified (verdict : option json) (key : string) : option json :=
  match verdict with
  | Some a => if truthy a then get a key else None
  | None => None
  end.

(** The record of an item that reached handle resolution, assembled on
    history [tr] with the [description] read from its profile value. *)
Definition processedRecord (entry : HandleItem.t) (description : option json)
    (tr : list event) : ResultRecord.t :=
  let item := HandleItem.item entry in
  let verdict := verdict_of tr (prompt_of (HandleItem.handle entry)
                                  (InputRecord.companyName item)) in
  {| ResultRecord.name := InputRecord.founderName item;
     ResultRecord.company := InputRecord.companyName item;
     ResultRecord.email := InputRecord.email item;
     ResultRecord.handle := Some (HandleItem.handle entry);
     ResultRecord.profile_url := Some (HandleItem.mainProfileUrl entry);
     ResultRecord.dm_status := Some "open";
     ResultRecord.description := Some (description_or_empty description);
     ResultRecord.status := "processed";
     ResultRecord.reason := None;
     ResultRecord.role := classified verdict "role";
     ResultRecord.rank := classified verdict "rank";
     ResultRecord.confidence_reason := classified verdict "confidence_reason";
     ResultRecord.processed_at := now env tr |}.

(** The chat request of the second loop for an entry of [handleItems]. *)
Definition chat_of (entry : HandleItem.t) : event :=
  EvChat (prompt_of (HandleItem.handle entry)
            (InputRecord.companyName (HandleItem.item entry))).

(** The events of the search of an item that fails [failed] times before
    its last request. *)
Definition search_of (item : InputRecord.t) (failed : nat) : list event :=
  failed_attempts (search_url item) 1 failed ++ [EvRequest (search_url item)].

End FurtherObservations.

(** * Example environments *)

Module Examples.

(** The double quote. *)
Definition dq : string := String "034"%char EmptyString.

Definition quoted (s : string) : string := dq +:+ s +:+ dq.

(** A URL parser for plain absolute [http(s)] URLs without escapes, on
    which it agrees with the platform's. *)
Definition simple_URL (v : json) : option URL :=
  match v with
  | JStr s =>
      let rest := if starts_with "https://" s then Some (drop_string 8 s)
                  else if starts_with "http://" s then Some (drop_string 7 s)
                  else None in
      match rest with
      | Some rest =>
          let stop c := Ascii.eqb c "/"%char || Ascii.eqb c "?"%char
                        || Ascii.eqb c "#"%char in
          let host := take_while (fun c => negb (stop c)) rest in
          let after_host := drop_string (String.length host) rest in
          let path := take_while (fun c => negb (Ascii.eqb c "?"%char
                                                 || Ascii.eqb c "#"%char)) after_host in
          let after_path := drop_string (String.length path) after_host in
          let query := if starts_with "?" after_path
                       then take_while (fun c => negb (Ascii.eqb c "#"%char))
                              (drop_string 1 after_path)
                       else "" in
          if nonempty host
          then Some {| pathname := if nonempty path then path else "/";
                       searchParams := query |}
          else None
      | None => None
      end
  | _ => None
  end.

(** Response bodies and what [JSON.parse] makes of them. *)
Definition zero_body : string :=
  "{" +:+ quoted "general" +:+ ":{" +:+ quoted "results_cnt" +:+ ":0}}".

Definition zero_json : json := JObj [("general", JObj [("results_cnt", JNum 0)])].

Definition alice_body : string :=
  "{" +:+ quoted "organic" +:+ ":[{" +:+ quoted "link" +:+ ":"
  +:+ quoted "https://x.com/alice" +:+ "},{" +:+ quoted "link" +:+ ":"
  +:+ quoted "https://x.com/alice/status/123" +:+ "}]}".

Definition alice_json : json :=
  JObj [("organic", JArr [JObj [("link", JStr "https://x.com/alice")];
                          JObj [("link", JStr "https://x.com/alice/status/123")]])].

Definition verdict_body : string :=
  "{" +:+ quoted "role" +:+ ":" +:+ quoted "Founder" +:+ "," +:+ quoted "rank" +:+ ":9}".

Definition verdict_json : json := JObj [("role", JStr "Founder"); ("rank", JNum 9)].

(** [JSON.stringify({ lastProcessedIndex: 42 }, null, 2)]. *)
Definition progress_42 : string :=
  "{
  " +:+ quoted "lastProcessedIndex" +:+ ": 42
}".

Definition parse_table : list (string * json) :=
  [(zero_body, zero_json); (alice_body, alice_json); (verdict_body, verdict_json);
   (progress_42, progressObject 42)].

Definition table_parse (text : string) : option json :=
  snd <$> List.find (fun entry => String.eqb (fst entry) text) parse_table.

Definition table_stringify (v : json) : string :=
  default "null" (fst <$> List.find
    (fun entry => match v, snd entry with
                  | JObj [(k, JNum q)], JObj [(k', JNum q')] =>
                      String.eqb k k' && Qeq_bool q q'
                  | _, _ => false
                  end) parse_table).

(** A snapshot with rows for [alice] and [bob]. *)
Definition snapshot_rows : json :=
  JArr [JObj [("url", JStr "https://x.com/alice"); ("biography", JStr "Founder of Acme")];
        JObj [("url", JStr "https://x.com/bob"); ("biography", JStr "")]].

(** An environment given by its search proxy and its snapshot endpoint;
    the trigger, the classifier and the file system always succeed. *)
Definition env_of (search : list event -> string -> outcome string)
    (snapshot : list event -> option json -> outcome json) : Env :=
  {| request := search;
     JSON_parse := table_parse;
     JSON_stringify := table_stringify;
     new_URL := simple_URL;
     axios_post := fun _ _ => Return (JObj [("snapshot_id", JStr "s_1")]);
     axios_get := snapshot;
     chat_completion := fun _ _ => Return verdict_body;
     now := fun _ => "2025-01-01T00:00:00.000Z";
     isProcessing := fun _ => true;
     can_write_progress := fun _ => true;
     can_read_progress := fun _ => true |}.

(** The proxy never answers. *)
Definition search_down : list event -> string -> outcome string :=
  fun _ _ => Throw (Error "ETIMEDOUT").

(** The search finds nothing. *)
Definition search_zero : list event -> string -> outcome string :=
  fun _ _ => Return zero_body.

(** The search finds a profile for queries about [alice] and times out
    for every other query. *)
Definition search_alice : list event -> string -> outcome string :=
  fun _ url => if includes "alice" url then Return alice_body
               else Throw (Error "ETIMEDOUT").

(** The search finds a profile for queries about [alice]; any other
    query times out when it follows a request, and is answered with the
    zero-results marker when it follows a wait. *)
Definition search_retry_zero : list event -> string -> outcome string :=
  fun tr url =>
    if includes "alice" url then Return alice_body
    else match List.last tr (EvSleep 0) with
         | EvSleep _ => Return zero_body
         | _ => Throw (Error "ETIMEDOUT")
         end.

(** The proxy fails four times and answers the fifth request. *)
Definition search_fifth : list event -> string -> outcome string :=
  fun tr _ => if Nat.eqb (List.length (List.filter is_request tr)) 4
              then Return alice_body else Throw (Error "ETIMEDOUT").

Definition snapshot_ready : list event -> option json -> outcome json :=
  fun _ _ => Return snapshot_rows.

Definition snapshot_running : list event -> option json -> outcome json :=
  fun _ _ => Return (JObj [("status", JStr "running")]).

Definition w0 : World := {| trace := []; progress_json := None |}.

Definition jane : InputRecord.t :=
  {| InputRecord.founderName := "Jane Doe";
     InputRecord.companyName := "Acme";
     InputRecord.email := "jane@acme.test";
     InputRecord.searchQuery := "site%3Ax.com%20(Jane)%20(Doe)%20(Acme)" |}.

Definition alice : InputRecord.t :=
  {| InputRecord.founderName := "Alice Liddell";
     InputRecord.companyName := "Wonder";
     InputRecord.email := "alice@wonder.test";
     InputRecord.searchQuery := "site%3Ax.com%20(alice)%20(Liddell)%20(Wonder)" |}.

Definition bob : InputRecord.t :=
  {| InputRecord.founderName := "Bob Roberts";
     InputRecord.companyName := "Builders";
     InputRecord.email := "bob@builders.test";
     InputRecord.searchQuery := "site%3Ax.com%20(Bob)%20(Roberts)%20(Builders)" |}.


(** A snapshot with a good row for [alice] and a [null] row. *)
Definition snapshot_poisoned : list event -> option json -> outcome json :=
  fun _ _ => Return (JArr [JObj [("url", JStr "https://x.com/alice")]; JNull]).

(** The environment [env] with a classifier that is down. *)
Definition chat_down (env : Env) : Env :=
  {| request := request env;
     JSON_parse := JSON_parse env;
     JSON_stringify := JSON_stringify env;
     new_URL := new_URL env;
     axios_post := axios_post env;
     axios_get := axios_get env;
     chat_completion := fun _ _ => Throw (Error "429 Too Many Requests");
     now := now env;
     isProcessing := isProcessing env;
     can_write_progress := can_write_progress env;
     can_read_progress := can_read_progress env |}.

(** The environment [env] with a shutdown signalled once twenty-five
    search requests have been made. *)
Definition interrupted (env : Env) : Env :=
  {| request := request env;
     JSON_parse := JSON_parse env;
     JSON_stringify := JSON_stringify env;
     new_URL := new_URL env;
     axios_post := axios_post env;
     axios_get := axios_get env;
     chat_completion := chat_completion env;
     now := now env;
     isProcessing := fun tr => Nat.ltb (List.length (List.filter is_request tr)) 25;
     can_write_progress := can_write_progress env;
     can_read_progress := can_read_progress env |}.

End Examples.

(** * Properties *)

(** ** Retrying Fetcher *)

Section FetcherFacts.

Variable env : Env.

Lemma fetchAttempt_eq url w :
  fetchAttempt env url w
  = (match attempt_result env (trace w) url with
     | Some v => Return v
     | None => match request env (trace w) url with
               | Throw e => Throw e
               | Return response =>
                   match JSON_parse env response with
                   | None => Throw (Error "Unexpected token in JSON")
                   | Some jsonData => accept_payload jsonData
                   end
               end
     end, record (EvRequest url) w).
Proof.
  unfold fetchAttempt, attempt_result, bind, history, emit, lift, throw.
  destruct (request env (trace w) url) as [response|e]; [|reflexivity].
  destruct (JSON_parse env response) as [jsonData|]; [|reflexivity].
  destruct (accept_payload jsonData); reflexivity.
Qed.

Lemma fetchAttempt_world url w :
  snd (fetchAttempt env url w) = record (EvRequest url) w.
Proof. rewrite fetchAttempt_eq. reflexivity. Qed.

Lemma fetchAttempt_Return url w v w1 :
  fetchAttempt env url w = (Return v, w1) ->
  attempt_result env (trace w) url = Some v /\ w1 = record (EvRequest url) w.
Proof.
  rewrite fetchAttempt_eq. unfold attempt_result.
  destruct (request env (trace w) url) as [response|e]; [|intros [=]].
  destruct (JSON_parse env response) as [jsonData|]; [|intros [=]].
  destruct (accept_payload jsonData); intros [= <- <-]; auto.
Qed.

Lemma fetchAttempt_Throw url w e w1 :
  fetchAttempt env url w = (Throw e, w1) ->
  attempt_result env (trace w) url = None /\ w1 = record (EvRequest url) w.
Proof.
  rewrite fetchAttempt_eq. unfold attempt_result.
  destruct (request env (trace w) url) as [response|e']; [|intros [= <- <-]; auto].
  destruct (JSON_parse env response) as [jsonData|]; [|intros [= <- <-]; auto].
  destruct (accept_payload jsonData); intros [= <- <-]; auto.
Qed.

(** The recursion of [fetchWithRetry], one step unfolded. *)
Lemma fetchWithRetry_step url attempt w :
  fetchWithRetry env url attempt w
  = match fetchAttempt env url w with
    | (Return jsonData, w1) => (Return (Some jsonData), w1)
    | (Throw _, w1) =>
        if le_lt_dec RETRY_CONFIG.maxRetries attempt then (Return None, w1)
        else fetchWithRetry env url (S attempt) (record (EvSleep (backoffDelay attempt)) w1)
    end.
Proof.
  simp fetchWithRetry.
  destruct (fetchAttempt env url w) as [[jsonData|e] w1];
    cbn -[le_lt_dec]; [reflexivity|].
  destruct (le_lt_dec RETRY_CONFIG.maxRetries attempt); reflexivity.
Qed.

Lemma extend_record w evs ev :
  record ev (extend w evs) = extend w (evs ++ [ev]).
Proof. unfold record, extend. simpl. by rewrite <- app_assoc. Qed.

Lemma extend_nil w : extend w [] = w.
Proof. destruct w. unfold extend. simpl. by rewrite app_nil_r. Qed.

Lemma extend_extend w evs evs' : extend (extend w evs) evs' = extend w (evs ++ evs').
Proof. unfold extend. simpl. by rewrite <- app_assoc. Qed.

Lemma record_extend w ev : record ev w = extend w [ev].
Proof. reflexivity. Qed.

(** [fetchWithRetry] from any attempt number: it stops after some number
    [failed] of failed attempts, within the budget, on the first attempt
    that succeeds or on the last one allowed. *)
Lemma fetchWithRetry_run url budget : forall attempt w,
  budget = RETRY_CONFIG.maxRetries - attempt ->
  exists failed,
    failed <= budget /\
    (forall i, i < failed ->
       attempt_result env (trace w ++ failed_attempts url attempt i) url = None) /\
    fetchWithRetry env url attempt w
    = (Return (attempt_result env (trace w ++ failed_attempts url attempt failed) url),
       extend w (failed_attempts url attempt failed ++ [EvRequest url])) /\
    (attempt_result env (trace w ++ failed_attempts url attempt failed) url = None ->
     failed = budget).
Proof.
  induction budget as [|budget IH]; intros attempt w Hb.
  - exists 0. simpl. rewrite app_nil_r. split; [lia|]. split; [intros; lia|].
    rewrite fetchWithRetry_step.
    destruct (fetchAttempt env url w) as [[v|e] w1] eqn:Ha.
    + apply fetchAttempt_Return in Ha as [-> ->]. auto.
    + apply fetchAttempt_Throw in Ha as [-> ->].
      destruct (le_lt_dec RETRY_CONFIG.maxRetries attempt); [auto|lia].
  - rewrite fetchWithRetry_step.
    destruct (fetchAttempt env url w) as [[v|e] w1] eqn:Ha.
    + apply fetchAttempt_Return in Ha as [Hr ->].
      exists 0. simpl. rewrite app_nil_r, Hr.
      split; [lia|]. split; [intros; lia|]. split; [reflexivity|discriminate].
    + apply fetchAttempt_Throw in Ha as [Hr ->].
      destruct (le_lt_dec RETRY_CONFIG.maxRetries attempt); [lia|].
      destruct (IH (S attempt) (record (EvSleep (backoffDelay attempt))
                                       (record (EvRequest url) w)))
        as (failed & Hle & Hfail & Hrun & Hlast); [lia|].
      assert (Htr : forall n,
        trace (record (EvSleep (backoffDelay attempt)) (record (EvRequest url) w))
          ++ failed_attempts url (S attempt) n
        = trace w ++ failed_attempts url attempt (S n)).
      { intros n. simpl. rewrite <- !app_assoc. reflexivity. }
      exists (S failed). split; [lia|]. split; [|split].
      * intros [|i] Hi; [simpl; by rewrite app_nil_r|].
        rewrite <- Htr. apply Hfail. lia.
      * rewrite Hrun, Htr. f_equal.
        rewrite !record_extend, !extend_extend. f_equal.
      * rewrite <- Htr. intros Hn. f_equal. auto.
Qed.

End FetcherFacts.

(** ** Snapshot Poller *)

Section PollerFacts.

Variable env : Env.

(** The [while] loop of [getProfileDescription], one turn unfolded. *)
Lemma pollSnapshot_step snapshotId finalJSON attempts w :
  pollSnapshot env snapshotId finalJSON attempts w
  = if le_lt_dec maxAttempts attempts then (Return finalJSON, w)
    else if is_null finalJSON || status_running finalJSON then
      match pollOnce env snapshotId finalJSON w with
      | (finalJSON', None, w1) =>
          pollSnapshot env snapshotId finalJSON' (S attempts) w1
      | (finalJSON', Some error, w1) =>
          if le_lt_dec maxAttempts (S attempts) then (Throw error, w1)
          else pollSnapshot env snapshotId finalJSON' (S attempts) w1
      end
    else (Return finalJSON, w).
Proof.
  simp pollSnapshot.
  destruct (le_lt_dec maxAttempts attempts); cbn -[le_lt_dec]; [reflexivity|].
  destruct (is_null finalJSON || status_running finalJSON);
    cbn -[le_lt_dec]; [|reflexivity].
  destruct (pollOnce env snapshotId finalJSON w) as [[finalJSON' [error|]] w1];
    cbn -[le_lt_dec]; [|reflexivity].
  destruct (le_lt_dec maxAttempts (S attempts)); reflexivity.
Qed.

Lemma pollOnce_world snapshotId finalJSON w :
  snd (pollOnce env snapshotId finalJSON w)
  = extend w [EvSleep 5000; EvSnapshot snapshotId].
Proof.
  unfold pollOnce. cbn.
  destruct (axios_get env _ snapshotId) as [[]|]; cbn;
    unfold record, extend; cbn; by rewrite <- app_assoc.
Qed.

Lemma pollOnce_non_terminal snapshotId finalJSON w :
  is_null finalJSON || status_running finalJSON = true ->
  non_terminal (axios_get env (trace w ++ [EvSleep 5000]) snapshotId) ->
  let finalJSON' := fst (fst (pollOnce env snapshotId finalJSON w)) in
  is_null finalJSON' || status_running finalJSON' = true.
Proof.
  intros Hfj Hnt. unfold pollOnce. cbn in *.
  destruct (axios_get env (trace w ++ [EvSleep 5000]) snapshotId) as [[]|];
    cbn in *; auto.
Qed.

(** When none of the polls left in the budget ends the wait, the loop
    throws, or leaves a [finalJSON] that is [null] or still running. *)
Lemma pollSnapshot_never_terminal snapshotId budget : forall attempts finalJSON w,
  budget = maxAttempts - attempts ->
  is_null finalJSON || status_running finalJSON = true ->
  (forall i, i < budget ->
     non_terminal (axios_get env (trace w ++ polls snapshotId i ++ [EvSleep 5000])
                     snapshotId)) ->
  match fst (pollSnapshot env snapshotId finalJSON attempts w) with
  | Throw _ => True
  | Return finalJSON' => is_null finalJSON' || status_running finalJSON' = true
  end.
Proof.
  induction budget as [|budget IH]; intros attempts finalJSON w Hb Hfj Hpolls;
    rewrite pollSnapshot_step.
  - destruct (le_lt_dec maxAttempts attempts); [exact Hfj|lia].
  - destruct (le_lt_dec maxAttempts attempts); [exact Hfj|].
    rewrite Hfj.
    pose proof (pollOnce_world snapshotId finalJSON w) as Hw.
    pose proof (pollOnce_non_terminal snapshotId finalJSON w Hfj (Hpolls 0 ltac:(lia)))
      as Hfj'.
    destruct (pollOnce env snapshotId finalJSON w) as [[finalJSON' oerr] w1].
    cbn in Hw, Hfj'. subst w1.
    assert (Hrec : match fst (pollSnapshot env snapshotId finalJSON' (S attempts)
                                 (extend w [EvSleep 5000; EvSnapshot snapshotId])) with
                   | Throw _ => True
                   | Return fj => is_null fj || status_running fj = true
                   end).
    { apply IH; [lia|exact Hfj'|].
      intros i Hi. cbn [extend trace].
      rewrite <- app_assoc. apply (Hpolls (S i)). lia. }
    destruct oerr as [error|]; [|exact Hrec].
    destruct (le_lt_dec maxAttempts (S attempts)); [exact I|exact Hrec].
Qed.

(** Every entry that [forEach] puts into [profileMap], as a property or
    as its prototype, has [canDm = true]. *)
Lemma buildProfileMap_canDm rows : forall pm0 pm,
  buildProfileMap rows pm0 = Return pm ->
  map_Forall (fun _ p => canDm_true p) (own pm0) ->
  (forall e, proto pm0 = Some e -> canDm_true e) ->
  map_Forall (fun _ p => canDm_true p) (own pm) /\
  (forall e, proto pm = Some e -> canDm_true e).
Proof.
  induction rows as [|profile rest IH]; intros pm0 pm Hb H0 Hp0; cbn in Hb.
  - inversion Hb; subst. auto.
  - assert (Hstep : forall urlHandle,
      let pm1 := match urlHandle with
                 | Some h => if nonempty h
                             then profileMap_set h (successEntry profile) pm0 else pm0
                 | None => pm0
                 end in
      map_Forall (fun _ p => canDm_true p) (own pm1) /\
      (forall e, proto pm1 = Some e -> canDm_true e)).
    { intros [h|]; cbv zeta; [|auto]. destruct (nonempty h); [|auto].
      unfold profileMap_set. destruct (String.eqb h "__proto__"); cbn [own proto].
      - split; [exact H0|]. intros e [= <-]. reflexivity.
      - split; [|exact Hp0]. apply map_Forall_insert_2; [reflexivity|exact H0]. }
    destruct profile; try discriminate;
      destruct (extractHandle _) as [urlHandle|]; try discriminate;
      destruct (Hstep urlHandle); eapply IH; eauto.
Qed.

(** An entry object that a handle gets has [canDm = true]. *)
Lemma profile_or_notFound_canDm pm h entry :
  map_Forall (fun _ p => canDm_true p) (own pm) ->
  (forall e, proto pm = Some e -> canDm_true e) ->
  profile_or_notFound pm h = PEntry entry ->
  canDm_true entry.
Proof.
  intros Hown Hproto. unfold profile_or_notFound, profileMap_get.
  destruct (own pm !! h) as [p|] eqn:Hp.
  - cbn. intros [= <-]. by apply (Hown h).
  - unfold inherited.
    destruct (proto pm ≫= _) as [v|]; [cbn; destruct (truthy v); by intros [= <-]|].
    destruct (String.eqb h "__proto__").
    + cbn. destruct (proto pm) as [e|]; [|discriminate]. intros [= <-]. by apply Hproto.
    + destruct (existsb _ _); cbn; [discriminate|]. by intros [= <-].
Qed.

(** Only the name of an inherited member gets something else than an
    entry object. *)
Lemma inherited_Some proto h v :
  inherited proto h = Some v -> inherited_name h = true.
Proof.
  unfold inherited, inherited_name. intros H.
  apply existsb_exists.
  destruct (proto ≫= _) as [m|] eqn:Hm.
  - exists h. split; [|apply String.eqb_refl].
    destruct proto as [e|]; [|discriminate]. cbn in Hm. unfold entry_member in Hm.
    right. apply in_or_app. right.
    destruct (String.eqb_spec h "status") as [->|]; [cbn; auto|].
    destruct (String.eqb_spec h "canDm") as [->|]; [cbn; auto|].
    destruct (String.eqb_spec h "description") as [->|]; [cbn; auto|].
    destruct (String.eqb_spec h "reason") as [->|]; [cbn; auto|discriminate].
  - destruct (String.eqb_spec h "__proto__") as [->|].
    + exists "__proto__". split; [by left|reflexivity].
    + destruct (existsb (String.eqb h) Object_prototype_functions) eqn:Hf; [|discriminate].
      apply existsb_exists in Hf as (x & Hin & Hx).
      exists x. split; [|exact Hx]. right. apply in_or_app. by left.
Qed.

Lemma profile_or_notFound_entry pm h :
  is_entry (profile_or_notFound pm h) = true \/ inherited_name h = true.
Proof.
  unfold profile_or_notFound, profileMap_get.
  destruct (own pm !! h); [by left|].
  destruct (inherited (proto pm) h) as [v|] eqn:Hv; [|by left].
  right. by apply (inherited_Some _ _ _ Hv).
Qed.

(** What a handle gets is truthy, so its [description] can be read. *)
Lemma profile_or_notFound_truthy pm h :
  profile_truthy (profile_or_notFound pm h) = true.
Proof.
  unfold profile_or_notFound.
  destruct (profileMap_get pm h) as [v|]; [|reflexivity].
  destruct (profile_truthy v) eqn:Hv; [exact Hv|reflexivity].
Qed.

Lemma description_of_truthy value :
  profile_truthy value = true ->
  exists description, description_of (Some value) = Return description.
Proof.
  destruct value as [entry|v| |name]; cbn; eauto.
  destruct v; cbn; eauto. discriminate.
Qed.

End PollerFacts.

(** ** Computations *)

Section MonadFacts.

Context {A B : Type}.

Lemma bind_Return (m : M A) (k : A -> M B) w b w' :
  bind m k w = (Return b, w') ->
  exists a w1, m w = (Return a, w1) /\ k a w1 = (Return b, w').
Proof.
  unfold bind. destruct (m w) as [[a|e] w1]; [eauto|discriminate].
Qed.

Lemma bind_Throw (m : M A) (k : A -> M B) w e w' :
  bind m k w = (Throw e, w') ->
  m w = (Throw e, w') \/ exists a w1, m w = (Return a, w1) /\ k a w1 = (Throw e, w').
Proof.
  unfold bind. destruct (m w) as [[a|e'] w1]; [eauto|intros [= <- <-]; auto].
Qed.

End MonadFacts.

(** ** Profile resolution *)

Section ResolverFacts.
Variable env : Env.

Lemma getProfileDescription_try_Return handles w out w' :
  getProfileDescription_try env handles w = (Return out, w') ->
  handlesArray_of handles <> [] ->
  exists data finalJSON profileMap,
    axios_post env (trace w) (urlsToFetch_of (handlesArray_of handles)) = Return data /\
    pollSnapshot env (get data "snapshot_id") JNull 0
      (record (EvTrigger (urlsToFetch_of (handlesArray_of handles))) w)
    = (Return finalJSON, w') /\
    buildProfileMap (rows_of finalJSON) emptyProfileMap = Return profileMap /\
    out = List.map (profile_or_notFound profileMap) (handlesArray_of handles).
Proof.
  intros Htry Hne. unfold getProfileDescription_try in Htry.
  destruct (Nat.eqb _ 0) eqn:Hlen.
  { apply Nat.eqb_eq, length_zero_iff_nil in Hlen. contradiction. }
  fold (urlsToFetch_of (handlesArray_of handles)) in Htry.
  unfold bind at 1 2 3 in Htry. unfold history, emit, lift at 1 in Htry.
  destruct (axios_post env (trace w) _) as [data|e]; [|discriminate].
  exists data.
  apply bind_Return in Htry as (snapshotId & w1 & Hsid & Htry).
  assert (snapshotId = get data "snapshot_id" /\
          w1 = record (EvTrigger (urlsToFetch_of (handlesArray_of handles))) w)
    as [-> ->] by (destruct data; inversion Hsid; auto).
  apply bind_Return in Htry as (finalJSON & w2 & Hpoll & Htry).
  exists finalJSON.
  destruct (negb (truthy finalJSON) || status_running finalJSON); [discriminate|].
  apply bind_Return in Htry as (profileMap & w3 & Hmap & Htry).
  exists profileMap. unfold lift in Hmap. unfold ret in Htry.
  inversion Htry; subst. inversion Hmap; subst.
  repeat split; auto.
  destruct finalJSON; auto.
Qed.

Lemma getProfileDescription_try_empty handles w :
  handlesArray_of handles = [] ->
  getProfileDescription_try env handles w = (Return [], w).
Proof. intros H. unfold getProfileDescription_try. rewrite H. reflexivity. Qed.

(** The outer [catch] turns every failure into one error entry per handle;
    nothing escapes. *)
Lemma getProfileDescription_catch handles w e w' :
  getProfileDescription_try env handles w = (Throw e, w') ->
  getProfileDescription env handles w
  = (Return (List.map (fun _ => PEntry (apiErrorEntry e)) (handlesArray_of handles)), w').
Proof.
  intros H. unfold getProfileDescription, try_catch. rewrite H.
  destruct handles; reflexivity.
Qed.

Lemma getProfileDescription_pass handles w out w' :
  getProfileDescription_try env handles w = (Return out, w') ->
  getProfileDescription env handles w = (Return out, w').
Proof. intros H. unfold getProfileDescription, try_catch. by rewrite H. Qed.

(** [getProfileDescription] always returns, with one value per handle,
    each a function of the handle in its position: a truthy value, which
    is an entry object unless the handle is the name of an inherited
    member, and which has [canDm = true] when it is an entry object. *)
Lemma getProfileDescription_total handles w :
  exists f w',
    getProfileDescription env handles w
    = (Return (List.map f (handlesArray_of handles)), w') /\
    (forall h entry, f h = PEntry entry -> canDm_true entry) /\
    (forall h, profile_truthy (f h) = true) /\
    (forall h, is_entry (f h) = true \/ inherited_name h = true).
Proof.
  destruct (getProfileDescription_try env handles w) as [[out|e] w'] eqn:Htry.
  - destruct (handlesArray_of handles) as [|h0 hs] eqn:Hh.
    + rewrite getProfileDescription_try_empty in Htry by exact Hh.
      inversion Htry; subst.
      exists (fun _ => PEntry notFoundEntry), w'.
      split; [|split; [by intros h entry [= <-]|split; [reflexivity|by left]]].
      erewrite getProfileDescription_pass;
        [|by apply getProfileDescription_try_empty]. reflexivity.
    + assert (Hne : handlesArray_of handles <> []) by (by rewrite Hh).
      destruct (getProfileDescription_try_Return _ _ _ _ Htry Hne)
        as (data & finalJSON & profileMap & _ & _ & Hmap & ->).
      exists (profile_or_notFound profileMap), w'.
      split; [rewrite <- Hh; by apply getProfileDescription_pass|].
      split; [|split; [apply profile_or_notFound_truthy
                      |apply profile_or_notFound_entry]].
      intros h entry.
      destruct (buildProfileMap_canDm _ _ _ Hmap) as [Hown Hproto];
        [apply map_Forall_empty|discriminate|].
      by apply profile_or_notFound_canDm.
  - exists (fun _ => PEntry (apiErrorEntry e)), w'.
    split; [by apply getProfileDescription_catch|].
    split; [by intros h entry [= <-]|split; [reflexivity|by left]].
Qed.

End ResolverFacts.

(** ** Batch Orchestrator *)

Section OrchestratorFacts.

Variable env : Env.

(** Case analysis of a finished computation: splits every [match] that
    decides the result in hypothesis [H]. *)
Ltac split_run H :=
  unfold bind, ret, lift, throw, timestamp in H;
  repeat match type of H with
         | context [match ?x with _ => _ end] => destruct x eqn:?
         | context [if ?x then _ else _] => destruct x eqn:?
         end.

Lemma resolveItem_spec item w :
  exists r w',
    resolveItem env item w = (Return r, w') /\
    match r with
    | inl result =>
        identity_of_result result = identity_of_input item /\ stopped_early result
    | inr entry => HandleItem.item entry = item
    end.
Proof.
  unfold resolveItem, try_catch.
  match goal with
  | |- context [match ?body w with _ => _ end] => destruct (body w) as [[r|e] w1] eqn:Hbody
  end.
  - exists r, w1. split; [reflexivity|].
    split_run Hbody; inversion Hbody; subst; try discriminate;
      cbn; unfold stopped_early; cbn; auto.
  - unfold bind, timestamp, ret. eexists _, _. split; [reflexivity|].
    cbn. unfold stopped_early. cbn. auto.
Qed.

Lemma pick_nil {A : Type} (b : bool) (flags : list bool) : pick b flags (@nil A) = [].
Proof. destruct flags; reflexivity. Qed.

(** The first loop keeps the two accumulators apart: every item adds one
    record to [batchResults] or one entry to [handleItems], in order. *)
Lemma collectHandles_spec batch : forall batchResults handleItems w,
  exists flags early pending w',
    collectHandles env batch batchResults handleItems w
    = (Return (batchResults ++ early, handleItems ++ pending), w') /\
    List.length flags = List.length batch /\
    List.map identity_of_result early
    = List.map identity_of_input (pick false flags batch) /\
    List.map HandleItem.item pending = pick true flags batch /\
    Forall stopped_early early.
Proof.
  induction batch as [|item rest IH]; intros batchResults handleItems w.
  - exists [], [], [], w. cbn. rewrite !app_nil_r. repeat split; auto.
  - destruct (resolveItem_spec item w) as (r & w1 & Hr & Hspec).
    cbn [collectHandles]. unfold bind at 1. rewrite Hr.
    destruct r as [result|entry].
    + destruct (IH (batchResults ++ [result]) handleItems w1)
        as (flags & early & pending & w' & Hrun & Hlen & Hearly & Hpend & Hall).
      destruct Hspec as [Hid Hstop].
      exists (false :: flags), (result :: early), pending, w'.
      rewrite Hrun, <- app_assoc. cbn. rewrite Hid, Hearly.
      repeat split; auto.
    + destruct (IH batchResults (handleItems ++ [entry]) w1)
        as (flags & early & pending & w' & Hrun & Hlen & Hearly & Hpend & Hall).
      exists (true :: flags), early, (entry :: pending), w'.
      rewrite Hrun, <- app_assoc. cbn. rewrite Hspec, Hpend.
      repeat split; auto.
Qed.

Lemma analyzeFounderProfile_total handle company w :
  exists analysis w', analyzeFounderProfile env handle company w = (Return analysis, w').
Proof.
  unfold analyzeFounderProfile, try_catch.
  match goal with
  | |- context [match ?body w with _ => _ end] => destruct (body w) as [[r|e] w1]
  end; unfold ret; eauto.
Qed.

Lemma assembleResult_spec entry profileData w :
  exists result w',
    assembleResult env entry profileData w = (Return result, w') /\
    identity_of_result result = identity_of_input (HandleItem.item entry) /\
    resolved result.
Proof.
  unfold assembleResult, try_catch.
  match goal with
  | |- context [match ?body w with _ => _ end] => destruct (body w) as [[r|e] w1] eqn:Hbody
  end.
  - exists r, w1. split; [reflexivity|].
    unfold bind at 1 2 3 in Hbody. unfold timestamp, lift in Hbody.
    destruct (description_of profileData) as [description|]; [|discriminate].
    destruct (analyzeFounderProfile_total (HandleItem.handle entry)
                (InputRecord.companyName (HandleItem.item entry)) w)
      as (analysis & w2 & Ha).
    rewrite Ha in Hbody. unfold ret in Hbody.
    destruct analysis as [a|]; [destruct (truthy a)|];
      inversion Hbody; subst; cbn; unfold resolved; cbn; auto.
  - unfold bind, timestamp, ret. eexists _, _. split; [reflexivity|].
    cbn. unfold resolved. cbn. auto.
Qed.

Lemma assembleResults_spec handleItems : forall i profileDataArray batchResults w,
  exists late w',
    assembleResults env handleItems i profileDataArray batchResults w
    = (Return (batchResults ++ late), w') /\
    List.map identity_of_result late
    = List.map (fun entry => identity_of_input (HandleItem.item entry)) handleItems /\
    Forall resolved late.
Proof.
  induction handleItems as [|entry rest IH]; intros i profileDataArray batchResults w.
  - exists [], w. cbn. rewrite app_nil_r. auto.
  - destruct (assembleResult_spec entry (profileDataArray !! i) w)
      as (result & w1 & Hr & Hid & Hres).
    destruct (IH (S i) profileDataArray (batchResults ++ [result]) w1)
      as (late & w' & Hrun & Hlate & Hall).
    exists (result :: late), w'.
    cbn [assembleResults]. unfold bind at 1. rewrite Hr, Hrun, <- app_assoc.
    cbn. rewrite Hid, Hlate. auto.
Qed.

(** [processBatch] always returns: first the records of the items that
    stopped in the first loop, in input order, then the records of the
    items that reached handle resolution, in input order. *)
Lemma processBatch_spec batch w :
  exists flags early late w',
    processBatch env batch w = (Return (early ++ late), w') /\
    List.length flags = List.length batch /\
    List.map identity_of_result early
    = List.map identity_of_input (pick false flags batch) /\
    List.map identity_of_result late
    = List.map identity_of_input (pick true flags batch) /\
    Forall stopped_early early /\
    Forall resolved late.
Proof.
  destruct (collectHandles_spec batch [] [] w)
    as (flags & early & pending & w1 & Hrun & Hlen & Hearly & Hpend & Hall).
  cbn [app] in Hrun.
  unfold processBatch. unfold bind at 1. rewrite Hrun. cbn [fst snd].
  destruct (Nat.ltb 0 (List.length pending)) eqn:Hn.
  - unfold bind at 1. unfold sleep, emit.
    destruct (getProfileDescription_total env
                (HArray (List.map HandleItem.handle pending))
                (record (EvSleep 2000) w1)) as (f & w2 & Hg & _).
    unfold bind. rewrite Hg.
    destruct (assembleResults_spec pending 0
                (List.map f (handlesArray_of (HArray (List.map HandleItem.handle pending))))
                early w2) as (late & w' & Hlate & Hids & Hres).
    exists flags, early, late, w'. rewrite Hlate.
    repeat split; auto.
    rewrite Hids, <- Hpend, map_map. reflexivity.
  - apply Nat.ltb_ge in Hn. assert (pending = []) as -> by (destruct pending; cbn in *; [auto|lia]).
    exists flags, early, [], w1. unfold ret. rewrite app_nil_r.
    cbn in Hpend. rewrite <- Hpend. repeat split; auto.
Qed.

Lemma pick_Permutation {A : Type} (flags : list bool) : forall l : list A,
  List.length flags = List.length l ->
  Permutation (pick false flags l ++ pick true flags l) l.
Proof.
  induction flags as [|f flags IH]; intros [|x l] Hlen; cbn in *; try discriminate.
  - constructor.
  - injection Hlen as Hlen. destruct f; cbn.
    + rewrite <- Permutation_middle. constructor. by apply IH.
    + constructor. by apply IH.
Qed.

End OrchestratorFacts.

Section PositionFacts.

Lemma positions_from_bounds b flags : forall i,
  Forall (fun j => i <= j < i + List.length flags) (positions_from b flags i).
Proof.
  induction flags as [|f flags IH]; intros i; cbn; [constructor|].
  assert (Htail : Forall (fun j => i <= j < i + S (List.length flags))
                         (positions_from b flags (S i))).
  { eapply Forall_impl; [apply IH|]. cbn. intros j Hj. lia. }
  destruct (Bool.eqb f b); [constructor; [lia|exact Htail]|exact Htail].
Qed.

Lemma positions_from_sorted b flags : forall i,
  StronglySorted lt (positions_from b flags i).
Proof.
  induction flags as [|f flags IH]; intros i; cbn; [constructor|].
  destruct (Bool.eqb f b); [|apply IH].
  constructor; [apply IH|].
  eapply Forall_impl; [apply positions_from_bounds|]. cbn. intros j Hj. lia.
Qed.

Lemma positions_from_Permutation flags : forall i,
  Permutation (positions_from false flags i ++ positions_from true flags i)
              (seq i (List.length flags)).
Proof.
  induction flags as [|f flags IH]; intros i; cbn; [constructor|].
  destruct f; cbn.
  - rewrite <- Permutation_middle. constructor. apply IH.
  - constructor. apply IH.
Qed.

Lemma pick_positions {A : Type} b flags : forall (l before : list A),
  List.length flags = List.length l ->
  List.map Some (pick b flags l)
  = List.map (fun j => (before ++ l) !! j)
             (positions_from b flags (List.length before)).
Proof.
  induction flags as [|f flags IH]; intros [|x l] before Hlen; cbn in *;
    try discriminate; [reflexivity|].
  injection Hlen as Hlen.
  assert (Hrec : List.map Some (pick b flags l)
                 = List.map (fun j => (before ++ x :: l) !! j)
                            (positions_from b flags (S (List.length before)))).
  { rewrite (IH l (before ++ [x]) Hlen), length_app, Nat.add_1_r.
    by rewrite <- app_assoc. }
  destruct (Bool.eqb f b); cbn; [|exact Hrec].
  rewrite Hrec. f_equal.
  rewrite lookup_app_r by lia. by rewrite Nat.sub_diag.
Qed.

End PositionFacts.

(** ** The batch loop *)

Section RunFacts.

Variable env : Env.

Lemma makeBatches_concat records : concat (makeBatches records) = records.
Proof.
  funelim (makeBatches records); [reflexivity|].
  cbn [concat]. change (drop BATCH_SIZE (q :: qs)) with (drop 4 qs) at 1.
  rewrite H. apply (take_drop BATCH_SIZE (q :: qs)).
Qed.



End RunFacts.

(** ** Result Extractor *)

Section ExtractorFacts.

Lemma nonempty_true s : nonempty s = true <-> s <> "".
Proof.
  unfold nonempty. destruct (String.eqb_spec s ""); cbn; split; congruence.
Qed.

Lemma string_app_cons a p s : String a p +:+ s = String a (p +:+ s).
Proof. reflexivity. Qed.

Lemma string_app_nil s : "" +:+ s = s.
Proof. reflexivity. Qed.

Lemma starts_with_app p : forall s, starts_with p (p +:+ s) = true.
Proof.
  induction p as [|a p IH]; intros s; [reflexivity|].
  rewrite string_app_cons. cbn -[Ascii.eqb].
  by rewrite Ascii.eqb_refl, IH.
Qed.

Lemma starts_with_split p : forall s,
  starts_with p s = true -> s = p +:+ drop_string (String.length p) s.
Proof.
  induction p as [|a p IH]; intros s H; [reflexivity|].
  destruct s as [|b s]; [discriminate|]. cbn -[Ascii.eqb] in H.
  apply andb_true_iff in H as [Hab Hp]. apply Ascii.eqb_eq in Hab as ->.
  rewrite string_app_cons. cbn. f_equal. by apply IH.
Qed.

Lemma drop_string_app p : forall s, drop_string (String.length p) (p +:+ s) = s.
Proof.
  induction p as [|a p IH]; intros s; [reflexivity|].
  rewrite string_app_cons. cbn. apply IH.
Qed.

(** [take_while] splits a string into the run it returns and a rest
    that is empty or starts with a character outside the class. *)
Lemma take_while_split p s :
  exists post,
    s = take_while p s +:+ post /\
    string_all p (take_while p s) = true /\
    (post = "" \/ exists c r, post = String c r /\ p c = false).
Proof.
  induction s as [|c s (post & Heq & Hall & Hpost)]; cbn.
  - exists "". auto.
  - destruct (p c) eqn:Hc.
    + exists post. rewrite string_app_cons. cbn. rewrite Hc, Hall, <- Heq. auto.
    + exists (String c s). rewrite string_app_nil. cbn.
      split; [reflexivity|]. split; [reflexivity|]. right. by exists c, s.
Qed.


Lemma match_handle_step a s :
  match_handle (String a s)
  = if starts_with "x.com/" (String a s)
    then let seg := take_while handle_char (drop_string 6 (String a s)) in
         if nonempty seg then Some seg else match_handle s
    else match_handle s.
Proof. reflexivity. Qed.

(** What [match_handle] returns is a match of the pattern. *)
Lemma match_handle_sound s : forall h,
  match_handle s = Some h ->
  exists pre post,
    s = pre +:+ "x.com/" +:+ h +:+ post /\
    h <> "" /\
    string_all handle_char h = true /\
    (post = "" \/ exists c r, post = String c r /\ handle_char c = false).
Proof.
  induction s as [|a s IH]; intros h Hm; [discriminate|].
  rewrite match_handle_step in Hm.
  assert (Hrec : match_handle s = Some h ->
                 exists pre post,
                   String a s = pre +:+ "x.com/" +:+ h +:+ post /\ h <> "" /\
                   string_all handle_char h = true /\
                   (post = "" \/ exists c r, post = String c r /\ handle_char c = false)).
  { intros H. destruct (IH h H) as (pre & post & -> & Hrest).
    exists (String a pre), post. rewrite string_app_cons. auto. }
  destruct (starts_with "x.com/" (String a s)) eqn:Hs; [|auto].
  cbv zeta in Hm.
  pose proof (starts_with_split "x.com/" _ Hs) as Hsplit.
  change (String.length "x.com/") with 6 in Hsplit.
  remember (drop_string 6 (String a s)) as d eqn:Hd. clear Hd.
  destruct (nonempty (take_while handle_char d)) eqn:Hn; [|auto].
  injection Hm as <-.
  destruct (take_while_split handle_char d) as (post & Heq & Hall & Hpost).
  exists "", post. split; [|split; [by apply nonempty_true|auto]].
  rewrite string_app_nil, <- Heq. exact Hsplit.
Qed.

(** Wherever the pattern can match, [match_handle] finds a handle. *)
Lemma match_handle_complete pre : forall c post,
  handle_char c = true ->
  exists h, match_handle (pre +:+ "x.com/" +:+ String c post) = Some h.
Proof.
  induction pre as [|a pre IH]; intros c post Hc.
  - rewrite string_app_nil, !string_app_cons, string_app_nil, match_handle_step.
    cbn -[handle_char]. rewrite Hc. cbn. eauto.
  - rewrite string_app_cons, match_handle_step.
    destruct (starts_with _ _); [|by apply IH]. cbv zeta.
    destruct (nonempty _); [eauto|by apply IH].
Qed.

Lemma is_main_profile_canonical new_URL link :
  is_main_profile new_URL link = true <-> canonical new_URL link.
Proof.
  unfold is_main_profile, canonical. fold (path_segments).
  destruct (new_URL link) as [url|]; split.
  - intros H. apply andb_true_iff in H as [Hlen Hq].
    change (List.filter (fun p => nonempty p) (split "/"%char (pathname url)))
      with (path_segments (pathname url)) in Hlen.
    apply Nat.eqb_eq in Hlen.
    destruct (path_segments (pathname url)) as [|segment [|]] eqn:Hp; try discriminate.
    exists url, segment. split; [reflexivity|]. split; [exact Hp|].
    apply negb_true_iff in Hq. unfold nonempty in Hq.
    apply negb_false_iff in Hq. by apply String.eqb_eq.
  - intros (url' & segment & [= <-] & Hp & Hq).
    change (List.filter (fun p => nonempty p) (split "/"%char (pathname url)))
      with (path_segments (pathname url)).
    rewrite Hp, Hq. reflexivity.
  - discriminate.
  - intros (url' & segment & [=] & _).
Qed.

(** [Array.prototype.find]: the first element that passes the test. *)
Lemma find_first {A : Type} (p : A -> bool) (l : list A) :
  match List.find p l with
  | Some x => exists before after,
      l = before ++ x :: after /\ p x = true /\ Forall (fun y => p y = false) before
  | None => Forall (fun y => p y = false) l
  end.
Proof.
  induction l as [|y l IH]; cbn; [constructor|].
  destruct (p y) eqn:Hy.
  - exists [], l. auto.
  - destruct (List.find p l) as [x|].
    + destruct IH as (before & after & -> & Hx & Hb).
      exists (y :: before), after. auto.
    + constructor; auto.
Qed.

End ExtractorFacts.

(** * The claims of the specification *)



(** The delays before the second to the fifth attempt. *)
Lemma backoffDelay_values :
  backoffDelay 1 == 2000 /\ backoffDelay 2 == 3000 /\
  backoffDelay 3 == 4500 /\ backoffDelay 4 == 6750.
Proof. repeat split; reflexivity. Qed.

Lemma failed_attempts_requests url failed : forall attempt,
  List.length (List.filter is_request (failed_attempts url attempt failed ++ [EvRequest url]))
  = S failed.
Proof.
  induction failed as [|n IH]; intros attempt; [reflexivity|].
  cbn. f_equal. apply IH.
Qed.




(** A proxy that fails four times and then answers: five requests, and
    the payload of the fifth. *)
Example fetchWithRetry_fifth_attempt :
  let run := fetchWithRetry (Examples.env_of Examples.search_fifth Examples.snapshot_ready)
               "u" 1 Examples.w0 in
  fst run = Return (Some Examples.alice_json) /\
  List.length (List.filter is_request (trace (snd run))) = 5.
Proof. vm_compute. auto. Qed.

(** A proxy that never answers: five requests, and [null]. *)
Example fetchWithRetry_exhausted :
  let run := fetchWithRetry (Examples.env_of Examples.search_down Examples.snapshot_ready)
               "u" 1 Examples.w0 in
  fst run = Return None /\
  List.length (List.filter is_request (trace (snd run))) = 5.
Proof. vm_compute. auto. Qed.

(** C3.  The code breaks the claim for a handle that names a member of
    [Object.prototype].  [profileMap] is an object literal, so the
    lookup of [constructor], a handle that no snapshot row carries,
    finds the inherited function [Object]; that function, and not the
    not-found entry, is the element at the position of the handle.  The
    array still has one element per handle, and the handles around it
    get the entry of their row and the not-found entry. *)
Theorem getProfileDescription_inherited_member :
  let env := Examples.env_of Examples.search_zero Examples.snapshot_ready in
  let handles := ["alice"; "constructor"; "carol"] in
  Forall (fun row => extractHandle (get row "url") <> Return (Some "constructor"))
         (rows_of Examples.snapshot_rows) /\
  exists w',
    getProfileDescription env (HArray handles) Examples.w0
    = (Return [PEntry (successEntry
                         (JObj [("url", JStr "https://x.com/alice");
                                ("biography", JStr "Founder of Acme")]));
               PFunction "constructor";
               PEntry notFoundEntry], w') /\
    PFunction "constructor" <> PEntry notFoundEntry.
Proof.
  cbv zeta. split.
  - repeat constructor; vm_compute; discriminate.
  - eexists. split; [vm_compute; reflexivity|discriminate].
Qed.

(** Twenty-five handles: the trigger request carries twenty of them, and
    the result has twenty-five entries. *)
Example getProfileDescription_beyond_twenty :
  let handles := List.map (fun n => String (ascii_of_nat (97 + n)) "") (seq 0 25) in
  let run := getProfileDescription
               (Examples.env_of Examples.search_zero Examples.snapshot_ready)
               (HArray handles) Examples.w0 in
  List.length (urlsToFetch_of handles) = 20 /\
  exists out, fst run = Return out /\ List.length out = 25.
Proof. cbv zeta. split; [reflexivity|]. eexists. split; vm_compute; reflexivity. Qed.

Lemma non_terminal_falsy_or_running finalJSON :
  is_null finalJSON || status_running finalJSON = true ->
  negb (truthy finalJSON) || status_running finalJSON = true.
Proof.
  destruct finalJSON; cbn; intros H; try discriminate; try reflexivity.
  unfold status_running in *. cbn in *. by rewrite H.
Qed.

(** The [try] block throws when the trigger call fails, when its body is
    [null], and when no poll within the budget ends the wait. *)
Lemma getProfileDescription_try_fails env handles w :
  handlesArray_of handles <> [] ->
  let urls := urlsToFetch_of (handlesArray_of handles) in
  match axios_post env (trace w) urls with
  | Throw e =>
      getProfileDescription_try env handles w = (Throw e, record (EvTrigger urls) w)
  | Return data =>
      (forall i, i < maxAttempts ->
         non_terminal (axios_get env
                         (trace w ++ [EvTrigger urls]
                          ++ polls (get data "snapshot_id") i ++ [EvSleep 5000])
                         (get data "snapshot_id"))) ->
      exists e w', getProfileDescription_try env handles w = (Throw e, w')
  end.
Proof.
  intros Hne urls. unfold getProfileDescription_try.
  destruct (Nat.eqb _ 0) eqn:Hlen.
  { apply Nat.eqb_eq, length_zero_iff_nil in Hlen. contradiction. }
  fold (urlsToFetch_of (handlesArray_of handles)). fold urls.
  destruct (axios_post env (trace w) urls) as [data|e] eqn:Hpost.
  2: { unfold bind at 1 2 3. unfold history, emit, lift at 1.
       by rewrite Hpost. }
  intros Hpolls.
  assert (Hloop : match fst (pollSnapshot env (get data "snapshot_id") JNull 0
                               (record (EvTrigger urls) w)) with
                  | Throw _ => True
                  | Return fj => is_null fj || status_running fj = true
                  end).
  { apply (pollSnapshot_never_terminal env _ maxAttempts); [reflexivity|reflexivity|].
    intros i Hi. cbn [record trace]. rewrite <- app_assoc. by apply Hpolls. }
  unfold bind at 1 2 3. unfold history, emit, lift at 1. rewrite Hpost.
  unfold bind at 1.
  destruct data; try (unfold throw; eauto; fail); unfold ret at 1;
    unfold bind at 1;
    destruct (pollSnapshot env _ JNull 0 _) as [[fj|e] w1]; cbn [fst] in Hloop; eauto;
    rewrite (non_terminal_falsy_or_running _ Hloop); unfold throw; eauto.
Qed.

(** C4.  [getProfileDescription] never throws.  When the trigger call
    fails, or when none of the ten polls ends the wait (each fails, or
    answers [null] or a running status), it returns one synthesized error
    entry per handle, and every such entry has [canDm = true]. *)
Theorem getProfileDescription_never_throws :
  forall (env : Env) (handles : list string) (w : World),
    (exists out w', getProfileDescription env (HArray handles) w = (Return out, w')) /\
    (forall e,
        axios_post env (trace w) (urlsToFetch_of handles) = Throw e ->
        exists w',
          getProfileDescription env (HArray handles) w
          = (Return (List.map (fun _ => PEntry (apiErrorEntry e)) handles), w')) /\
    (forall data,
        axios_post env (trace w) (urlsToFetch_of handles) = Return data ->
        (forall i, i < 10 ->
           non_terminal (axios_get env
                           (trace w ++ [EvTrigger (urlsToFetch_of handles)]
                            ++ polls (get data "snapshot_id") i ++ [EvSleep 5000])
                           (get data "snapshot_id"))) ->
        exists e w',
          getProfileDescription env (HArray handles) w
          = (Return (List.map (fun _ => PEntry (apiErrorEntry e)) handles), w')) /\
    (forall e, ProfileData.canDm (apiErrorEntry e) = true /\
               ProfileData.status (apiErrorEntry e) = "error").
Proof.
  intros env handles w. split; [|split; [|split]].
  - destruct (getProfileDescription_total env (HArray handles) w) as (f & w' & Hrun & _).
    eauto.
  - intros e Hpost. destruct handles as [|h hs].
    + exists w. reflexivity.
    + pose proof (getProfileDescription_try_fails env (HArray (h :: hs)) w
                    ltac:(discriminate)) as Hfail.
      cbn [handlesArray_of] in Hfail. cbv zeta in Hfail. rewrite Hpost in Hfail.
      eexists. apply (getProfileDescription_catch env _ _ _ _ Hfail).
  - intros data Hpost Hpolls. destruct handles as [|h hs].
    + exists (Error ""), w. reflexivity.
    + pose proof (getProfileDescription_try_fails env (HArray (h :: hs)) w
                    ltac:(discriminate)) as Hfail.
      cbn [handlesArray_of] in Hfail. cbv zeta in Hfail. rewrite Hpost in Hfail.
      destruct (Hfail Hpolls) as (e & w' & Htry).
      exists e, w'. apply (getProfileDescription_catch env _ _ _ _ Htry).
  - intros e. split; reflexivity.
Qed.

Lemma getProfileDescription_never_throws_witness :
  exists e w',
    getProfileDescription (Examples.env_of Examples.search_zero Examples.snapshot_running)
      (HArray ["alice"; "bob"]) Examples.w0
    = (Return [PEntry (apiErrorEntry e); PEntry (apiErrorEntry e)], w').
Proof.
  destruct (getProfileDescription_never_throws
              (Examples.env_of Examples.search_zero Examples.snapshot_running)
              ["alice"; "bob"] Examples.w0) as (_ & _ & Hpolls & _).
  apply (Hpolls (JObj [("snapshot_id", JStr "s_1")]) eq_refl).
  intros i Hi. reflexivity.
Defined.

(** C10.  The code breaks the claim for a handle that names a member of
    [Object.prototype]: the value that [getProfileDescription] returns
    for the handle [toString], which no snapshot row carries, is the
    inherited function of that name, and its [canDm] is [undefined],
    not [true].  The record that [processBatch] assembles from such a
    value still has [dm_status] open. *)
Theorem canDm_inherited_member :
  let env := Examples.env_of Examples.search_zero Examples.snapshot_ready in
  (exists w',
      getProfileDescription env (HArray ["bob"; "toString"]) Examples.w0
      = (Return [PEntry (successEntry
                           (JObj [("url", JStr "https://x.com/bob");
                                  ("biography", JStr "")]));
                 PFunction "toString"], w')) /\
  canDm_of (PFunction "toString") = None /\
  canDm_of (PFunction "toString") <> Some (JBool true) /\
  (exists result w',
      assembleResult env
        {| HandleItem.item := Examples.bob;
           HandleItem.handle := "toString";
           HandleItem.mainProfileUrl := JStr "https://x.com/toString" |}
        (Some (PFunction "toString")) Examples.w0 = (Return result, w') /\
      ResultRecord.status result = "processed" /\
      ResultRecord.dm_status result = Some "open").
Proof.
  cbv zeta. split; [eexists; vm_compute; reflexivity|].
  split; [reflexivity|]. split; [discriminate|].
  eexists _, _. split; [vm_compute; reflexivity|]. split; reflexivity.
Qed.

(** C7.  [extractMainProfileLink] returns the first link, in input
    order, whose URL path has exactly one non-empty segment and whose
    query is empty; it returns [null] for the empty list and for a list
    without such a link; and from a profile link followed by a status
    link it returns the profile link. *)
Theorem extractMainProfileLink_first_canonical :
  forall (new_URL : json -> option URL) (links : list json),
    (forall link,
        extractMainProfileLink new_URL (Some links) = Some link <->
        exists before after,
          links = before ++ link :: after /\
          canonical new_URL link /\
          Forall (fun l => ~ canonical new_URL l) before) /\
    (extractMainProfileLink new_URL (Some links) = None <->
     Forall (fun l => ~ canonical new_URL l) links) /\
    extractMainProfileLink new_URL (Some []) = None /\
    extractMainProfileLink new_URL None = None /\
    (new_URL (JStr "https://x.com/alice")
     = Some {| pathname := "/alice"; searchParams := "" |} ->
     extractMainProfileLink new_URL
       (Some [JStr "https://x.com/alice"; JStr "https://x.com/alice/status/123"])
     = Some (JStr "https://x.com/alice")).
Proof.
  intros new_URL links.
  assert (Hnot : forall l, is_main_profile new_URL l = false <-> ~ canonical new_URL l).
  { intros l. rewrite <- is_main_profile_canonical.
    destruct (is_main_profile new_URL l); split; congruence. }
  assert (Hfirst : forall l before after,
            links = before ++ l :: after ->
            canonical new_URL l ->
            Forall (fun l' => ~ canonical new_URL l') before ->
            List.find (is_main_profile new_URL) links = Some l).
  { intros l before after -> Hl Hb.
    induction before as [|b before IH]; cbn.
    - apply is_main_profile_canonical in Hl. by rewrite Hl.
    - inversion Hb as [|? ? Hb1 Hb2]; subst.
      apply Hnot in Hb1. rewrite Hb1. by apply IH. }
  pose proof (find_first (is_main_profile new_URL) links) as Hfind.
  cbn [extractMainProfileLink].
  split; [|split; [|split; [|split]]].
  - intros link. split.
    + intros Hl. rewrite Hl in Hfind.
      destruct Hfind as (before & after & Heq & Hp & Hb).
      exists before, after. split; [exact Heq|].
      split; [by apply is_main_profile_canonical|].
      eapply Forall_impl; [exact Hb|]. intros l. apply Hnot.
    + intros (before & after & Heq & Hl & Hb). eapply Hfirst; eauto.
  - split.
    + intros Hn. rewrite Hn in Hfind.
      eapply Forall_impl; [exact Hfind|]. intros l. apply Hnot.
    + intros Hall. destruct (List.find (is_main_profile new_URL) links) as [l|]; [|reflexivity].
      destruct Hfind as (before & after & -> & Hp & _).
      apply Forall_app in Hall as [_ Hall]. inversion Hall as [|? ? Hl _]; subst.
      apply Hnot in Hl. congruence.
  - reflexivity.
  - reflexivity.
  - intros Hurl. cbn. unfold is_main_profile. rewrite Hurl. reflexivity.
Qed.

Lemma extractMainProfileLink_first_canonical_witness :
  extractMainProfileLink Examples.simple_URL
    (Some [JStr "https://x.com/alice"; JStr "https://x.com/alice/status/123"])
  = Some (JStr "https://x.com/alice").
Proof.
  destruct (extractMainProfileLink_first_canonical Examples.simple_URL [])
    as (_ & _ & _ & _ & Halice).
  apply Halice. reflexivity.
Defined.

(** A list of a status link and a link with a query has no canonical
    link. *)
Example extractMainProfileLink_none :
  extractMainProfileLink Examples.simple_URL
    (Some [JStr "https://x.com/alice/status/123"; JStr "https://x.com/alice?lang=en"])
  = None.
Proof. reflexivity. Qed.



(** C9.  [saveProgress(n)] followed by [loadProgress()] returns
    [{ lastProcessedIndex: n }] when the write succeeds, the file can be
    read and [JSON.parse] inverts [JSON.stringify] on that object;
    [loadProgress()] returns [{ lastProcessedIndex: 0 }] when there is no
    checkpoint file, and when the file cannot be read or parsed. *)
Theorem checkpoint_round_trip :
  forall (env : Env) (w : World) (n : Z),
    (can_write_progress env (trace w) = true ->
     can_read_progress env (trace (snd (saveProgress env n w))) = true ->
     JSON_parse env (JSON_stringify env (progressObject n)) = Some (progressObject n) ->
     fst (loadProgress env (snd (saveProgress env n w))) = Return (progressObject n)) /\
    (progress_json w = None ->
     loadProgress env w = (Return (progressObject 0), w)) /\
    (forall content,
        progress_json w = Some content ->
        can_read_progress env (trace w) = false \/ JSON_parse env content = None ->
        fst (loadProgress env w) = Return (progressObject 0)).
Proof.
  intros env w n. split; [|split].
  - intros Hwrite Hread Hparse. unfold saveProgress in *. rewrite Hwrite in *.
    cbn [snd] in *. unfold loadProgress. cbn [progress_json trace] in *.
    by rewrite Hread, Hparse.
  - intros Hnone. unfold loadProgress. by rewrite Hnone.
  - intros content Hsome Hbad. unfold loadProgress. rewrite Hsome.
    destruct (can_read_progress env (trace w)); [|reflexivity].
    destruct Hbad as [Hbad|Hbad]; [discriminate|]. by rewrite Hbad.
Qed.

Lemma checkpoint_round_trip_witness :
  let env := Examples.env_of Examples.search_zero Examples.snapshot_ready in
  fst (loadProgress env (snd (saveProgress env 42 Examples.w0)))
  = Return (JObj [("lastProcessedIndex", JNum 42)]).
Proof.
  cbv zeta.
  destruct (checkpoint_round_trip
              (Examples.env_of Examples.search_zero Examples.snapshot_ready)
              Examples.w0 42) as [Hround _].
  apply Hround; reflexivity.
Defined.

(** * Further properties of the code *)

(** ** Search results *)

Section SearchFacts.

Lemma is_x_link_Return item keep :
  is_x_link item = Return keep ->
  match get item "link" with
  | Some l => keep = mentions_x l
  | None => keep = false
  end.
Proof.
  destruct item as [| | | |items|fields]; cbn; try (intros [= <-]; reflexivity);
    try discriminate.
  destruct (lookup_field "link" fields) as [l|]; [|intros [= <-]; reflexivity].
  destruct l as [|b|q|s|xs|fs]; cbn; try (intros [= <-]; reflexivity);
    try discriminate.
  - destruct b; cbn; [discriminate|intros [= <-]; reflexivity].
  - destruct (Qeq_bool q 0); cbn; [intros [= <-]; reflexivity|discriminate].
  - unfold nonempty. destruct (String.eqb s ""); cbn; intros [= <-]; reflexivity.
Qed.

Lemma x_links_of_Return organic : forall links,
  x_links_of organic = Return links ->
  links = List.filter mentions_x (links_of organic).
Proof.
  induction organic as [|item rest IH]; intros links; cbn.
  - by intros [= <-].
  - destruct (is_x_link item) as [keep|] eqn:Hitem; [|discriminate].
    destruct (x_links_of rest) as [links'|]; [|discriminate].
    apply is_x_link_Return in Hitem. specialize (IH links' eq_refl).
    unfold links_of in *. cbn [omap].
    destruct (get item "link") as [l|]; subst keep.
    + cbn. destruct (mentions_x l); intros [= <-]; by rewrite IH.
    + intros [= <-]. exact IH.
Qed.

End SearchFacts.

(** X1.  When [processSearchResults] returns an array, it is the array
    of the [link] members that mention [x.com], in the order of the
    results, and it is not empty; when it returns [null], the payload has
    no organic results or none of them mentions [x.com]. *)
Theorem processSearchResults_links :
  forall (data : json),
    (forall links,
        processSearchResults data = Return (Some links) ->
        links <> [] /\
        Forall (fun l => mentions_x l = true) links /\
        exists organic,
          get data "organic" = Some (JArr organic) /\
          links = List.filter mentions_x (links_of organic)) /\
    (processSearchResults data = Return None ->
     truthy data && truthy_opt (get data "organic") = false \/
     exists organic,
       get data "organic" = Some (JArr organic) /\
       List.filter mentions_x (links_of organic) = []).
Proof.
  intros data. unfold processSearchResults.
  destruct (negb (truthy data) || negb (truthy_opt (get data "organic"))) eqn:Hguard.
  { split; [discriminate|]. intros _. left.
    rewrite <- negb_andb in Hguard. by apply negb_true_iff in Hguard. }
  destruct (get data "organic") as [[| | | |organic|]|]; try (split; discriminate).
  destruct (x_links_of organic) as [x_links|] eqn:Hx; [|split; discriminate].
  apply x_links_of_Return in Hx.
  destruct (Nat.eqb (List.length x_links) 0) eqn:Hlen.
  - split; [discriminate|]. intros _. right. exists organic. split; [reflexivity|].
    apply Nat.eqb_eq, length_zero_iff_nil in Hlen. congruence.
  - split; [|discriminate]. intros links [= <-].
    split; [|split].
    + intros ->. discriminate.
    + rewrite Hx. apply Forall_forall. intros l Hl.
      apply list_elem_of_In, filter_In in Hl. tauto.
    + by exists organic.
Qed.

Lemma processSearchResults_links_witness :
  exists links,
    processSearchResults Examples.alice_json = Return (Some links) /\ links <> [].
Proof.
  destruct (processSearchResults_links Examples.alice_json) as [Hsome _].
  eexists. split; [reflexivity|]. apply (Hsome _ eq_refl).
Defined.

(** ** Retrying Fetcher *)

Section FetcherPayloadFacts.

Lemma accept_payload_organic jsonData v :
  accept_payload jsonData = Return v ->
  truthy v = true /\
  exists organic, get v "organic" = Some organic /\ truthy organic = true.
Proof.
  unfold accept_payload.
  destruct (truthy jsonData && truthy_opt (get jsonData "general")
            && results_cnt_is_zero (get jsonData "general")).
  - intros [= <-]. cbn. eauto.
  - destruct (truthy jsonData && truthy_opt (get jsonData "organic")) eqn:H;
      [|discriminate].
    intros [= <-]. apply andb_true_iff in H as [Ht Ho]. split; [exact Ht|].
    destruct (get jsonData "organic") as [organic|]; [eauto|discriminate].
Qed.

Lemma attempt_result_organic env tr url v :
  attempt_result env tr url = Some v ->
  truthy v = true /\
  exists organic, get v "organic" = Some organic /\ truthy organic = true.
Proof.
  unfold attempt_result.
  destruct (request env tr url) as [response|]; [|discriminate].
  destruct (JSON_parse env response) as [jsonData|]; [|discriminate].
  destruct (accept_payload jsonData) as [v'|] eqn:Ha; [|discriminate].
  intros [= <-]. by apply accept_payload_organic in Ha.
Qed.

(** [fetchWithRetry] returns, from any attempt number, having only made
    requests and waited. *)
Lemma fetchWithRetry_returns env url attempt w :
  exists failed result,
    failed <= RETRY_CONFIG.maxRetries - attempt /\
    fetchWithRetry env url attempt w
    = (Return result, extend w (failed_attempts url attempt failed ++ [EvRequest url])).
Proof.
  destruct (fetchWithRetry_run env url _ attempt w eq_refl)
    as (failed & Hle & _ & Hrun & _).
  eauto.
Qed.

End FetcherPayloadFacts.

(** X2.  From any attempt number, [fetchWithRetry] returns without
    throwing after at most [5 - attempt] failed attempts and one last
    request (a single request when the attempt number is five or more);
    it leaves the checkpoint file alone; and a result other than [null]
    is a truthy payload with a truthy [organic] member. *)
Theorem fetchWithRetry_payload_shape :
  forall (env : Env) (url : string) (attempt : nat) (w : World),
    exists failed result,
      failed <= RETRY_CONFIG.maxRetries - attempt /\
      fetchWithRetry env url attempt w
      = (Return result, extend w (failed_attempts url attempt failed ++ [EvRequest url])) /\
      List.length (List.filter is_request
                     (failed_attempts url attempt failed ++ [EvRequest url]))
      = S failed /\
      forall data,
        result = Some data ->
        truthy data = true /\
        exists organic, get data "organic" = Some organic /\ truthy organic = true.
Proof.
  intros env url attempt w.
  destruct (fetchWithRetry_run env url _ attempt w eq_refl)
    as (failed & Hle & _ & Hrun & _).
  exists failed, (attempt_result env (trace w ++ failed_attempts url attempt failed) url).
  split; [exact Hle|]. split; [exact Hrun|].
  split; [apply failed_attempts_requests|].
  intros data Hdata. by apply attempt_result_organic in Hdata.
Qed.

Lemma fetchWithRetry_payload_shape_witness :
  exists result w',
    fetchWithRetry (Examples.env_of Examples.search_down Examples.snapshot_ready)
      "u" 7 Examples.w0 = (Return result, w') /\
    List.length (List.filter is_request (trace w')) = 1.
Proof.
  destruct (fetchWithRetry_payload_shape
              (Examples.env_of Examples.search_down Examples.snapshot_ready)
              "u" 7 Examples.w0) as (failed & result & Hle & Hrun & Hcount & _).
  exists result. eexists. split; [exact Hrun|].
  assert (failed = 0) as -> by (cbn in Hle; lia). reflexivity.
Defined.

(** ** Backoff *)

Section BackoffFacts.

Local Open Scope Q_scope.

Lemma Qpower_three_halves_succ (n : nat) :
  Qpower (3 # 2) (Z.of_nat (S n)) == Qpower (3 # 2) (Z.of_nat n) * (3 # 2).
Proof.
  rewrite Nat2Z.inj_succ. unfold Z.succ.
  rewrite Qpower_plus by discriminate. reflexivity.
Qed.

Lemma Qpower_three_halves_pos (n : nat) : 0 < Qpower (3 # 2) (Z.of_nat n).
Proof. apply Qpower_0_lt. reflexivity. Qed.

Lemma Qpower_three_halves_mono (n m : nat) :
  (n <= m)%nat -> Qpower (3 # 2) (Z.of_nat n) <= Qpower (3 # 2) (Z.of_nat m).
Proof.
  induction 1 as [|m Hle IH]; [apply Qle_refl|].
  eapply Qle_trans; [exact IH|].
  rewrite Qpower_three_halves_succ.
  pose proof (Qpower_three_halves_pos m) as Hpos.
  rewrite <- (Qmult_1_r (Qpower (3 # 2) (Z.of_nat m))) at 1.
  apply Qmult_le_l; [exact Hpos|discriminate].
Qed.

(** The uncapped delay, with the attempt number counted from zero. *)
Lemma backoffDelay_succ (n : nat) :
  backoffDelay (S n) = Qmin (2000 * Qpower (3 # 2) (Z.of_nat n)) 30000.
Proof.
  unfold backoffDelay. do 3 f_equal. lia.
Qed.

End BackoffFacts.

(** X3.  From the first attempt on, the backoff delay is at least 2000
    and at most 30000 milliseconds, it never decreases with the attempt
    number, and from the eighth attempt on it is the cap of 30000; a
    fetch that fails five times has waited 16250 milliseconds in all. *)
Theorem backoffDelay_bounds :
  forall (a b : nat) (url : string),
    (1 <= a)%nat ->
    (a <= b)%nat ->
    (2000 <= backoffDelay a)%Q /\
    (backoffDelay a <= 30000)%Q /\
    (backoffDelay a <= backoffDelay b)%Q /\
    ((8 <= a)%nat -> backoffDelay a == 30000) /\
    fold_right Qplus 0%Q (sleeps_of (failed_attempts url 1 4 ++ [EvRequest url]))
    == 16250.
Proof.
  intros a b url Ha Hab.
  destruct a as [|n]; [lia|]. destruct b as [|m]; [lia|].
  rewrite !backoffDelay_succ.
  assert (Hone : (1 <= Qpower (3 # 2) (Z.of_nat n))%Q).
  { apply (Qpower_three_halves_mono 0 n). lia. }
  split; [|split; [|split; [|split]]].
  - apply Q.min_glb; [|discriminate].
    apply Qle_trans with (2000 * 1)%Q; [discriminate|].
    apply Qmult_le_l; [reflexivity|exact Hone].
  - apply Q.le_min_r.
  - apply Q.min_le_compat_r.
    apply Qmult_le_l; [reflexivity|].
    apply Qpower_three_halves_mono. lia.
  - intros H8. apply Q.min_r.
    apply Qle_trans with (2000 * Qpower (3 # 2) (Z.of_nat 7))%Q; [discriminate|].
    apply Qmult_le_l; [reflexivity|].
    apply Qpower_three_halves_mono. lia.
  - reflexivity.
Qed.

Lemma backoffDelay_bounds_witness :
  (2000 <= backoffDelay 3)%Q /\ (backoffDelay 3 <= backoffDelay 9)%Q /\
  backoffDelay 9 == 30000.
Proof.
  destruct (backoffDelay_bounds 3 9 "u" ltac:(lia) ltac:(lia)) as (H1 & _ & H3 & _).
  destruct (backoffDelay_bounds 9 9 "u" ltac:(lia) ltac:(lia)) as (_ & _ & _ & H4 & _).
  split; [exact H1|]. split; [exact H3|]. apply H4. lia.
Defined.

(** ** Snapshot polling *)

Section PollingFacts.

Variable env : Env.

Lemma polls_snoc snapshotId k :
  polls snapshotId (S k)
  = [EvSleep 5000; EvSnapshot snapshotId] ++ polls snapshotId k.
Proof. reflexivity. Qed.

(** The loop only sleeps and polls, within its budget. *)
Lemma pollSnapshot_io snapshotId budget : forall attempts finalJSON w,
  budget = maxAttempts - attempts ->
  exists k,
    k <= budget /\
    snd (pollSnapshot env snapshotId finalJSON attempts w)
    = extend w (polls snapshotId k).
Proof.
  induction budget as [|budget IH]; intros attempts finalJSON w Hb;
    rewrite pollSnapshot_step.
  - destruct (le_lt_dec maxAttempts attempts); [|lia].
    exists 0. by rewrite extend_nil.
  - destruct (le_lt_dec maxAttempts attempts); [lia|].
    destruct (is_null finalJSON || status_running finalJSON).
    2: { exists 0. split; [lia|]. by rewrite extend_nil. }
    pose proof (pollOnce_world env snapshotId finalJSON w) as Hw.
    destruct (pollOnce env snapshotId finalJSON w) as [[finalJSON' oerr] w1].
    cbn in Hw. subst w1.
    destruct (IH (S attempts) finalJSON'
                (extend w [EvSleep 5000; EvSnapshot snapshotId]) ltac:(lia))
      as (k & Hk & Hrec).
    assert (Hgo : exists k',
      k' <= S budget /\
      snd (pollSnapshot env snapshotId finalJSON' (S attempts)
             (extend w [EvSleep 5000; EvSnapshot snapshotId]))
      = extend w (polls snapshotId k')).
    { exists (S k). split; [lia|]. by rewrite Hrec, extend_extend. }
    destruct oerr as [error|]; [|exact Hgo].
    destruct (le_lt_dec maxAttempts (S attempts)); [|exact Hgo].
    exists 1. split; [lia|]. reflexivity.
Qed.

(** With [finalJSON] still [null] and budget left, the loop polls at
    least once. *)
Lemma pollSnapshot_first snapshotId w :
  exists k,
    1 <= k <= maxAttempts /\
    snd (pollSnapshot env snapshotId JNull 0 w) = extend w (polls snapshotId k).
Proof.
  rewrite pollSnapshot_step.
  destruct (le_lt_dec maxAttempts 0) as [H|_]; [unfold maxAttempts in H; lia|].
  cbn [is_null orb].
  pose proof (pollOnce_world env snapshotId JNull w) as Hw.
  destruct (pollOnce env snapshotId JNull w) as [[finalJSON' oerr] w1].
  cbn in Hw. subst w1.
  destruct (pollSnapshot_io snapshotId 9 1 finalJSON'
              (extend w [EvSleep 5000; EvSnapshot snapshotId]) eq_refl)
    as (k & Hk & Hrec).
  assert (Hgo : exists k',
    1 <= k' <= maxAttempts /\
    snd (pollSnapshot env snapshotId finalJSON' 1
           (extend w [EvSleep 5000; EvSnapshot snapshotId]))
    = extend w (polls snapshotId k')).
  { exists (S k). split; [unfold maxAttempts; lia|]. by rewrite Hrec, extend_extend. }
  destruct oerr as [error|]; [|exact Hgo].
  destruct (le_lt_dec maxAttempts 1) as [H|_]; [unfold maxAttempts in H; lia|].
  exact Hgo.
Qed.

Lemma polls_snapshots snapshotId k :
  List.length (List.filter is_snapshot (polls snapshotId k)) = k.
Proof. induction k as [|k IH]; cbn; [reflexivity|by rewrite IH]. Qed.

Lemma urlsToFetch_of_length handlesArray :
  List.length (urlsToFetch_of handlesArray) = Nat.min 20 (List.length handlesArray).
Proof. unfold urlsToFetch_of. by rewrite length_map, length_take. Qed.

End PollingFacts.

Section ResolverRequestFacts.

Variable env : Env.

(** The requests of [getProfileDescription] on a list that is not empty:
    the trigger, then the polls. *)
Lemma getProfileDescription_io handles w :
  let handlesArray := handlesArray_of handles in
  let urls := urlsToFetch_of handlesArray in
  handlesArray <> [] ->
  exists k snapshotId,
    k <= 10 /\
    snd (getProfileDescription env handles w)
    = extend w (EvTrigger urls :: polls snapshotId k) /\
    match axios_post env (trace w) urls with
    | Throw _ => k = 0
    | Return JNull => k = 0
    | Return data => 1 <= k /\ snapshotId = get data "snapshot_id"
    end.
Proof.
  intros handlesArray urls Hne.
  assert (Hcatch : forall r w1,
            getProfileDescription_try env handles w = (r, w1) ->
            snd (getProfileDescription env handles w) = w1).
  { intros r w1 H. unfold getProfileDescription, try_catch. rewrite H.
    destruct r; [reflexivity|]. destruct handles; reflexivity. }
  unfold getProfileDescription_try in Hcatch.
  fold handlesArray in Hcatch. fold urls in Hcatch.
  destruct (Nat.eqb (List.length handlesArray) 0) eqn:Hlen.
  { apply Nat.eqb_eq, length_zero_iff_nil in Hlen. contradiction. }
  unfold bind at 1 2 3 in Hcatch. unfold history, emit, lift at 1 in Hcatch.
  destruct (axios_post env (trace w) urls) as [data|e].
  2: { exists 0, None. split; [lia|]. split; [by eapply Hcatch|]. by split. }
  assert (Hnull : data = JNull ->
            exists k snapshotId,
              k <= 10 /\
              snd (getProfileDescription env handles w)
              = extend w (EvTrigger urls :: polls snapshotId k) /\
              k = 0).
  { intros ->. exists 0, None. split; [lia|]. split; [by eapply Hcatch|]. by split. }
  assert (Hdata : data <> JNull ->
            exists k snapshotId,
              k <= 10 /\
              snd (getProfileDescription env handles w)
              = extend w (EvTrigger urls :: polls snapshotId k) /\
              1 <= k /\ snapshotId = get data "snapshot_id").
  { intros Hd.
    destruct (pollSnapshot_first env (get data "snapshot_id") (record (EvTrigger urls) w))
      as (k & Hk & Hpoll).
    exists k, (get data "snapshot_id").
    split; [unfold maxAttempts in Hk; lia|].
    split; [|split; [lia|reflexivity]].
    assert (Hret : forall A (a : A) (w1 : World), ret a w1 = (Return a, w1))
      by reflexivity.
    unfold bind at 1 in Hcatch.
    assert (Hsid : match data with
                   | JNull => throw (TypeError
                       "Cannot read properties of null (reading 'snapshot_id')")
                   | _ => ret (get data "snapshot_id")
                   end (record (EvTrigger urls) w)
                   = (Return (get data "snapshot_id"), record (EvTrigger urls) w))
      by (destruct data; congruence).
    rewrite Hsid in Hcatch. unfold bind at 1 in Hcatch.
    destruct (pollSnapshot env (get data "snapshot_id") JNull 0
                (record (EvTrigger urls) w)) as [[finalJSON|e] w1] eqn:Hp;
      cbn [snd] in Hpoll; subst w1.
    - rewrite record_extend, extend_extend in Hcatch.
      destruct (negb (truthy finalJSON) || status_running finalJSON).
      + by eapply Hcatch.
      + unfold bind, lift, ret in Hcatch.
        destruct (match finalJSON with
                  | JArr rows => buildProfileMap rows emptyProfileMap
                  | _ => Return emptyProfileMap
                  end); by eapply Hcatch.
    - rewrite record_extend, extend_extend in Hcatch. by eapply Hcatch. }
  destruct data; try (destruct Hdata as (k & sid & H); [discriminate|];
                      exists k, sid; tauto).
  destruct Hnull as (k & sid & H); [reflexivity|]. exists k, sid. tauto.
Qed.

End ResolverRequestFacts.

(** X4.  What [getProfileDescription] does to the outside world: nothing
    for an empty list of handles; otherwise one trigger request that
    carries at most twenty profile URLs, followed by at most ten polls,
    each after a wait of 5000 milliseconds, at least one poll being made
    when the trigger answers with a body other than [null], and none
    when it fails. *)
Theorem getProfileDescription_requests :
  forall (env : Env) (handles : handles_arg) (w : World),
    let handlesArray := handlesArray_of handles in
    let urls := urlsToFetch_of handlesArray in
    (handlesArray = [] -> getProfileDescription env handles w = (Return [], w)) /\
    (handlesArray <> [] ->
     List.length urls = Nat.min 20 (List.length handlesArray) /\
     exists k snapshotId,
       k <= 10 /\
       snd (getProfileDescription env handles w)
       = extend w (EvTrigger urls :: polls snapshotId k) /\
       List.length (List.filter is_snapshot (EvTrigger urls :: polls snapshotId k)) = k /\
       match axios_post env (trace w) urls with
       | Throw _ => k = 0
       | Return JNull => k = 0
       | Return data => 1 <= k /\ snapshotId = get data "snapshot_id"
       end).
Proof.
  intros env handles w handlesArray urls. split.
  - intros Hnil. unfold getProfileDescription, try_catch.
    by rewrite getProfileDescription_try_empty.
  - intros Hne. split; [apply urlsToFetch_of_length|].
    destruct (getProfileDescription_io env handles w Hne) as (k & snapshotId & Hk & Hw & Hpost).
    exists k, snapshotId. split; [exact Hk|]. split; [exact Hw|].
    split; [cbn; apply polls_snapshots|exact Hpost].
Qed.

Lemma getProfileDescription_requests_witness :
  exists k snapshotId,
    k <= 10 /\
    snd (getProfileDescription
           (Examples.env_of Examples.search_zero Examples.snapshot_running)
           (HArray ["alice"]) Examples.w0)
    = extend Examples.w0 (EvTrigger ["https://x.com/alice"] :: polls snapshotId k).
Proof.
  destruct (getProfileDescription_requests
              (Examples.env_of Examples.search_zero Examples.snapshot_running)
              (HArray ["alice"]) Examples.w0) as [_ H].
  destruct (H ltac:(discriminate)) as (_ & k & sid & Hk & Hw & _).
  exists k, sid. split; [exact Hk|exact Hw].
Defined.

(** ** Snapshot rows *)

Section SnapshotRowFacts.

Lemma extractHandle_nonempty url h :
  extractHandle url = Return (Some h) -> nonempty h = true.
Proof.
  destruct url as [v|]; [|discriminate]. cbn.
  destruct (negb (truthy v)); [discriminate|].
  destruct v; try discriminate. intros [= Hm].
  apply match_handle_sound in Hm as (_ & _ & _ & Hne & _).
  by apply nonempty_true.
Qed.

Lemma extractHandle_Throw_bad row e :
  row <> JNull ->
  extractHandle (get row "url") = Throw e -> bad_row row = true.
Proof.
  intros Hrow. destruct row as [| | | | |fields]; cbn; try congruence.
  destruct (lookup_field "url" fields) as [u|]; cbn; [|discriminate].
  destruct u as [|b|q|s| |]; cbn; try discriminate; try reflexivity.
  - destruct b; cbn; [reflexivity|discriminate].
  - destruct (Qeq_bool q 0); cbn; [discriminate|reflexivity].
  - destruct (String.eqb s ""); cbn; discriminate.
Qed.

Lemma extractHandle_Return_good row r :
  extractHandle (get row "url") = Return r -> row <> JNull -> bad_row row = false.
Proof.
  intros He Hrow. destruct row as [| | | | |fields]; cbn in *; try congruence.
  destruct (lookup_field "url" fields) as [u|]; cbn in *; [|reflexivity].
  destruct u as [|b|q|s| |]; cbn in *; try discriminate; try reflexivity.
  - destruct b; cbn in *; [discriminate|reflexivity].
  - destruct (Qeq_bool q 0); cbn in *; [reflexivity|discriminate].
Qed.

Lemma null_or_not (row : json) : row = JNull \/ row <> JNull.
Proof. destruct row; auto; right; discriminate. Qed.

(** One row of [forEach] that is not [null]. *)
Lemma buildProfileMap_cons row rest pm0 :
  row <> JNull ->
  buildProfileMap (row :: rest) pm0
  = match extractHandle (get row "url") with
    | Throw e => Throw e
    | Return urlHandle =>
        buildProfileMap rest
          match urlHandle with
          | Some h => if nonempty h
                      then profileMap_set h (successEntry row) pm0 else pm0
          | None => pm0
          end
    end.
Proof. intros Hrow. destruct row; [congruence|reflexivity..]. Qed.

(** [forEach] throws exactly when the snapshot has a bad row. *)
Lemma buildProfileMap_Throw rows : forall pm0,
  (exists e, buildProfileMap rows pm0 = Throw e) <-> existsb bad_row rows = true.
Proof.
  induction rows as [|row rest IH]; intros pm0; cbn [existsb].
  - cbn. split; [intros [e H]; discriminate|discriminate].
  - destruct (null_or_not row) as [->|Hrow].
    { cbn. split; eauto. }
    rewrite (buildProfileMap_cons _ _ _ Hrow).
    destruct (extractHandle (get row "url")) as [urlHandle|e] eqn:He.
    + rewrite (extractHandle_Return_good _ _ He Hrow). cbn. apply IH.
    + rewrite (extractHandle_Throw_bad _ _ Hrow He). cbn. split; eauto.
Qed.

(** After [forEach], the own property of a handle other than
    [__proto__] is the entry of the last row about it, and otherwise
    what it was before; [__proto__] never becomes an own property. *)
Lemma buildProfileMap_own (h : string) rows : forall pm0 pm,
  buildProfileMap rows pm0 = Return pm ->
  own pm !! h = if String.eqb h "__proto__" then own pm0 !! h
                else match last_row_for h rows with
                     | Some row => Some (successEntry row)
                     | None => own pm0 !! h
                     end.
Proof.
  induction rows as [|row rest IH]; intros pm0 pm Hb; cbn [last_row_for].
  - cbn in Hb. injection Hb as <-. by destruct (String.eqb h "__proto__").
  - destruct (null_or_not row) as [->|Hrow]; [discriminate|].
    rewrite (buildProfileMap_cons _ _ _ Hrow) in Hb. unfold row_carries.
    destruct (extractHandle (get row "url")) as [urlHandle|e] eqn:He; [|discriminate].
    rewrite (IH _ _ Hb).
    destruct (String.eqb_spec h "__proto__") as [->|Hproto].
    + destruct urlHandle as [h'|]; [|reflexivity].
      rewrite (extractHandle_nonempty _ _ He). unfold profileMap_set.
      destruct (String.eqb_spec h' "__proto__") as [->|Hne]; [reflexivity|].
      cbn [own]. by rewrite lookup_insert_ne.
    + destruct (last_row_for h rest); [reflexivity|].
      destruct urlHandle as [h'|]; [|reflexivity].
      rewrite (extractHandle_nonempty _ _ He). unfold profileMap_set.
      destruct (String.eqb_spec h' h) as [->|Hne].
      * destruct (String.eqb_spec h "__proto__"); [contradiction|].
        cbn [own]. by rewrite lookup_insert_eq.
      * destruct (String.eqb h' "__proto__"); [reflexivity|].
        cbn [own]. by rewrite lookup_insert_ne.
Qed.

(** After [forEach], the prototype is the entry of the last row about
    [__proto__], and otherwise what it was before. *)
Lemma buildProfileMap_proto rows : forall pm0 pm,
  buildProfileMap rows pm0 = Return pm ->
  proto pm = match last_row_for "__proto__" rows with
             | Some row => Some (successEntry row)
             | None => proto pm0
             end.
Proof.
  induction rows as [|row rest IH]; intros pm0 pm Hb; cbn [last_row_for].
  - cbn in Hb. by injection Hb as <-.
  - destruct (null_or_not row) as [->|Hrow]; [discriminate|].
    rewrite (buildProfileMap_cons _ _ _ Hrow) in Hb. unfold row_carries.
    destruct (extractHandle (get row "url")) as [urlHandle|e] eqn:He; [|discriminate].
    rewrite (IH _ _ Hb).
    destruct (last_row_for "__proto__" rest); [reflexivity|].
    destruct urlHandle as [h'|]; [|reflexivity].
    rewrite (extractHandle_nonempty _ _ He). unfold profileMap_set.
    destruct (String.eqb h' "__proto__"); reflexivity.
Qed.

(** What a handle gets from the [profileMap] of a snapshot. *)
Lemma profile_or_notFound_rows rows pm h :
  buildProfileMap rows emptyProfileMap = Return pm ->
  profile_or_notFound pm h = profile_for rows h.
Proof.
  intros Hb. unfold profile_or_notFound, profileMap_get, profile_for.
  rewrite (buildProfileMap_own h _ _ _ Hb), (buildProfileMap_proto _ _ _ Hb).
  cbn [own proto emptyProfileMap]. rewrite lookup_empty.
  destruct (String.eqb_spec h "__proto__") as [->|Hne].
  - destruct (last_row_for "__proto__" rows) as [row|]; reflexivity.
  - destruct (last_row_for h rows) as [row|]; [reflexivity|].
    by destruct (last_row_for "__proto__" rows).
Qed.

Lemma profile_for_plain rows h :
  inherited_name h = false -> profile_for rows h = PEntry (entry_for rows h).
Proof.
  intros Hplain. unfold profile_for, entry_for.
  destruct (last_row_for h rows); [reflexivity|].
  destruct (inherited _ h) as [v|] eqn:Hv; [|reflexivity].
  apply inherited_Some in Hv. congruence.
Qed.

Variable env : Env.

(** [getProfileDescription] once the trigger has answered and the poll
    loop has returned a terminal snapshot. *)
Lemma getProfileDescription_polled handles w data finalJSON w1 :
  handlesArray_of handles <> [] ->
  axios_post env (trace w) (urlsToFetch_of (handlesArray_of handles)) = Return data ->
  data <> JNull ->
  pollSnapshot env (get data "snapshot_id") JNull 0
    (record (EvTrigger (urlsToFetch_of (handlesArray_of handles))) w)
  = (Return finalJSON, w1) ->
  negb (truthy finalJSON) || status_running finalJSON = false ->
  getProfileDescription env handles w
  = (Return match buildProfileMap (rows_of finalJSON) emptyProfileMap with
            | Return profileMap =>
                List.map (profile_or_notFound profileMap) (handlesArray_of handles)
            | Throw e =>
                List.map (fun _ => PEntry (apiErrorEntry e)) (handlesArray_of handles)
            end, w1).
Proof.
  intros Hne Hpost Hdata Hpoll Hterm.
  assert (Htry : getProfileDescription_try env handles w
                 = match buildProfileMap (rows_of finalJSON) emptyProfileMap with
                   | Return profileMap =>
                       (Return (List.map (profile_or_notFound profileMap)
                                  (handlesArray_of handles)), w1)
                   | Throw e => (Throw e, w1)
                   end).
  { unfold getProfileDescription_try.
    destruct (Nat.eqb _ 0) eqn:Hlen.
    { apply Nat.eqb_eq, length_zero_iff_nil in Hlen. contradiction. }
    unfold bind at 1 2 3. unfold history, emit, lift at 1. rewrite Hpost.
    unfold bind at 1.
    assert (Hsid : match data with
                   | JNull => throw (TypeError
                       "Cannot read properties of null (reading 'snapshot_id')")
                   | _ => ret (get data "snapshot_id")
                   end (record (EvTrigger (urlsToFetch_of (handlesArray_of handles))) w)
                   = (Return (get data "snapshot_id"),
                      record (EvTrigger (urlsToFetch_of (handlesArray_of handles))) w))
      by (destruct data; [congruence|reflexivity..]).
    rewrite Hsid. unfold bind at 1. rewrite Hpoll, Hterm.
    unfold bind, lift, ret.
    assert (Hrows : match finalJSON with
                    | JArr rows => buildProfileMap rows emptyProfileMap
                    | _ => Return emptyProfileMap
                    end = buildProfileMap (rows_of finalJSON) emptyProfileMap)
      by (destruct finalJSON; reflexivity).
    rewrite Hrows.
    destruct (buildProfileMap (rows_of finalJSON) emptyProfileMap); reflexivity. }
  destruct (buildProfileMap (rows_of finalJSON) emptyProfileMap) as [profileMap|e].
  - by apply getProfileDescription_pass.
  - by apply getProfileDescription_catch.
Qed.

End SnapshotRowFacts.

(** X5.  When the trigger has answered and the poll loop has returned a
    terminal snapshot without bad rows, the array has, in the order of
    the handles, for each handle the success entry of the last snapshot
    row whose URL carries it, with the truthy biography of that row, or
    the empty string, as its description.  A handle that no row carries
    gets the not-found entry, unless it is the name of an inherited
    member: then it gets what the prototype chain of [profileMap] has
    under that name, for [constructor] the function [Object].  A
    terminal snapshot that is not an array has no rows. *)
Theorem getProfileDescription_last_row_wins :
  forall (env : Env) (handles : handles_arg) (w w1 : World) (data finalJSON : json),
    handlesArray_of handles <> [] ->
    axios_post env (trace w) (urlsToFetch_of (handlesArray_of handles)) = Return data ->
    data <> JNull ->
    pollSnapshot env (get data "snapshot_id") JNull 0
      (record (EvTrigger (urlsToFetch_of (handlesArray_of handles))) w)
    = (Return finalJSON, w1) ->
    negb (truthy finalJSON) || status_running finalJSON = false ->
    existsb bad_row (rows_of finalJSON) = false ->
    let rows := rows_of finalJSON in
    getProfileDescription env handles w
    = (Return (List.map (profile_for rows) (handlesArray_of handles)), w1) /\
    (forall h,
        inherited_name h = false ->
        profile_for rows h
        = PEntry match last_row_for h rows with
                 | Some row =>
                     {| ProfileData.status := "success";
                        ProfileData.canDm := true;
                        ProfileData.description :=
                          description_or_empty (get row "biography");
                        ProfileData.reason := "DMs are open" |}
                 | None =>
                     {| ProfileData.status := "error";
                        ProfileData.canDm := true;
                        ProfileData.description := JStr "";
                        ProfileData.reason :=
                          "Profile data not found but assuming DMs are open" |}
                 end) /\
    (last_row_for "constructor" rows = None ->
     profile_for rows "constructor" = PFunction "constructor") /\
    ((forall items, finalJSON <> JArr items) -> rows = []).
Proof.
  intros env handles w w1 data finalJSON Hne Hpost Hdata Hpoll Hterm Hgood rows.
  pose proof (getProfileDescription_polled env handles w data finalJSON w1
                Hne Hpost Hdata Hpoll Hterm) as Hrun.
  fold rows in Hrun, Hgood.
  destruct (buildProfileMap rows emptyProfileMap) as [profileMap|e] eqn:Hmap.
  2: { assert (Hbad : existsb bad_row rows = true)
         by (apply (buildProfileMap_Throw _ emptyProfileMap); eauto).
       congruence. }
  split; [|split; [|split]].
  - rewrite Hrun. do 2 f_equal. apply map_ext. intros h.
    by apply profile_or_notFound_rows.
  - intros h Hplain. rewrite (profile_for_plain _ _ Hplain). unfold entry_for.
    destruct (last_row_for h rows) as [row|]; [|reflexivity].
    unfold successEntry, description_or_empty. reflexivity.
  - intros Hnone. unfold profile_for. rewrite Hnone.
    by destruct (last_row_for "__proto__" rows).
  - intros Harr. subst rows. destruct finalJSON; try reflexivity.
    by destruct (Harr items).
Qed.

Lemma getProfileDescription_last_row_wins_witness :
  fst (getProfileDescription
         (Examples.env_of Examples.search_zero Examples.snapshot_ready)
         (HArray ["bob"; "alice"; "carol"]) Examples.w0)
  = Return (List.map (profile_for (rows_of Examples.snapshot_rows))
              ["bob"; "alice"; "carol"]).
Proof.
  set (env := Examples.env_of Examples.search_zero Examples.snapshot_ready).
  destruct (pollSnapshot env (Some (JStr "s_1")) JNull 0
              (record (EvTrigger (urlsToFetch_of ["bob"; "alice"; "carol"])) Examples.w0))
    as [r w1] eqn:Hpoll.
  assert (r = Return Examples.snapshot_rows) as ->
    by (vm_compute in Hpoll; by injection Hpoll as <- _).
  destruct (getProfileDescription_last_row_wins env (HArray ["bob"; "alice"; "carol"])
              Examples.w0 w1 (JObj [("snapshot_id", JStr "s_1")]) Examples.snapshot_rows
              ltac:(discriminate) eq_refl ltac:(discriminate) Hpoll eq_refl eq_refl)
    as [Hrun _].
  by rewrite Hrun.
Defined.

(** X6.  One bad row in a terminal snapshot, a [null] row or a row whose
    [url] is truthy and not a string, costs the whole call: every
    handle, also one that a good row carries, gets the error entry of the
    exception. *)
Theorem getProfileDescription_bad_row :
  forall (env : Env) (handles : handles_arg) (w w1 : World) (data finalJSON : json),
    handlesArray_of handles <> [] ->
    axios_post env (trace w) (urlsToFetch_of (handlesArray_of handles)) = Return data ->
    data <> JNull ->
    pollSnapshot env (get data "snapshot_id") JNull 0
      (record (EvTrigger (urlsToFetch_of (handlesArray_of handles))) w)
    = (Return finalJSON, w1) ->
    negb (truthy finalJSON) || status_running finalJSON = false ->
    existsb bad_row (rows_of finalJSON) = true ->
    exists e,
      getProfileDescription env handles w
      = (Return (List.map (fun _ => PEntry (apiErrorEntry e)) (handlesArray_of handles)),
         w1).
Proof.
  intros env handles w w1 data finalJSON Hne Hpost Hdata Hpoll Hterm Hbad.
  pose proof (getProfileDescription_polled env handles w data finalJSON w1
                Hne Hpost Hdata Hpoll Hterm) as Hrun.
  apply (buildProfileMap_Throw _ emptyProfileMap) in Hbad as [e Hthrow].
  rewrite Hthrow in Hrun. eauto.
Qed.

Lemma getProfileDescription_bad_row_witness :
  let env := Examples.env_of Examples.search_zero Examples.snapshot_poisoned in
  exists e w1,
    getProfileDescription env (HArray ["alice"; "bob"]) Examples.w0
    = (Return [PEntry (apiErrorEntry e); PEntry (apiErrorEntry e)], w1).
Proof.
  cbv zeta.
  set (env := Examples.env_of Examples.search_zero Examples.snapshot_poisoned).
  destruct (pollSnapshot env (Some (JStr "s_1")) JNull 0
              (record (EvTrigger (urlsToFetch_of ["alice"; "bob"])) Examples.w0))
    as [r w1] eqn:Hpoll.
  assert (r = Return (JArr [JObj [("url", JStr "https://x.com/alice")]; JNull])) as ->
    by (vm_compute in Hpoll; by injection Hpoll as <- _).
  destruct (getProfileDescription_bad_row env (HArray ["alice"; "bob"])
              Examples.w0 w1 (JObj [("snapshot_id", JStr "s_1")]) _
              ltac:(discriminate) eq_refl ltac:(discriminate) Hpoll eq_refl eq_refl)
    as [e Hrun].
  exists e, w1. exact Hrun.
Defined.

(** ** Records and requests of a batch *)

Section BatchDetailFacts.

Variable env : Env.

Lemma extractHandle_string mainProfile h :
  extractHandle (Some mainProfile) = Return (Some h) ->
  exists u, mainProfile = JStr u /\ match_handle u = Some h /\ h <> "".
Proof.
  intros He. pose proof (extractHandle_nonempty _ _ He) as Hne.
  apply nonempty_true in Hne. cbn in He.
  destruct (negb (truthy mainProfile)); [discriminate|].
  destruct mainProfile; try discriminate. injection He as He. eauto.
Qed.

(** One turn of the first loop: the requests of one fetch, and either a
    well-formed record or a consistent entry. *)
Lemma resolveItem_detail item w :
  exists r failed,
    failed <= 4 /\
    resolveItem env item w
    = (Return r, extend w (failed_attempts (search_url item) 1 failed
                           ++ [EvRequest (search_url item)])) /\
    match r with
    | inl result =>
        identity_of_result result = identity_of_input item /\
        well_formed_record result /\
        (ResultRecord.status result <> "processed" /\ ResultRecord.handle result = None)
    | inr entry => HandleItem.item entry = item /\ consistent_entry entry
    end.
Proof.
  destruct (fetchWithRetry_returns env (search_url item) 1 w)
    as (failed & result & Hle & Hfetch).
  unfold resolveItem, try_catch. cbv zeta. unfold bind at 1. rewrite Hfetch.
  set (w1 := extend w _).
  assert (Hstop : forall status reason url t,
            (status = "failed" /\ failure_reason reason /\
             (url <> None -> reason = "Could not extract Twitter handle")
             \/ status = "error" /\ url = None) ->
            let result := stoppedRecord item status reason url t in
            identity_of_result result = identity_of_input item /\
            well_formed_record result /\
            (ResultRecord.status result <> "processed" /\
             ResultRecord.handle result = None)).
  { intros status reason url t Hs. cbn. split; [reflexivity|].
    destruct Hs as [(-> & Hr & Hu)|(-> & ->)].
    - split; [|split; [discriminate|reflexivity]]. left. cbn. repeat split; eauto.
    - split; [|split; [discriminate|reflexivity]]. right. left. cbn.
      repeat split; eauto. }
  exists match result with
         | None => inl (stoppedRecord item "failed" "No search results found" None
                          (now env (trace w1)))
         | Some data =>
             if negb (truthy data)
             then inl (stoppedRecord item "failed" "No search results found" None
                         (now env (trace w1)))
             else match processSearchResults data with
                  | Throw e => inl (stoppedRecord item "error" (message e) None
                                      (now env (trace w1)))
                  | Return links =>
                      match extractMainProfileLink (new_URL env) links with
                      | None => inl (stoppedRecord item "failed" "No Twitter profile found"
                                       None (now env (trace w1)))
                      | Some mainProfile =>
                          if negb (truthy mainProfile)
                          then inl (stoppedRecord item "failed" "No Twitter profile found"
                                      None (now env (trace w1)))
                          else match extractHandle (Some mainProfile) with
                               | Throw e => inl (stoppedRecord item "error" (message e) None
                                                   (now env (trace w1)))
                               | Return (Some h) =>
                                   if nonempty h
                                   then inr {| HandleItem.item := item;
                                               HandleItem.handle := h;
                                               HandleItem.mainProfileUrl := mainProfile |}
                                   else inl (stoppedRecord item "failed"
                                               "Could not extract Twitter handle"
                                               (Some mainProfile) (now env (trace w1)))
                               | Return None =>
                                   inl (stoppedRecord item "failed"
                                          "Could not extract Twitter handle"
                                          (Some mainProfile) (now env (trace w1)))
                               end
                      end
                  end
         end, failed.
  split; [unfold RETRY_CONFIG.maxRetries in Hle; lia|].
  unfold failure_reason in Hstop.
  destruct result as [data|]; [|split; [reflexivity|apply Hstop; tauto]].
  destruct (negb (truthy data)); [split; [reflexivity|apply Hstop; tauto]|].
  unfold bind at 1, lift at 1.
  destruct (processSearchResults data) as [links|e];
    [|split; [reflexivity|apply Hstop; tauto]].
  destruct (extractMainProfileLink (new_URL env) links) as [mainProfile|];
    [|split; [reflexivity|apply Hstop; tauto]].
  destruct (negb (truthy mainProfile)); [split; [reflexivity|apply Hstop; tauto]|].
  unfold bind at 1, lift at 1.
  destruct (extractHandle (Some mainProfile)) as [[h|]|e] eqn:He;
    [|split; [reflexivity|apply Hstop]|split; [reflexivity|apply Hstop; tauto]].
  - destruct (nonempty h) eqn:Hh.
    + split; [reflexivity|]. split; [reflexivity|].
      destruct (extractHandle_string _ _ He) as (u & -> & Hm & Hne).
      exists u. auto.
    + split; [reflexivity|]. apply Hstop. left. repeat split; auto.
  - left. repeat split; auto.
Qed.


(** The first loop: the searches of the items, one after the other, the
    records of the items that stop, and the entries of the items that go
    on, as [first_loop] lists them. *)
Lemma collectHandles_detail batch : forall batchResults handleItems w,
  exists segments,
    collectHandles env batch batchResults handleItems w
    = (Return (batchResults ++ stopped_records env batch w,
               handleItems ++ found_entries env batch w),
       extend w (concat segments)) /\
    List.length (first_loop env batch w) = List.length batch /\
    Forall2 (fun item segment => exists failed, failed <= 4 /\ segment = search_of item failed)
            batch segments /\
    Forall well_formed_record (stopped_records env batch w) /\
    Forall first_loop_record (stopped_records env batch w) /\
    Forall consistent_entry (found_entries env batch w) /\
    List.map identity_of_result (stopped_records env batch w)
    = List.map identity_of_input (pick false (handle_found env batch w) batch) /\
    List.map HandleItem.item (found_entries env batch w)
    = pick true (handle_found env batch w) batch.
Proof.
  induction batch as [|item rest IH]; intros batchResults handleItems w.
  - exists []. cbn. rewrite !app_nil_r, extend_nil.
    repeat split; constructor.
  - destruct (resolveItem_detail item w) as (r & failed & Hle & Hr & Hspec).
    destruct (resolveItem_spec env item w) as (r' & w1' & Hr' & Hspec').
    rewrite Hr in Hr'. injection Hr' as <- <-.
    set (w1 := extend w (search_of item failed)).
    assert (Hfl : first_loop env (item :: rest) w = (w, r) :: first_loop env rest w1).
    { cbn [first_loop]. unfold search_of in w1. by rewrite Hr. }
    cbn [collectHandles]. unfold bind at 1. rewrite Hr. fold (search_of item failed). fold w1.
    unfold stopped_records, found_entries, handle_found. rewrite Hfl.
    cbn [omap list_omap List.map snd length].
    fold (stopped_records env rest w1). fold (found_entries env rest w1).
    fold (handle_found env rest w1).
    destruct r as [result|entry].
    + destruct (IH (batchResults ++ [result]) handleItems w1)
        as (segments & Hrun & Hlen & Hseg & Hwf & Hfr & Hce & Hids & Hitems).
      destruct Hspec as (Hid & Hwf1 & _ & Hh). destruct Hspec' as (_ & Hst & Hdm).
      exists (search_of item failed :: segments).
      rewrite Hrun, <- app_assoc. cbn [concat app pick Bool.eqb]. subst w1.
      rewrite extend_extend.
      split; [reflexivity|]. split; [by rewrite Hlen|].
      split; [constructor; eauto|].
      split; [by constructor|].
      split; [constructor; [by repeat split|exact Hfr]|].
      split; [exact Hce|].
      split; [cbn [List.map]; by rewrite Hid, Hids|exact Hitems].
    + destruct (IH batchResults (handleItems ++ [entry]) w1)
        as (segments & Hrun & Hlen & Hseg & Hwf & Hfr & Hce & Hids & Hitems).
      destruct Hspec as (Hitem & Hce1).
      exists (search_of item failed :: segments).
      rewrite Hrun, <- app_assoc. cbn [concat app pick Bool.eqb]. subst w1.
      rewrite extend_extend.
      split; [reflexivity|]. split; [by rewrite Hlen|].
      split; [constructor; eauto|].
      split; [exact Hwf|]. split; [exact Hfr|].
      split; [by constructor|].
      split; [exact Hids|cbn [List.map]; by rewrite Hitem, Hitems].
Qed.

(** What the first loop lists for an item is what its body makes of the
    item in the world listed with it. *)
Lemma first_loop_lookup batch : forall w i w_i r,
  first_loop env batch w !! i = Some (w_i, r) ->
  exists item w', batch !! i = Some item /\ resolveItem env item w_i = (Return r, w').
Proof.
  induction batch as [|item rest IH]; intros w i w_i r Hi; [discriminate|].
  cbn [first_loop] in Hi.
  destruct (resolveItem env item w) as [[r0|e] w1] eqn:Hr; [|discriminate].
  destruct i as [|i]; cbn in Hi.
  - injection Hi as <- <-. exists item, w1. by split.
  - destruct (IH _ _ _ _ Hi) as (item' & w' & Hitem & Hres).
    exists item', w'. by split.
Qed.

(** The record of an item that stops is, among the records of the first
    loop, at the position that counts the items before it that stop. *)
Lemma stopped_records_lookup batch w i w_i r :
  first_loop env batch w !! i = Some (w_i, inl r) ->
  handle_found env batch w !! i = Some false /\
  stopped_records env batch w !! early_position (handle_found env batch w) i = Some r.
Proof.
  unfold handle_found, stopped_records, early_position.
  generalize (first_loop env batch w). clear batch w.
  intros steps. revert i.
  induction steps as [|[w0 r0] steps IH]; intros i Hi; [discriminate|].
  destruct i as [|i]; cbn in Hi.
  - injection Hi as -> ->. by split.
  - destruct (IH _ Hi) as [Hflag Hpos]. split; [exact Hflag|].
    cbn [List.map snd take List.filter omap list_omap].
    destruct r0 as [r0|entry]; cbn [negb List.length]; exact Hpos.
Qed.

(** A fetch that succeeds at its attempt number [failed + 1]. *)
Lemma fetchWithRetry_first_success url w failed v :
  failed <= 4 ->
  (forall j, j < failed ->
     attempt_result env (trace w ++ failed_attempts url 1 j) url = None) ->
  attempt_result env (trace w ++ failed_attempts url 1 failed) url = Some v ->
  fetchWithRetry env url 1 w
  = (Return (Some v), extend w (failed_attempts url 1 failed ++ [EvRequest url])).
Proof.
  intros Hle Hfail Hok.
  destruct (fetchWithRetry_run env url 4 1 w eq_refl)
    as (failed' & Hle' & Hfail' & Hrun & Hlast).
  assert (failed' = failed) as ->.
  { destruct (lt_eq_lt_dec failed' failed) as [[Hlt|Heq]|Hgt]; [|exact Heq|].
    - pose proof (Hlast (Hfail _ Hlt)). lia.
    - rewrite (Hfail' _ Hgt) in Hok. discriminate. }
  by rewrite Hrun, Hok.
Qed.

(** A fetch whose five attempts fail. *)
Lemma fetchWithRetry_all_fail url w :
  (forall j, j <= 4 ->
     attempt_result env (trace w ++ failed_attempts url 1 j) url = None) ->
  fetchWithRetry env url 1 w
  = (Return None, extend w (failed_attempts url 1 4 ++ [EvRequest url])).
Proof.
  intros Hfail.
  destruct (fetchWithRetry_run env url 4 1 w eq_refl)
    as (failed' & Hle' & Hfail' & Hrun & Hlast).
  rewrite (Hfail _ Hle') in Hrun, Hlast. rewrite (Hlast eq_refl) in Hrun. exact Hrun.
Qed.

(** The zero-results marker is accepted as an empty result set. *)
Lemma attempt_result_marker tr url jsonData :
  parsed_response env tr url = Some jsonData ->
  zero_results_marker jsonData = true ->
  attempt_result env tr url = Some (JObj [("organic", JArr [])]).
Proof.
  unfold parsed_response, attempt_result, zero_results_marker, accept_payload.
  destruct (request env tr url) as [response|]; [|discriminate].
  intros -> ->. reflexivity.
Qed.

(** The first loop on an item whose search ends with the marker, and on
    an item whose search fails five times. *)
Lemma resolveItem_marker item w failed jsonData :
  failed <= 4 ->
  (forall j, j < failed ->
     attempt_result env (trace w ++ failed_attempts (search_url item) 1 j)
       (search_url item) = None) ->
  parsed_response env (trace w ++ failed_attempts (search_url item) 1 failed)
    (search_url item) = Some jsonData ->
  zero_results_marker jsonData = true ->
  resolveItem env item w
  = (Return (inl (stoppedRecord item "failed" "No Twitter profile found" None
                    (now env (trace w ++ search_of item failed)))),
     extend w (search_of item failed)).
Proof.
  intros Hle Hfail Hparsed Hzero.
  pose proof (fetchWithRetry_first_success _ _ _ _ Hle Hfail
                (attempt_result_marker _ _ _ Hparsed Hzero)) as Hfetch.
  unfold resolveItem, try_catch. cbv zeta. unfold bind at 1. rewrite Hfetch.
  reflexivity.
Qed.

Lemma resolveItem_null item w :
  (forall j, j <= 4 ->
     attempt_result env (trace w ++ failed_attempts (search_url item) 1 j)
       (search_url item) = None) ->
  resolveItem env item w
  = (Return (inl (stoppedRecord item "failed" "No search results found" None
                    (now env (trace w ++ search_of item 4)))),
     extend w (search_of item 4)).
Proof.
  intros Hfail. pose proof (fetchWithRetry_all_fail _ _ Hfail) as Hfetch.
  unfold resolveItem, try_catch. cbv zeta. unfold bind at 1. rewrite Hfetch.
  reflexivity.
Qed.

(** The verdict the classifier gives on history [tr]: the parsed content
    of the chat completion, or [None] when the request or the parse
    fails. *)
Lemma analyzeFounderProfile_eq handle company w :
  analyzeFounderProfile env handle company w
  = (Return (verdict_of env (trace w) (prompt_of handle company)),
     extend w [EvChat (prompt_of handle company)]).
Proof.
  unfold analyzeFounderProfile, try_catch, verdict_of, bind, history, emit, lift, throw, ret.
  destruct (chat_completion env (trace w) (prompt_of handle company)) as [content|];
    [|reflexivity].
  destruct (JSON_parse env content); reflexivity.
Qed.

(** One turn of the second loop on a profile value whose [description]
    can be read. *)
Lemma assembleResult_eq entry value description w :
  description_of (Some value) = Return description ->
  assembleResult env entry (Some value) w
  = (Return (processedRecord env entry description (trace w)),
     extend w [chat_of entry]).
Proof.
  intros Hd. unfold assembleResult, try_catch. cbv zeta.
  unfold bind at 1. unfold lift at 1. rewrite Hd.
  unfold bind at 1 2. unfold ret at 1. unfold timestamp at 1.
  rewrite analyzeFounderProfile_eq. unfold processedRecord, classified, chat_of.
  destruct (verdict_of env (trace w) _) as [a|]; [|reflexivity].
  destruct (truthy a); reflexivity.
Qed.

(** One turn of the second loop on a profile value whose [description]
    cannot be read, or that is not there. *)
Lemma assembleResult_catch entry profileData e w :
  description_of profileData = Throw e ->
  exists result,
    assembleResult env entry profileData w = (Return result, w) /\
    ResultRecord.status result = "error" /\
    ResultRecord.reason result = Some (message e).
Proof.
  intros Hd. unfold assembleResult, try_catch. cbv zeta.
  unfold bind at 1. unfold lift at 1. rewrite Hd.
  eexists. split; [reflexivity|]. split; reflexivity.
Qed.

Lemma processedRecord_well_formed entry description tr :
  consistent_entry entry ->
  well_formed_record (processedRecord env entry description tr).
Proof.
  intros (u & Hu & Hm & Hne).
  right. right. cbn. rewrite Hu.
  split; [reflexivity|]. split; [reflexivity|]. split; [|eauto].
  exists (HandleItem.handle entry), u. auto.
Qed.

(** The second loop on an array that has a truthy value for every item:
    one chat request and one processed record per item. *)
Lemma assembleResults_detail handleItems : forall i profileDataArray batchResults w,
  List.length profileDataArray = i + List.length handleItems ->
  Forall (fun value => profile_truthy value = true) profileDataArray ->
  Forall consistent_entry handleItems ->
  exists late,
    assembleResults env handleItems i profileDataArray batchResults w
    = (Return (batchResults ++ late), extend w (List.map chat_of handleItems)) /\
    Forall2 (fun entry r => exists description tr,
                 r = processedRecord env entry description tr) handleItems late /\
    Forall well_formed_record late.
Proof.
  induction handleItems as [|entry rest IH];
    intros i profileDataArray batchResults w Hlen Htruthy Hall.
  - exists []. cbn. rewrite app_nil_r, extend_nil. repeat split; constructor.
  - cbn [List.length] in Hlen. inversion Hall as [|? ? Hentry Hrest]; subst.
    destruct (profileDataArray !! i) as [value|] eqn:Hvalue.
    2: { apply lookup_ge_None in Hvalue. lia. }
    assert (Hv : profile_truthy value = true).
    { rewrite List.Forall_forall in Htruthy. apply Htruthy.
      apply list_elem_of_In. by eapply list_elem_of_lookup_2. }
    destruct (description_of_truthy _ Hv) as [description Hd].
    cbn [assembleResults]. unfold bind at 1.
    rewrite Hvalue, (assembleResult_eq _ _ _ _ Hd).
    destruct (IH (S i) profileDataArray
                (batchResults ++ [processedRecord env entry description (trace w)])
                (extend w [chat_of entry]) ltac:(lia) Htruthy Hrest)
      as (late & Hrun & Hrecords & Hwf).
    exists (processedRecord env entry description (trace w) :: late).
    rewrite Hrun, <- app_assoc, extend_extend. cbn [List.map app].
    split; [reflexivity|]. split; [constructor; eauto|].
    constructor; [by apply processedRecord_well_formed|exact Hwf].
Qed.

(** What the records of the second loop show of the entries they come
    from. *)
Lemma processedRecords_of entries late :
  Forall2 (fun entry r => exists description tr,
               r = processedRecord env entry description tr) entries late ->
  Forall processed_record late /\
  List.map ResultRecord.handle late
  = List.map Some (List.map HandleItem.handle entries) /\
  List.map identity_of_result late
  = List.map (fun entry => identity_of_input (HandleItem.item entry)) entries.
Proof.
  induction 1 as [|entry r entries late (description & tr & ->) _ (IHp & IHh & IHi)].
  - repeat split; constructor.
  - split; [constructor; [|exact IHp]|].
    + split; [reflexivity|]. split; [discriminate|reflexivity].
    + cbn [List.map]. rewrite IHh, IHi. split; reflexivity.
Qed.

(** [processBatch] in full: the searches of the first loop, its records
    and its entries; then, when there is an entry, the wait, the one
    snapshot call for the handles of the entries, and one chat request
    and one processed record for each entry. *)
Lemma processBatch_detail batch w :
  exists late segments resolution,
    processBatch env batch w
    = (Return (stopped_records env batch w ++ late),
       extend w (concat segments ++ resolution)) /\
    List.length (first_loop env batch w) = List.length batch /\
    Forall2 (fun item segment => exists failed, failed <= 4 /\ segment = search_of item failed)
            batch segments /\
    Forall well_formed_record (stopped_records env batch w) /\
    Forall first_loop_record (stopped_records env batch w) /\
    List.map identity_of_result (stopped_records env batch w)
    = List.map identity_of_input (pick false (handle_found env batch w) batch) /\
    List.map HandleItem.item (found_entries env batch w)
    = pick true (handle_found env batch w) batch /\
    Forall2 (fun entry r => exists description tr,
                 r = processedRecord env entry description tr)
            (found_entries env batch w) late /\
    Forall well_formed_record late /\
    match found_entries env batch w with
    | [] => resolution = []
    | _ :: _ =>
        exists snapshotId k,
          k <= 10 /\
          resolution
          = EvSleep 2000
            :: EvTrigger (urlsToFetch_of
                            (List.map HandleItem.handle (found_entries env batch w)))
            :: polls snapshotId k ++ List.map chat_of (found_entries env batch w)
    end.
Proof.
  destruct (collectHandles_detail batch [] [] w)
    as (segments & Hrun & Hlen & Hseg & Hwf & Hfr & Hce & Hids & Hitems).
  cbn [app] in Hrun.
  unfold processBatch. unfold bind at 1. rewrite Hrun. cbn [fst snd].
  set (pending := found_entries env batch w) in *.
  destruct pending as [|entry pending'] eqn:Hpending.
  - exists [], segments, []. cbn. unfold ret. rewrite !app_nil_r.
    repeat split; auto; constructor.
  - rewrite <- Hpending in *.
    assert (Hlt : Nat.ltb 0 (List.length pending) = true)
      by (rewrite Hpending; reflexivity).
    rewrite Hlt. unfold bind at 1. unfold sleep, emit.
    set (handles := List.map HandleItem.handle pending).
    set (w1 := record (EvSleep 2000) (extend w (concat segments))).
    destruct (getProfileDescription_total env (HArray handles) w1)
      as (f & w2 & Hg & _ & Htruthy & _).
    assert (Hhne : handles <> []).
    { subst handles. rewrite Hpending. discriminate. }
    destruct (getProfileDescription_io env (HArray handles) w1 Hhne)
      as (k & snapshotId & Hk & Hw2 & _).
    cbn [handlesArray_of] in Hg, Hw2.
    rewrite Hg in Hw2. cbn [snd] in Hw2. subst w2.
    unfold bind at 1. rewrite Hg.
    destruct (assembleResults_detail pending 0 (List.map f handles)
                (stopped_records env batch w)
                (extend w1 (EvTrigger (urlsToFetch_of handles) :: polls snapshotId k)))
      as (late & Hlate & Hrecords & Hwfl).
    { subst handles. by rewrite !length_map. }
    { apply List.Forall_forall. intros value Hin.
      apply in_map_iff in Hin as (h & <- & _). apply Htruthy. }
    { exact Hce. }
    exists late, segments,
      (EvSleep 2000 :: EvTrigger (urlsToFetch_of handles)
       :: polls snapshotId k ++ List.map chat_of pending).
    rewrite Hlate. subst w1.
    rewrite record_extend, !extend_extend.
    split; [do 2 f_equal; by rewrite <- !app_assoc|].
    repeat split; auto.
    exists snapshotId, k. split; [exact Hk|reflexivity].
Qed.

End BatchDetailFacts.

(** ** The claims on the records of a batch *)

(** C5, as the code has it.  An input whose search ends with the
    zero-results marker, at the first attempt or after failed ones, and
    wherever the input stands in its batch, gets a record with status
    failed and reason "No Twitter profile found"; the reason "No search
    results found" is that of an input for which all five attempts fail,
    so that the fetcher returns [null].  The record stands, among the
    results, after the records of the inputs before it that stop in the
    first loop. *)
Theorem zero_results_reason :
  forall (env : Env) (batch : list InputRecord.t) (w : World)
         (i : nat) (item : InputRecord.t) (w_i : World),
    batch !! i = Some item ->
    fst <$> first_loop env batch w !! i = Some w_i ->
    let url := search_url item in
    let position := early_position (handle_found env batch w) i in
    exists results w',
      processBatch env batch w = (Return results, w') /\
      (forall failed jsonData,
          failed <= 4 ->
          (forall j, j < failed ->
             attempt_result env (trace w_i ++ failed_attempts url 1 j) url = None) ->
          parsed_response env (trace w_i ++ failed_attempts url 1 failed) url
          = Some jsonData ->
          zero_results_marker jsonData = true ->
          results !! position
          = Some (stoppedRecord item "failed" "No Twitter profile found" None
                    (now env (trace w_i ++ search_of item failed)))) /\
      ((forall j, j <= 4 ->
          attempt_result env (trace w_i ++ failed_attempts url 1 j) url = None) ->
       results !! position
       = Some (stoppedRecord item "failed" "No search results found" None
                 (now env (trace w_i ++ search_of item 4)))).
Proof.
  intros env batch w i item w_i Hitem Hworld url position.
  destruct (processBatch_detail env batch w) as (late & segments & resolution & Hrun & _).
  exists (stopped_records env batch w ++ late). eexists. split; [exact Hrun|].
  destruct (first_loop env batch w !! i) as [[w0 r]|] eqn:Hstep; [|discriminate].
  cbn in Hworld. injection Hworld as ->.
  destruct (first_loop_lookup env _ _ _ _ _ Hstep) as (item' & w' & Hitem' & Hres).
  rewrite Hitem in Hitem'. injection Hitem' as <-.
  assert (Hrecord : forall result w1,
            resolveItem env item w_i = (Return (inl result), w1) ->
            (stopped_records env batch w ++ late) !! position = Some result).
  { intros result w1 Hr. rewrite Hr in Hres. injection Hres as <- _.
    destruct (stopped_records_lookup env _ _ _ _ _ Hstep) as [_ Hpos].
    apply lookup_app_l_Some. exact Hpos. }
  split.
  - intros failed jsonData Hle Hfail Hparsed Hzero.
    eapply Hrecord. by eapply resolveItem_marker.
  - intros Hfail. eapply Hrecord. by apply resolveItem_null.
Qed.

Lemma zero_results_reason_witness :
  let env := Examples.env_of Examples.search_retry_zero Examples.snapshot_ready in
  exists results w',
    processBatch env [Examples.alice; Examples.jane] Examples.w0 = (Return results, w') /\
    results !! 0
    = Some (stoppedRecord Examples.jane "failed" "No Twitter profile found" None
              "2025-01-01T00:00:00.000Z").
Proof.
  cbv zeta.
  set (env := Examples.env_of Examples.search_retry_zero Examples.snapshot_ready).
  set (w_1 := extend Examples.w0 [EvRequest (search_url Examples.alice)]).
  destruct (zero_results_reason env [Examples.alice; Examples.jane] Examples.w0
              1 Examples.jane w_1 eq_refl)
    as (results & w' & Hrun & Hmarker & _).
  - vm_compute. reflexivity.
  - exists results, w'. split; [exact Hrun|].
    apply (Hmarker 1 Examples.zero_json); [lia| |reflexivity|reflexivity].
    intros j Hj. assert (j = 0) as -> by lia. reflexivity.
Defined.

(** C5, as stated, fails: the search answers with the zero-results
    marker, and the reason of the record is not "No search results
    found". *)
Lemma zero_results_reason_counterexample :
  let env := Examples.env_of Examples.search_zero Examples.snapshot_ready in
  request env [] (search_url Examples.jane) = Return Examples.zero_body /\
  JSON_parse env Examples.zero_body
  = Some (JObj [("general", JObj [("results_cnt", JNum 0)])]) /\
  exists r w',
    processBatch env [Examples.jane] Examples.w0 = (Return [r], w') /\
    ResultRecord.status r = "failed" /\
    ResultRecord.reason r = Some "No Twitter profile found" /\
    ResultRecord.reason r <> Some "No search results found".
Proof.
  cbv zeta. split; [reflexivity|]. split; [reflexivity|].
  eexists _, _. split; [vm_compute; reflexivity|].
  cbn. split; [reflexivity|]. split; [reflexivity|discriminate].
Qed.

(** C6, as the code has it.  The results of a batch are, in this order,
    the records of the inputs for which the first loop finds no handle,
    all failed or in error, and the records of the inputs for which it
    finds one, all processed; within each of the two groups the records
    follow the order of the input. *)
Theorem processBatch_order_by_phase :
  forall (env : Env) (batch : list InputRecord.t) (w : World),
    let flags := handle_found env batch w in
    let early_positions := positions_from false flags 0 in
    let late_positions := positions_from true flags 0 in
    exists early late w',
      processBatch env batch w = (Return (early ++ late), w') /\
      List.length flags = List.length batch /\
      List.map Some (List.map identity_of_result early)
      = List.map (fun i => identity_of_input <$> batch !! i) early_positions /\
      List.map Some (List.map identity_of_result late)
      = List.map (fun i => identity_of_input <$> batch !! i) late_positions /\
      StronglySorted lt early_positions /\
      StronglySorted lt late_positions /\
      Permutation (early_positions ++ late_positions) (seq 0 (List.length batch)) /\
      Forall first_loop_record early /\
      Forall processed_record late.
Proof.
  intros env batch w flags early_positions late_positions.
  destruct (processBatch_detail env batch w)
    as (late & segments & resolution & Hrun & Hlen & _ & _ & Hfr & Hearly & Hitems
        & Hrecords & _).
  destruct (processedRecords_of env _ _ Hrecords) as (Hproc & _ & Hlate).
  assert (Hflags : List.length flags = List.length batch).
  { subst flags. unfold handle_found. by rewrite length_map. }
  exists (stopped_records env batch w), late. eexists.
  assert (Hpos : forall b,
            List.map Some (List.map identity_of_input (pick b flags batch))
            = List.map (fun i => identity_of_input <$> batch !! i)
                       (positions_from b flags 0)).
  { intros b.
    pose proof (pick_positions b flags batch [] Hflags) as Hp. cbn in Hp.
    rewrite <- (map_map (fun i => batch !! i) (fmap identity_of_input)), <- Hp.
    rewrite !map_map. reflexivity. }
  split; [exact Hrun|]. split; [exact Hflags|].
  split; [fold flags in Hearly; rewrite Hearly; apply Hpos|].
  split.
  { rewrite Hlate, <- (map_map HandleItem.item identity_of_input).
    fold flags in Hitems. rewrite Hitems. apply Hpos. }
  split; [apply positions_from_sorted|].
  split; [apply positions_from_sorted|].
  split; [rewrite <- Hflags; apply positions_from_Permutation|].
  split; [exact Hfr|exact Hproc].
Qed.

Lemma processBatch_order_by_phase_witness :
  exists early late w',
    processBatch (Examples.env_of Examples.search_alice Examples.snapshot_ready)
      [Examples.alice; Examples.bob] Examples.w0 = (Return (early ++ late), w') /\
    List.map Some (List.map identity_of_result early)
    = [Some (identity_of_input Examples.bob)] /\
    List.map Some (List.map identity_of_result late)
    = [Some (identity_of_input Examples.alice)].
Proof.
  destruct (processBatch_order_by_phase
              (Examples.env_of Examples.search_alice Examples.snapshot_ready)
              [Examples.alice; Examples.bob] Examples.w0)
    as (early & late & w' & Hrun & _ & Hearly & Hlate & _).
  exists early, late, w'. split; [exact Hrun|].
  rewrite Hearly, Hlate. split; vm_compute; reflexivity.
Defined.

(** C6, as stated, fails: [alice] precedes [bob] in the batch, [alice]
    reaches handle resolution and [bob] stops at the search, and the
    record of [bob] precedes that of [alice]. *)
Lemma processBatch_order_counterexample :
  let env := Examples.env_of Examples.search_alice Examples.snapshot_ready in
  exists results w',
    processBatch env [Examples.alice; Examples.bob] Examples.w0 = (Return results, w') /\
    List.map identity_of_result results
    = [identity_of_input Examples.bob; identity_of_input Examples.alice] /\
    List.map ResultRecord.status results = ["failed"; "processed"] /\
    List.map identity_of_result results
    <> List.map identity_of_input [Examples.alice; Examples.bob].
Proof.
  cbv zeta. eexists _, _. split; [vm_compute; reflexivity|].
  split; [reflexivity|]. split; [reflexivity|discriminate].
Qed.

(** X7.  Every record of [processBatch] has the fields of its status: a
    failed record has one of three reasons, no handle and no
    classification, and a profile URL only with the reason that the
    handle could not be extracted; an error record has a message as its
    reason; a processed record has no reason, a description, a handle
    that is not empty and a profile URL that is a string in which the
    handle pattern finds that handle. *)
Theorem processBatch_records_well_formed :
  forall (env : Env) (batch : list InputRecord.t) (w : World),
    exists results w',
      processBatch env batch w = (Return results, w') /\
      Forall well_formed_record results.
Proof.
  intros env batch w.
  destruct (processBatch_detail env batch w)
    as (late & segments & resolution & Hrun & _ & _ & He & _ & _ & _ & _ & Hl & _).
  eexists _, _. split; [exact Hrun|]. by apply Forall_app.
Qed.

(** X8.  [processBatch] works in two phases.  It first makes the
    searches of the items, one item after the other: for each item
    between zero and four failed requests, each followed by its backoff
    wait, and one last request.  When the first loop finds no handle it
    does nothing more.  Otherwise it waits 2000 milliseconds, makes one
    trigger request for the first twenty of the handles that the first
    loop found, which are the handles of the processed records in their
    order, polls at most ten times, and makes one chat request for each
    of these items, in their order. *)
Theorem processBatch_two_phases :
  forall (env : Env) (batch : list InputRecord.t) (w : World),
    let entries := found_entries env batch w in
    let handles := List.map HandleItem.handle entries in
    exists early late segments resolution,
      processBatch env batch w
      = (Return (early ++ late), extend w (concat segments ++ resolution)) /\
      Forall2 (fun item segment =>
                 exists failed, failed <= 4 /\ segment = search_of item failed)
              batch segments /\
      Forall first_loop_record early /\
      Forall processed_record late /\
      List.map ResultRecord.handle late = List.map Some handles /\
      List.map identity_of_result late
      = List.map (fun entry => identity_of_input (HandleItem.item entry)) entries /\
      (late = [] -> resolution = []) /\
      (late <> [] ->
       exists snapshotId k,
         k <= 10 /\
         resolution = EvSleep 2000 :: EvTrigger (urlsToFetch_of handles)
                      :: polls snapshotId k ++ List.map chat_of entries).
Proof.
  intros env batch w entries handles.
  destruct (processBatch_detail env batch w)
    as (late & segments & resolution & Hrun & _ & Hseg & _ & Hfr & _ & _
        & Hrecords & _ & Hres).
  destruct (processedRecords_of env _ _ Hrecords) as (Hproc & Hhandles & Hids).
  exists (stopped_records env batch w), late, segments, resolution.
  split; [exact Hrun|]. split; [exact Hseg|]. split; [exact Hfr|].
  split; [exact Hproc|]. split; [exact Hhandles|]. split; [exact Hids|].
  fold entries in Hres, Hrecords. fold handles in Hres.
  split.
  - intros ->. inversion Hrecords as [Hentries|]; subst.
    by rewrite <- Hentries in Hres.
  - intros Hne. destruct entries as [|entry entries'];
      [inversion Hrecords; subst; contradiction|exact Hres].
Qed.

Lemma processBatch_two_phases_witness :
  exists results w',
    processBatch (Examples.env_of Examples.search_alice Examples.snapshot_ready)
      [Examples.alice; Examples.bob] Examples.w0 = (Return results, w') /\
    List.length (List.filter is_request (trace w')) = 6 /\
    List.filter is_trigger (trace w') = [EvTrigger ["https://x.com/alice"]] /\
    List.length (List.filter is_chat (trace w')) = 1.
Proof.
  destruct (processBatch_two_phases
              (Examples.env_of Examples.search_alice Examples.snapshot_ready)
              [Examples.alice; Examples.bob] Examples.w0)
    as (early & late & segments & resolution & Hrun & _).
  exists (early ++ late). eexists. split; [exact Hrun|].
  apply (f_equal snd) in Hrun. cbn [snd] in Hrun. rewrite <- Hrun.
  vm_compute. repeat split; reflexivity.
Defined.

(** X9.  An item that has a handle always ends processed: the status
    error comes from the search phase only, so that an error record has
    neither handle nor profile URL, and every record that has a handle
    is processed. *)
Theorem processBatch_handle_means_processed :
  forall (env : Env) (batch : list InputRecord.t) (w : World),
    exists results w',
      processBatch env batch w = (Return results, w') /\
      Forall (fun r =>
                (ResultRecord.handle r <> None -> ResultRecord.status r = "processed") /\
                (ResultRecord.status r = "error" ->
                 ResultRecord.handle r = None /\ ResultRecord.profile_url r = None))
             results.
Proof.
  intros env batch w.
  destruct (processBatch_detail env batch w)
    as (late & segments & resolution & Hrun & _ & _ & Hwf & Hfr & _ & _
        & Hrecords & _).
  destruct (processedRecords_of env _ _ Hrecords) as (Hproc & _).
  eexists _, _. split; [exact Hrun|].
  apply Forall_app. split.
  - apply Forall_forall. intros r Hr.
    pose proof (proj1 (Forall_forall _ _) Hfr r Hr) as (Hst & Hh & _).
    pose proof (proj1 (Forall_forall _ _) Hwf r Hr) as Hw.
    split; [congruence|]. intros Herr. split; [exact Hh|].
    destruct Hw as [(Hs & _)|[(_ & _ & _ & _ & _ & _ & Hiff)|(Hs & _)]];
      [congruence|by apply Hiff|congruence].
  - eapply Forall_impl; [exact Hproc|]. intros r (Hs & _). split; [auto|].
    rewrite Hs. discriminate.
Qed.

Lemma processBatch_handle_means_processed_witness :
  exists results w',
    processBatch (Examples.env_of Examples.search_alice Examples.snapshot_running)
      [Examples.alice] Examples.w0 = (Return results, w') /\
    List.map ResultRecord.status results = ["processed"].
Proof.
  destruct (processBatch_handle_means_processed
              (Examples.env_of Examples.search_alice Examples.snapshot_running)
              [Examples.alice] Examples.w0) as (results & w' & Hrun & _).
  exists results, w'. split; [exact Hrun|].
  apply (f_equal fst) in Hrun. cbn [fst] in Hrun.
  vm_compute in Hrun. by injection Hrun as <-.
Defined.

(** X10.  A failure of the classifier never fails the record.  With a
    profile value at hand whose [description] can be read, as it can of
    every entry object, [assembleResult] makes one chat request and
    returns a processed record with [dm_status] open and with that
    description, or the empty string when it is falsy; the record has
    the role, rank and confidence reason of the verdict when the verdict
    is truthy, and none of the three when the request throws, the
    content does not parse, or the verdict is falsy.  Without a profile
    value, or with one whose [description] cannot be read, it makes no
    request and returns an error record with the message of the
    exception as its reason. *)
Theorem assembleResult_classifier_failure :
  forall (env : Env) (entry : HandleItem.t) (value : profile_value)
         (description : option json) (w : World),
    description_of (Some value) = Return description ->
    let prompt := prompt_of (HandleItem.handle entry)
                    (InputRecord.companyName (HandleItem.item entry)) in
    (exists result,
        assembleResult env entry (Some value) w = (Return result, extend w [EvChat prompt]) /\
        ResultRecord.status result = "processed" /\
        ResultRecord.dm_status result = Some "open" /\
        ResultRecord.description result = Some (description_or_empty description) /\
        (truthy_opt (verdict_of env (trace w) prompt) = false ->
         ResultRecord.role result = None /\
         ResultRecord.rank result = None /\
         ResultRecord.confidence_reason result = None) /\
        (forall verdict,
            verdict_of env (trace w) prompt = Some verdict ->
            truthy verdict = true ->
            ResultRecord.role result = get verdict "role" /\
            ResultRecord.rank result = get verdict "rank" /\
            ResultRecord.confidence_reason result = get verdict "confidence_reason")) /\
    (forall pd,
        description_of (Some (PEntry pd)) = Return (Some (ProfileData.description pd))) /\
    (exists result,
        assembleResult env entry None w = (Return result, w) /\
        ResultRecord.status result = "error") /\
    (forall profileData e,
        description_of profileData = Throw e ->
        exists result,
          assembleResult env entry profileData w = (Return result, w) /\
          ResultRecord.status result = "error" /\
          ResultRecord.reason result = Some (message e)).
Proof.
  intros env entry value description w Hd prompt. split; [|split; [|split]].
  - exists (processedRecord env entry description (trace w)).
    split; [by apply assembleResult_eq|]. split; [reflexivity|].
    split; [reflexivity|]. split; [reflexivity|].
    cbn. fold prompt. unfold classified. split.
    + intros Hfail.
      destruct (verdict_of env (trace w) prompt) as [a|]; [|auto].
      cbn in Hfail. rewrite Hfail. auto.
    + intros verdict Hv Ht. rewrite Hv, Ht. auto.
  - reflexivity.
  - eexists. split; [reflexivity|reflexivity].
  - intros profileData e He. by apply assembleResult_catch.
Qed.

Lemma assembleResult_classifier_failure_witness :
  let env := Examples.chat_down
               (Examples.env_of Examples.search_alice Examples.snapshot_ready) in
  let entry := {| HandleItem.item := Examples.alice;
                  HandleItem.handle := "alice";
                  HandleItem.mainProfileUrl := JStr "https://x.com/alice" |} in
  exists result w',
    assembleResult env entry (Some (PEntry notFoundEntry)) Examples.w0
    = (Return result, w') /\
    ResultRecord.status result = "processed" /\
    ResultRecord.role result = None.
Proof.
  cbv zeta.
  destruct (assembleResult_classifier_failure
              (Examples.chat_down
                 (Examples.env_of Examples.search_alice Examples.snapshot_ready))
              {| HandleItem.item := Examples.alice;
                 HandleItem.handle := "alice";
                 HandleItem.mainProfileUrl := JStr "https://x.com/alice" |}
              (PEntry notFoundEntry) (Some (JStr "")) Examples.w0 eq_refl)
    as [(result & Hrun & Hs & _ & _ & Hfail & _) _].
  exists result. eexists. split; [exact Hrun|]. split; [exact Hs|].
  by apply Hfail.
Defined.

(** ** Batches and the checkpoint *)

Section BatchingFacts.

Lemma makeBatches_cons q qs :
  makeBatches (q :: qs)
  = take BATCH_SIZE (q :: qs) :: makeBatches (drop BATCH_SIZE (q :: qs)).
Proof. by simp makeBatches. Qed.

Lemma makeBatches_nil : makeBatches [] = [].
Proof. by simp makeBatches. Qed.

Lemma makeBatches_length records :
  List.length (makeBatches records) = (List.length records + 4) / 5.
Proof.
  funelim (makeBatches records); [reflexivity|].
  change (drop BATCH_SIZE (q :: qs)) with (drop 4 qs).
  cbn [List.length]. rewrite H, length_drop.
  destruct (le_lt_dec 4 (List.length qs)) as [Hge|Hlt].
  - replace (S (List.length qs) + 4) with ((List.length qs - 4 + 4) + 1 * 5) by lia.
    rewrite Nat.div_add by lia. lia.
  - replace (List.length qs - 4) with 0 by lia.
    destruct qs as [|? [|? [|? [|? qs]]]]; cbn in *; try reflexivity; lia.
Qed.

Lemma makeBatches_sizes records :
  Forall (fun batch => 1 <= List.length batch <= BATCH_SIZE) (makeBatches records).
Proof.
  funelim (makeBatches records); [constructor|].
  change (drop BATCH_SIZE (q :: qs)) with (drop 4 qs).
  constructor; [|exact H].
  rewrite length_take. cbn [List.length]. unfold BATCH_SIZE. lia.
Qed.

(** The first [k] batches are the batches of the first [5 k] records. *)
Lemma makeBatches_take k : forall records,
  take k (makeBatches records) = makeBatches (take (BATCH_SIZE * k) records).
Proof.
  induction k as [|k IH]; intros records.
  - rewrite Nat.mul_0_r, !firstn_O. by rewrite makeBatches_nil.
  - destruct records as [|q qs]; [by rewrite take_nil, makeBatches_nil|].
    rewrite makeBatches_cons. cbn [take]. rewrite IH.
    replace (BATCH_SIZE * S k) with (BATCH_SIZE + BATCH_SIZE * k) by lia.
    change (take (BATCH_SIZE + BATCH_SIZE * k) (q :: qs))
      with (q :: take (4 + BATCH_SIZE * k) qs).
    rewrite makeBatches_cons. f_equal.
    + change (q :: take (4 + BATCH_SIZE * k) qs)
        with (take (BATCH_SIZE + BATCH_SIZE * k) (q :: qs)).
      rewrite take_take. by rewrite Nat.min_l by lia.
    + change (q :: take (4 + BATCH_SIZE * k) qs)
        with (take (BATCH_SIZE + BATCH_SIZE * k) (q :: qs)).
      f_equal. rewrite skipn_firstn_comm. f_equal. lia.
Qed.

Lemma makeBatches_started records started :
  concat (take started (makeBatches records)) = take (BATCH_SIZE * started) records.
Proof. by rewrite makeBatches_take, makeBatches_concat. Qed.

End BatchingFacts.

(** X11.  [makeBatches] cuts the records into consecutive batches of
    five, the last one holding what is left: the batches put together
    are the records, there are [ceil(n / 5)] of them, each has between
    one and five records, and the first [k] batches are the first [5 k]
    records. *)
Theorem makeBatches_partition :
  forall (records : list InputRecord.t) (k : nat),
    concat (makeBatches records) = records /\
    List.length (makeBatches records) = (List.length records + 4) / 5 /\
    Forall (fun batch => 1 <= List.length batch <= 5) (makeBatches records) /\
    concat (take k (makeBatches records)) = take (5 * k) records /\
    (k < List.length (makeBatches records) ->
     Forall (fun batch => List.length batch = 5) (take k (makeBatches records))).
Proof.
  intros records k.
  split; [apply makeBatches_concat|]. split; [apply makeBatches_length|].
  split; [apply makeBatches_sizes|]. split; [apply makeBatches_started|].
  revert records. induction k as [|k IH]; intros records Hk; [constructor|].
  destruct records as [|q qs]; [rewrite makeBatches_nil in Hk; cbn in Hk; lia|].
  rewrite makeBatches_cons in *. cbn [take List.length] in *.
  assert (Hk' : k < List.length (makeBatches (drop BATCH_SIZE (q :: qs)))) by lia.
  constructor; [|by apply IH].
  rewrite length_take.
  rewrite makeBatches_length, length_drop in Hk'. cbn [List.length] in *.
  unfold BATCH_SIZE in *.
  destruct (le_lt_dec 5 (S (List.length qs))) as [Hge|Hlt]; [lia|].
  replace (S (List.length qs) - 5) with 0 in Hk' by lia. cbn in Hk'. lia.
Qed.

Lemma makeBatches_partition_witness :
  let records := repeat Examples.alice 12 in
  List.length (makeBatches records) = 3 /\
  Forall (fun batch => List.length batch = 5) (take 2 (makeBatches records)).
Proof.
  cbv zeta.
  destruct (makeBatches_partition (repeat Examples.alice 12) 2) as (_ & Hlen & _ & _ & Hfull).
  split; [rewrite Hlen; reflexivity|]. apply Hfull. rewrite Hlen. cbn. lia.
Defined.

Section LoopFacts.

Variable env : Env.

Lemma processBatch_world batch w :
  exists results evs,
    processBatch env batch w = (Return results, extend w evs) /\
    Permutation (List.map identity_of_result results) (List.map identity_of_input batch) /\
    Forall well_formed_record results.
Proof.
  destruct (processBatch_detail env batch w)
    as (late & segments & resolution & Hrun & _ & _ & Hwe & _ & _ & _ & _ & Hwl & _).
  destruct (processBatch_spec env batch w)
    as (flags & early' & late' & w' & Hrun' & Hlen & Hearly & Hlate & _).
  rewrite Hrun in Hrun'. injection Hrun' as Hres _.
  eexists _, _. split; [exact Hrun|].
  split; [|by apply Forall_app].
  rewrite Hres, map_app, Hearly, Hlate, <- map_app.
  apply Permutation_map. by apply pick_Permutation.
Qed.

(** The loop over the batches: it either starts every batch and leaves
    the checkpoint alone, or finds the flag cleared at the head of a
    batch, writes the index of that batch's first record as its last
    action, and stops. *)
Lemma runBatches_detail startIndex batches : forall i currentResults w,
  exists started results evs w',
    runBatches env startIndex batches i currentResults w
    = (Return (currentResults ++ results), w') /\
    started <= List.length batches /\
    Permutation (List.map identity_of_result results)
                (List.map identity_of_input (concat (take started batches))) /\
    Forall well_formed_record results /\
    (started = List.length batches -> w' = extend w evs) /\
    (started < List.length batches ->
     let content := JSON_stringify env
                      (progressObject (startIndex + Z.of_nat (i + started)
                                                    * Z.of_nat BATCH_SIZE)) in
     isProcessing env (trace w ++ evs) = false /\
     w' = {| trace := trace w ++ evs ++ [EvWriteProgress content];
             progress_json := if can_write_progress env (trace w ++ evs)
                              then Some content else progress_json w |}).
Proof.
  induction batches as [|batch rest IH]; intros i currentResults w.
  - exists 0, [], [], w. cbn. rewrite app_nil_r.
    split; [reflexivity|]. split; [lia|]. split; [constructor|].
    split; [constructor|].
    split; [intros _; by rewrite extend_nil|intros; lia].
  - cbn [runBatches]. unfold bind at 1. unfold history at 1.
    destruct (isProcessing env (trace w)) eqn:Hgo; cbn [negb].
    + destruct (processBatch_world batch w)
        as (batchResults & evs1 & Hrun & Hperm1 & Hwf1).
      unfold bind at 1. rewrite Hrun.
      unfold bind at 1. unfold history at 1.
      set (pause := if Nat.ltb 0 (List.length rest)
                       && isProcessing env (trace (extend w evs1))
                    then sleep (RETRY_CONFIG.initialDelay * 2) else ret tt).
      assert (Hpause : exists evs2, pause (extend w evs1)
                                    = (Return tt, extend w (evs1 ++ evs2))).
      { subst pause. destruct (_ && _); unfold sleep, emit, ret.
        - exists [EvSleep (RETRY_CONFIG.initialDelay * 2)].
          by rewrite record_extend, extend_extend.
        - exists []. by rewrite app_nil_r. }
      destruct Hpause as [evs2 Hpause]. unfold bind at 1. rewrite Hpause.
      destruct (IH (S i) (currentResults ++ batchResults) (extend w (evs1 ++ evs2)))
        as (started & results & evs & w' & Hrest & Hle & Hperm & Hwf & Hall & Hstop).
      exists (S started), (batchResults ++ results), ((evs1 ++ evs2) ++ evs), w'.
      rewrite Hrest, <- app_assoc. split; [reflexivity|].
      split; [cbn; lia|].
      split; [cbn [take concat]; rewrite !map_app; by apply Permutation_app|].
      split; [by apply Forall_app|].
      split.
      * intros Hs. rewrite Hall by (cbn in Hs; lia). by rewrite extend_extend.
      * intros Hs. cbv zeta.
        destruct Hstop as [Hflag Hw]; [cbn in Hs; lia|].
        cbn [extend trace progress_json] in Hflag, Hw.
        replace (i + S started) with (S i + started) by lia.
        rewrite <- !app_assoc in *.
        split; [exact Hflag|]. exact Hw.
    + unfold bind, saveProgress, ret.
      exists 0, [], []. rewrite !app_nil_r.
      destruct (can_write_progress env (trace w)); eexists;
        (split; [reflexivity|]); cbn [List.length];
        (split; [lia|]); (split; [constructor|]); (split; [constructor|]);
        (split; [intros; lia|]); intros _; cbv zeta; (split; [exact Hgo|]);
        rewrite Nat.add_0_r; reflexivity.
Qed.

(** The loop on the batches of a window of records. *)
Lemma runBatches_window (startIndex : Z) (records : list InputRecord.t) (w : World) :
  exists started results history w',
    runBatches env startIndex (makeBatches records) 0 [] w = (Return results, w') /\
    started <= List.length (makeBatches records) /\
    Permutation (List.map identity_of_result results)
                (List.map identity_of_input (take (5 * started) records)) /\
    (started = List.length (makeBatches records) ->
     List.length results = List.length records /\
     progress_json w' = progress_json w) /\
    (started < List.length (makeBatches records) ->
     let content := JSON_stringify env
                      (progressObject (startIndex + Z.of_nat (List.length results))) in
     List.length results = 5 * started /\
     List.length results < List.length records /\
     isProcessing env history = false /\
     trace w' = history ++ [EvWriteProgress content] /\
     progress_json w' = if can_write_progress env history
                        then Some content else progress_json w).
Proof.
  destruct (runBatches_detail startIndex (makeBatches records) 0 [] w)
    as (started & results & evs & w' & Hrun & Hle & Hperm & _ & Hall & Hstop).
  rewrite makeBatches_started in Hperm. cbn [app] in Hrun.
  assert (Hlen : List.length results = Nat.min (5 * started) (List.length records)).
  { apply Permutation_length in Hperm. by rewrite !length_map, length_take in Hperm. }
  assert (Hbatches := makeBatches_length records).
  exists started, results, (trace w ++ evs), w'.
  split; [exact Hrun|]. split; [exact Hle|]. split; [exact Hperm|]. split.
  - intros Hs. rewrite (Hall Hs). split; [|reflexivity].
    rewrite Hlen, Hs, Hbatches.
    pose proof (Nat.div_mod_eq (List.length records + 4) 5).
    pose proof (Nat.mod_upper_bound (List.length records + 4) 5). lia.
  - intros Hs. cbv zeta. destruct (Hstop Hs) as [Hflag Hw].
    assert (Hfull : 5 * started < List.length records).
    { rewrite Hbatches in Hs.
      pose proof (Nat.div_mod_eq (List.length records + 4) 5).
      pose proof (Nat.mod_upper_bound (List.length records + 4) 5). lia. }
    assert (Hlen' : List.length results = 5 * started) by lia.
    split; [exact Hlen'|]. split; [lia|]. split; [exact Hflag|].
    rewrite Hw. cbn [trace progress_json].
    replace (Z.of_nat (0 + started) * Z.of_nat BATCH_SIZE)%Z
      with (Z.of_nat (List.length results))
      by (rewrite Hlen'; unfold BATCH_SIZE; lia).
    split; [by rewrite app_assoc|reflexivity].
Qed.

End LoopFacts.



Section SummaryFacts.

Lemma rank_or_NA_truthy rank : truthy (rank_or_NA rank) = true.
Proof.
  unfold rank_or_NA. destruct rank as [v|]; [|reflexivity].
  destruct (truthy v) eqn:Hv; [exact Hv|reflexivity].
Qed.

Lemma founders_length results :
  List.length (OpenDMs.founders (filterAndFormatOpenDMs results)) <= List.length results.
Proof.
  unfold filterAndFormatOpenDMs. cbn [OpenDMs.founders].
  rewrite length_map. apply filter_length_le.
Qed.

Lemma founders_origin results f :
  In f (OpenDMs.founders (filterAndFormatOpenDMs results)) ->
  exists r, In r results /\ ResultRecord.status r = "processed" /\
            FormattedFounder.name f = ResultRecord.name r /\
            FormattedFounder.company f = ResultRecord.company r /\
            FormattedFounder.profile_url f = ResultRecord.profile_url r /\
            FormattedFounder.confidence_rank f = rank_or_NA (ResultRecord.rank r).
Proof.
  unfold filterAndFormatOpenDMs. cbn [OpenDMs.founders].
  rewrite in_map_iff. intros (r & <- & Hin).
  apply List.filter_In in Hin. destruct Hin as [Hin Hst].
  apply String.eqb_eq in Hst. exists r. by repeat split.
Qed.

End SummaryFacts.

(** X13.  The summary of the records of a run lists the processed
    records only, in the order of the results, while its
    [total_founders] counts every record of the run.  Every founder it
    lists is a record of the input window, has a profile URL from which
    a handle can be read, and has a truthy [confidence_rank] (the
    classifier's rank, or [N/A] when that is missing or falsy). *)
Theorem filterAndFormatOpenDMs_of_run :
  forall (env : Env) (startIndex : Z) (records : list InputRecord.t) (w : World),
    exists results w',
      runBatches env startIndex (makeBatches records) 0 [] w = (Return results, w') /\
      let summary := filterAndFormatOpenDMs results in
      Stats.total_founders (OpenDMs.stats summary) = List.length results /\
      List.map (fun f => (FormattedFounder.name f, FormattedFounder.company f,
                          FormattedFounder.profile_url f))
               (OpenDMs.founders summary)
      = List.map (fun r => (ResultRecord.name r, ResultRecord.company r,
                            ResultRecord.profile_url r))
                 (List.filter
                    (fun r => String.eqb (ResultRecord.status r) "processed") results) /\
      List.length (OpenDMs.founders summary) <= List.length results <= List.length records /\
      Forall (fun f =>
                truthy (FormattedFounder.confidence_rank f) = true /\
                (exists u h, FormattedFounder.profile_url f = Some (JStr u) /\
                             match_handle u = Some h /\ h <> "") /\
                (exists q, In q records /\
                           FormattedFounder.name f = InputRecord.founderName q /\
                           FormattedFounder.company f = InputRecord.companyName q))
             (OpenDMs.founders summary).
Proof.
  intros env startIndex records w.
  destruct (runBatches_detail env startIndex (makeBatches records) 0 [] w)
    as (started & results & evs & w' & Hrun & Hle & Hperm & Hwf & _).
  rewrite makeBatches_started in Hperm. cbn [app] in Hrun.
  exists results, w'. split; [exact Hrun|]. cbv zeta.
  split; [reflexivity|].
  split; [unfold filterAndFormatOpenDMs; cbn [OpenDMs.founders]; by rewrite List.map_map|].
  split.
  { split; [apply founders_length|].
    apply Permutation_length in Hperm.
    rewrite !length_map, length_take in Hperm. lia. }
  apply List.Forall_forall. intros f Hf.
  destruct (founders_origin results f Hf) as (r & Hin & Hst & Hn & Hc & Hu & Hr).
  split; [rewrite Hr; apply rank_or_NA_truthy|]. split.
  - rewrite List.Forall_forall in Hwf.
    destruct (Hwf r Hin) as [(Hs & _)|[(Hs & _)|(_ & _ & (h & u & Hh & Hp & Hm & Hne) & _)]];
      [congruence|congruence|].
    exists u, h. rewrite Hu. by repeat split.
  - assert (Hid : In (identity_of_result r) (List.map identity_of_result results))
      by (by apply in_map).
    eapply Permutation_in in Hid; [|exact Hperm].
    apply in_map_iff in Hid. destruct Hid as (q & Hq & Hqin).
    injection Hq as Hqn Hqc _.
    exists q. split; [|split; congruence].
    rewrite <- (firstn_skipn (5 * started) records). apply in_or_app. by left.
Qed.

Lemma filterAndFormatOpenDMs_of_run_witness :
  let env := Examples.env_of Examples.search_alice Examples.snapshot_ready in
  exists results w',
    runBatches env 0 (makeBatches [Examples.alice; Examples.bob]) 0 [] Examples.w0
    = (Return results, w') /\
    Stats.total_founders (OpenDMs.stats (filterAndFormatOpenDMs results)) = 2 /\
    List.length (OpenDMs.founders (filterAndFormatOpenDMs results)) = 1.
Proof.
  cbv zeta.
  destruct (filterAndFormatOpenDMs_of_run
              (Examples.env_of Examples.search_alice Examples.snapshot_ready)
              0 [Examples.alice; Examples.bob] Examples.w0)
    as (results & w' & Hrun & Htotal & _).
  exists results, w'. split; [exact Hrun|].
  rewrite Htotal. vm_compute in Hrun. injection Hrun as <- _.
  split; reflexivity.
Defined.

(** X14.  A run that returns fewer results than its window has records
    was interrupted: its results are the first records of the window,
    and, when the checkpoint write succeeds, the file can be read and
    [JSON.parse] inverts [JSON.stringify] on the checkpoint, the next
    [loadProgress()] returns the index of the first record the run did
    not start, reading the file and leaving it as it is. *)
Theorem interrupted_run_resumes :
  forall (env : Env) (startIndex : Z) (records : list InputRecord.t) (w : World)
         (results : list ResultRecord.t) (w' : World),
    runBatches env startIndex (makeBatches records) 0 [] w = (Return results, w') ->
    List.length results < List.length records ->
    let resume := progressObject (startIndex + Z.of_nat (List.length results)) in
    can_write_progress env (removelast (trace w')) = true ->
    can_read_progress env (trace w') = true ->
    JSON_parse env (JSON_stringify env resume) = Some resume ->
    Permutation (List.map identity_of_result results)
                (List.map identity_of_input (take (List.length results) records)) /\
    loadProgress env w' = (Return resume, record EvReadProgress w').
Proof.
  intros env startIndex records w results w' Hrun Hshort resume Hwrite Hread Hparse.
  destruct (runBatches_window env startIndex records w)
    as (started & results' & history & w'' & Hrun' & Hle & Hperm & Hall & Hstop).
  rewrite Hrun in Hrun'. injection Hrun' as <- <-.
  assert (Hs : started < List.length (makeBatches records)).
  { destruct (le_lt_eq_dec _ _ Hle) as [Hlt|Heq]; [exact Hlt|].
    destruct (Hall Heq) as [Hlen _]. lia. }
  destruct (Hstop Hs) as (Hlen & _ & _ & Htrace & Hfile).
  split; [by rewrite Hlen|].
  rewrite Htrace, removelast_last in Hwrite. rewrite Hwrite in Hfile.
  unfold loadProgress. rewrite Hfile, Hread. fold resume. by rewrite Hparse.
Qed.

Lemma interrupted_run_resumes_witness :
  let env := Examples.interrupted
               (Examples.env_of Examples.search_down Examples.snapshot_ready) in
  exists results w',
    runBatches env 37 (makeBatches (repeat Examples.bob 7)) 0 [] Examples.w0
    = (Return results, w') /\
    fst (loadProgress env w') = Return (progressObject 42).
Proof.
  cbv zeta.
  set (env := Examples.interrupted
                (Examples.env_of Examples.search_down Examples.snapshot_ready)).
  destruct (runBatches env 37 (makeBatches (repeat Examples.bob 7)) 0 [] Examples.w0)
    as [[results|e] w'] eqn:Hrun; [|vm_compute in Hrun; discriminate].
  exists results, w'. split; [reflexivity|].
  assert (Hlen : List.length results = 5)
    by (vm_compute in Hrun; by injection Hrun as <- _).
  destruct (interrupted_run_resumes env 37 (repeat Examples.bob 7) Examples.w0
              results w' Hrun) as [_ Hload].
  - rewrite Hlen. cbn. lia.
  - reflexivity.
  - reflexivity.
  - rewrite Hlen. reflexivity.
  - rewrite Hload, Hlen. reflexivity.
Defined.

(** ** Entry objects *)

(** X15.  [getProfileDescription] returns one value for each handle,
    whatever the number of handles.  Each value is truthy, so that its
    [description] can be read; it is an entry object unless its handle
    is the name of a member that [profileMap] inherits; and every entry
    object has [canDm = true], which all three places that build an
    entry set.  Every processed record of [processBatch] has
    [dm_status] open, and no record has any other [dm_status]. *)
Theorem getProfileDescription_entries :
  forall (env : Env) (handles : handles_arg) (batch : list InputRecord.t) (w : World),
    (exists out w',
        getProfileDescription env handles w = (Return out, w') /\
        List.length out = List.length (handlesArray_of handles) /\
        Forall2 (fun h value =>
                   profile_truthy value = true /\
                   (exists description, description_of (Some value) = Return description) /\
                   (is_entry value = true \/ inherited_name h = true) /\
                   (forall entry, value = PEntry entry ->
                                  ProfileData.canDm entry = true))
                (handlesArray_of handles) out) /\
    (forall profile e,
        ProfileData.canDm (successEntry profile) = true /\
        ProfileData.canDm notFoundEntry = true /\
        ProfileData.canDm (apiErrorEntry e) = true) /\
    (exists results w',
        processBatch env batch w = (Return results, w') /\
        Forall (fun r =>
                  (ResultRecord.status r = "processed" ->
                   ResultRecord.dm_status r = Some "open") /\
                  (ResultRecord.dm_status r = None \/
                   ResultRecord.dm_status r = Some "open")) results).
Proof.
  intros env handles batch w. split; [|split].
  - destruct (getProfileDescription_total env handles w)
      as (f & w' & Hrun & Hcan & Htruthy & Hentry).
    exists (List.map f (handlesArray_of handles)), w'. split; [exact Hrun|].
    split; [apply length_map|]. clear Hrun.
    induction (handlesArray_of handles) as [|h hs IH]; [constructor|].
    cbn [List.map]. constructor; [|exact IH].
    split; [apply Htruthy|]. split; [apply description_of_truthy, Htruthy|].
    split; [apply Hentry|]. intros entry Hf. by apply (Hcan h).
  - intros profile e. repeat split.
  - destruct (processBatch_detail env batch w)
      as (late & segments & resolution & Hrun & _ & _ & _ & Hfr & _ & _ & Hrecords & _).
    destruct (processedRecords_of env _ _ Hrecords) as (Hproc & _).
    eexists _, _. split; [exact Hrun|].
    apply Forall_app. split.
    + eapply Forall_impl; [exact Hfr|].
      intros r ([Hs|Hs] & _ & Hdm); (split; [rewrite Hs; discriminate|auto]).
    + eapply Forall_impl; [exact Hproc|].
      intros r (Hs & _ & Hdm). auto.
Qed.

Lemma getProfileDescription_entries_witness :
  exists out w',
    getProfileDescription (Examples.env_of Examples.search_zero Examples.snapshot_ready)
      (HSingle "alice") Examples.w0 = (Return out, w') /\
    Forall2 (fun h value => forall entry, value = PEntry entry ->
                                          ProfileData.canDm entry = true)
            ["alice"] out.
Proof.
  destruct (getProfileDescription_entries
              (Examples.env_of Examples.search_zero Examples.snapshot_ready)
              (HSingle "alice") [Examples.alice] Examples.w0)
    as [(out & w' & Hrun & _ & Hall) _].
  exists out, w'. split; [exact Hrun|].
  eapply Forall2_impl; [exact Hall|]. cbn. intros h value (_ & _ & _ & H). exact H.
Defined.
